(** * v5-memory: the memory decision engine

    A shallow embedding of the core of the v5-memory repository
    (scorer, extractor, compressor, file-system store, hierarchical
    storage and the meta engine) together with the properties of its
    specification.

    Conventions of the embedding.
    - A text is a byte string, the UTF-8 encoding of the text.
      [toLowerCase] and the whitespace class of the regular expression
      [\s] are the ASCII ones, and lengths and positions count bytes,
      except where a definition says otherwise: the scorer's
      [normalizeText] and the extractor's [scoreExtraction] read the
      characters and their UTF-16 length off the bytes.
    - A time stamp (an ISO string in the source, read back through
      [new Date(s).getTime()]) is the number of milliseconds since the
      epoch, a [Z]; every operation that calls [Date.now()] takes the
      current time [now] as an argument.
    - A number is a real number: arithmetic is exact, [Math.exp] is
      [exp] and [Math.pow] is [Rpower]; IEEE rounding of intermediate
      results is not modelled.  [NaN] is modelled only where the source
      produces it.  The ratio of two counts that the stores compare
      with 0.8 is kept as a rational [Q], so that the stores compute.
    - An exception is a value of [exn]; a function that can throw
      returns [Result].
    - A JSON document on disk is the record itself: serialising and
      parsing a record is the identity on the fields kept here. *)

From Stdlib Require Import List String Ascii DecimalString ZArith QArith Bool Arith Lia.
From Stdlib Require Import Relations.Relation_Operators Relations.Operators_Properties.
From Stdlib Require Import Reals Lra.
From Stdlib Require Import Sorting.Sorted.
Import ListNotations.

Local Close Scope R_scope.
Local Close Scope Q_scope.
Local Open Scope string_scope.

(** ** JavaScript helpers *)

Module Js.

Definition is_space (c : ascii) : bool :=
  let n := nat_of_ascii c in
  Nat.eqb n 32 || (Nat.leb 9 n && Nat.leb n 13).

Definition is_digit (c : ascii) : bool :=
  let n := nat_of_ascii c in Nat.leb 48 n && Nat.leb n 57.

Definition lower_char (c : ascii) : ascii :=
  let n := nat_of_ascii c in
  if Nat.leb 65 n && Nat.leb n 90 then ascii_of_nat (n + 32) else c.

Fixpoint toLowerCase (s : string) : string :=
  match s with
  | EmptyString => EmptyString
  | String c r => String (lower_char c) (toLowerCase r)
  end.

(** [s.split(/\s+/)]: the pieces between maximal runs of whitespace; a
    leading or trailing run yields an empty first or last piece, and
    the empty string yields one empty piece. *)
Fixpoint split_ws_from (inws : bool) (cur : string) (s : string) : list string :=
  match s with
  | EmptyString => [cur]
  | String c r =>
      if is_space c then
        if inws then split_ws_from true cur r
        else cur :: split_ws_from true EmptyString r
      else split_ws_from false (cur ++ String c EmptyString) r
  end.

Definition split_ws (s : string) : list string :=
  split_ws_from false EmptyString s.

(** [new Set(array)]; only membership and size are observed. *)
Definition Set_of (l : list string) : list string := nodup string_dec l.

Definition has (s : list string) (x : string) : bool :=
  existsb (String.eqb x) s.

Fixpoint starts_with (p s : string) : bool :=
  match p, s with
  | EmptyString, _ => true
  | String a p', String b s' => Ascii.eqb a b && starts_with p' s'
  | String _ _, EmptyString => false
  end.

(** [s.includes(p)], also the test of a regular expression that is a
    plain word. *)
Fixpoint includes (p s : string) : bool :=
  starts_with p s ||
  match s with
  | EmptyString => false
  | String _ s' => includes p s'
  end.

(** Truthiness of a string: the empty string is falsy. *)
Definition truthy (s : string) : bool :=
  match s with EmptyString => false | _ => true end.

(** [a || b] on strings. *)
Definition or_else (a b : string) : string := if truthy a then a else b.

Definition Qltb (x y : Q) : bool := negb (Qle_bool y x).

(** Comparisons of numbers, as booleans. *)
Definition Rltb (x y : R) : bool := if Rlt_dec x y then true else false.
Definition Rleb (x y : R) : bool := if Rle_dec x y then true else false.

(** [x || d] on an optional number: [undefined] and [0] are falsy. *)
Definition num_or (x : option R) (d : R) : R :=
  match x with
  | Some v => if Req_dec_T v 0 then d else v
  | None => d
  end.

(** A destructuring default [{ x = d }]: only [undefined] takes it. *)
Definition num_default (x : option R) (d : R) : R :=
  match x with Some v => v | None => d end.

(** [array.join(sep)] *)
Fixpoint join (sep : string) (l : list string) : string :=
  match l with
  | [] => EmptyString
  | [x] => x
  | x :: r => x ++ sep ++ join sep r
  end.

End Js.

(** ** Exceptions *)

Inductive exn : Type :=
| TypeError (msg : string)
| Error (msg : string).

Inductive Result (A : Type) : Type :=
| Ok (a : A)
| Throw (e : exn).
Arguments Ok {A} a.
Arguments Throw {A} e.

Definition bind {A B : Type} (r : Result A) (k : A -> Result B) : Result B :=
  match r with
  | Ok a => k a
  | Throw e => Throw e
  end.

Notation "x <- c ;; k" := (bind c (fun x => k))
  (at level 61, c at next level, right associativity).

(** ** The memory record (src/shared/types/index.ts and the fields the
    engine, the compressor and the tiered storage add to it) *)

Record V5Dimensions : Type := mkDimensions {
  confidence : option R;
  importance : option R;
  time_decay : option R;
  recall_priority : option R;
  (* read by calculateWriteScore, written by nobody *)
  platformWeight : option R;
  freshness : option R;
  (* written by MemoryCompressor.compress *)
  dim_compressed : bool;
  dim_compression_level : option nat
}.

Record V5Relations : Type := mkRelations {
  supersedes : option string;
  related_to : list string;
  conversation_id : option string;
  turn_id : option string
}.

Record V5Lifecycle : Type := mkLifecycle {
  createdAt : Z;
  updatedAt : Z;
  lastUsedAt : option Z;
  expiresAt : option Z;
  ttl : Z;
  status : string
}.

Record V5Security : Type := mkSecurity {
  sensitivity : string;
  masked : bool;
  origin : string
}.

Record V5MemoryMeta : Type := mkMeta {
  id : string;
  version : string;
  platform : string;
  namespace : string;
  tags : list string;
  dimensions : V5Dimensions;
  relations : V5Relations;
  lifecycle : V5Lifecycle;
  security : V5Security;
  (* [meta.status]: not part of the schema; the property the engine
     assigns in write, handleConflict and cleanup *)
  meta_status : option string;
  (* added by HierarchicalStorage.storeToTier *)
  storage_tier : option string;
  last_migrated : option Z
}.

Record V5MemoryBody : Type := mkBody {
  type : string;
  text : string;
  raw_content : string;
  (* added by MemoryCompressor *)
  original_text : option string;
  compression_level : option nat;
  keywords : list string;
  body_compressed : option bool
}.

Record V5Memory : Type := mkMemory {
  meta : V5MemoryMeta;
  body : V5MemoryBody;
  usageCount : option R
}.

(** Field updates (an assignment [m.meta.x = v] or a spread
    [{...m.meta, x: v}]). *)

Definition with_meta (m : V5Memory) (f : V5MemoryMeta -> V5MemoryMeta) : V5Memory :=
  mkMemory (f (meta m)) (body m) (usageCount m).

Definition with_body (m : V5Memory) (f : V5MemoryBody -> V5MemoryBody) : V5Memory :=
  mkMemory (meta m) (f (body m)) (usageCount m).

Definition set_id (i : string) (x : V5MemoryMeta) : V5MemoryMeta :=
  mkMeta i (version x) (platform x) (namespace x) (tags x) (dimensions x)
    (relations x) (lifecycle x) (security x) (meta_status x) (storage_tier x)
    (last_migrated x).

Definition set_dimensions (d : V5Dimensions) (x : V5MemoryMeta) : V5MemoryMeta :=
  mkMeta (id x) (version x) (platform x) (namespace x) (tags x) d
    (relations x) (lifecycle x) (security x) (meta_status x) (storage_tier x)
    (last_migrated x).

Definition set_relations (r : V5Relations) (x : V5MemoryMeta) : V5MemoryMeta :=
  mkMeta (id x) (version x) (platform x) (namespace x) (tags x) (dimensions x)
    r (lifecycle x) (security x) (meta_status x) (storage_tier x)
    (last_migrated x).

Definition set_lifecycle (l : V5Lifecycle) (x : V5MemoryMeta) : V5MemoryMeta :=
  mkMeta (id x) (version x) (platform x) (namespace x) (tags x) (dimensions x)
    (relations x) l (security x) (meta_status x) (storage_tier x)
    (last_migrated x).

Definition set_security (s : V5Security) (x : V5MemoryMeta) : V5MemoryMeta :=
  mkMeta (id x) (version x) (platform x) (namespace x) (tags x) (dimensions x)
    (relations x) (lifecycle x) s (meta_status x) (storage_tier x)
    (last_migrated x).

Definition set_meta_status (s : string) (x : V5MemoryMeta) : V5MemoryMeta :=
  mkMeta (id x) (version x) (platform x) (namespace x) (tags x) (dimensions x)
    (relations x) (lifecycle x) (security x) (Some s) (storage_tier x)
    (last_migrated x).

Definition set_tier (t : string) (migrated : Z) (x : V5MemoryMeta) : V5MemoryMeta :=
  mkMeta (id x) (version x) (platform x) (namespace x) (tags x) (dimensions x)
    (relations x) (lifecycle x) (security x) (meta_status x) (Some t)
    (Some migrated).

Definition set_supersedes (s : option string) (r : V5Relations) : V5Relations :=
  mkRelations s (related_to r) (conversation_id r) (turn_id r).

Definition set_lastUsedAt (t : Z) (l : V5Lifecycle) : V5Lifecycle :=
  mkLifecycle (createdAt l) (updatedAt l) (Some t) (expiresAt l) (ttl l) (status l).

Definition set_text (t : string) (b : V5MemoryBody) : V5MemoryBody :=
  mkBody (type b) t (raw_content b) (original_text b) (compression_level b)
    (keywords b) (body_compressed b).

(** Shorthands for the paths the source reads. *)
Definition mem_id (m : V5Memory) : string := id (meta m).
Definition mem_text (m : V5Memory) : string := text (body m).
Definition mem_type (m : V5Memory) : string := type (body m).
Definition mem_supersedes (m : V5Memory) : option string := supersedes (relations (meta m)).
Definition mem_status (m : V5Memory) : string := status (lifecycle (meta m)).

(** ** FileSystemStore (src/core/storage/memory_store.js)

    One JSON document per record id in the directory of the store.  The
    store is the list of its documents in directory-listing order, which
    is taken to be creation order; no property below depends on where a
    new document is listed. *)

Module FileSystemStore.

Definition Store : Type := list V5Memory.

(** The filter object of [query]; an absent key is [None]. *)
Record Filters : Type := mkFilters {
  f_status : option string;
  f_platform : option string;
  f_namespace : option string;
  f_type : option string
}.

Definition no_filter : Filters := mkFilters None None None None.

Definition key_matches (k : option string) (v : string) : bool :=
  match k with
  | Some value => String.eqb v value
  | None => true
  end.

Definition matchesFilters (memory : V5Memory) (filters : Filters) : bool :=
  key_matches (f_status filters) (status (lifecycle (meta memory))) &&
  key_matches (f_platform filters) (platform (meta memory)) &&
  key_matches (f_namespace filters) (namespace (meta memory)) &&
  key_matches (f_type filters) (type (body memory)).

Definition query (st : Store) (filters : Filters) : list V5Memory :=
  filter (fun m => matchesFilters m filters) st.

Definition get (st : Store) (i : string) : option V5Memory :=
  find (fun m => String.eqb (mem_id m) i) st.

(** [fs.writeFileSync(getFilePath(id), ...)]: replaces the document of
    that id, or creates it. *)
Fixpoint write_file (m : V5Memory) (st : Store) : Store :=
  match st with
  | [] => [m]
  | r :: rest =>
      if String.eqb (mem_id r) (mem_id m) then m :: rest
      else r :: write_file m rest
  end.

Definition update (st : Store) (memory : V5Memory) : Store :=
  write_file memory st.

(** The decimal digits of [Date.now()] in a generated id. *)
Definition generated_id (now : Z) : string :=
  "mem_" ++ NilZero.string_of_int (Z.to_int now).

Definition add (st : Store) (now : Z) (memory : V5Memory) : Store * string :=
  let i := if Js.truthy (mem_id memory) then mem_id memory else generated_id now in
  (write_file (with_meta memory (set_id i)) st, i).

Fixpoint delete (st : Store) (i : string) : Store :=
  match st with
  | [] => []
  | r :: rest =>
      if String.eqb (mem_id r) i then rest else r :: delete rest i
  end.

Definition count (st : Store) (filters : Filters) : nat :=
  List.length (query st filters).

(** Jaccard similarity of the lower-cased whitespace tokens.  The union
    is never empty, since [split] returns at least one piece. *)
Definition textSimilarity (a b : string) : Q :=
  let setA := Js.Set_of (Js.split_ws (Js.toLowerCase a)) in
  let setB := Js.Set_of (Js.split_ws (Js.toLowerCase b)) in
  let intersection := filter (Js.has setB) setA in
  let union := Js.Set_of (setA ++ setB) in
  Z.of_nat (List.length intersection) # Pos.of_nat (List.length union).

Definition scope_of (memory : V5Memory) : Filters :=
  mkFilters (Some "active") (Some (platform (meta memory)))
    (Some (namespace (meta memory))) None.

Definition findSimilar (st : Store) (memory : V5Memory) : option V5Memory :=
  find (fun m => Js.Qltb 0.8%Q (textSimilarity (mem_text memory) (mem_text m)))
    (query st (scope_of memory)).

End FileSystemStore.

(** ** Scorer (src/core/engine/scorer.js) *)

Module Scorer.

Local Open Scope R_scope.

(** [Math.max(0, Math.min(1, input))] *)
Definition clamp01 (input : R) : R := Rmax 0 (Rmin 1 input).

(** [parseFloat(p.toFixed(4))] for [p >= 0]: the nearest multiple of
    0.0001, the larger one when two are equally near.  [toFixed4_ticks]
    is that multiple counted in ten-thousandths. *)
Definition toFixed4_ticks (p : R) : Z := Zfloor (p * 10000 + / 2).
Definition toFixed4 (p : R) : R := IZR (toFixed4_ticks p) / 10000.

(** The value [p] of [v5Formula] before it is rounded. *)
Definition barrier_equation (input gamma barrier : R) : R :=
  let normalizedInput := clamp01 input in
  let exponent := -2 * gamma * (normalizedInput - barrier) in
  1 / (1 + exp exponent).

Definition v5Formula (input gamma barrier : R) : R :=
  toFixed4 (barrier_equation input gamma barrier).

Definition v5BarrierEquation := v5Formula.

Definition MEMORY_TYPE_THRESHOLDS (t : string) : option R :=
  if String.eqb t "persona" then Some 0.8
  else if String.eqb t "core" then Some 0.6
  else if String.eqb t "episodic" then Some 0.4
  else if String.eqb t "pinned" then Some 1.0
  else None.

Definition typeScores (t : string) : option R :=
  if String.eqb t "pinned" then Some 1.0
  else if String.eqb t "persona" then Some 0.85
  else if String.eqb t "core" then Some 0.7
  else if String.eqb t "episodic" then Some 0.5
  else None.

Definition getTypeScore (t : string) : R := Js.num_or (typeScores t) 0.5.

(** [\w]: an ASCII letter, digit or underscore. *)
Definition is_word (c : ascii) : bool :=
  let n := nat_of_ascii c in
  (Nat.leb 48 n && Nat.leb n 57) || (Nat.leb 65 n && Nat.leb n 90) ||
  (Nat.leb 97 n && Nat.leb n 122) || Nat.eqb n 95.

(** A character of U+4E00 to U+9FFF in UTF-8: the three bytes from
    E4 B8 80 to E9 BF BF. *)
Definition is_cjk (a b c : ascii) : bool :=
  let x := nat_of_ascii a in
  let y := nat_of_ascii b in
  let z := nat_of_ascii c in
  (Nat.leb 228 x && Nat.leb x 233) && (Nat.leb 128 y && Nat.leb y 191) &&
  (Nat.leb 128 z && Nat.leb z 191) && (negb (Nat.eqb x 228) || Nat.leb 184 y).

(** [text.toLowerCase()] as far as [normalizeText] can see it: the ASCII
    capitals, and the two characters outside ASCII whose lower case has
    an ASCII letter, the Kelvin sign U+212A (k) and the dotted capital I
    U+0130 (i and the combining dot U+0307).  The lower case of any
    other character is, like the character, outside the class of the
    [replace] that follows. *)
Fixpoint lowered (s : string) : string :=
  match s with
  | EmptyString => EmptyString
  | String a r1 =>
      match r1 with
      | String b r2 =>
          if Nat.eqb (nat_of_ascii a) 196 && Nat.eqb (nat_of_ascii b) 176
          then String "i" (String (ascii_of_nat 204) (String (ascii_of_nat 135) (lowered r2)))
          else
            match r2 with
            | String c r3 =>
                if Nat.eqb (nat_of_ascii a) 226 && Nat.eqb (nat_of_ascii b) 132 &&
                   Nat.eqb (nat_of_ascii c) 170
                then String "k" (lowered r3)
                else String (Js.lower_char a) (lowered r1)
            | EmptyString => String (Js.lower_char a) (lowered r1)
            end
      | EmptyString => String (Js.lower_char a) EmptyString
      end
  end.

(** [.replace(/[^\w\s\u4e00-\u9fff]/g, ' ')].  A character outside the
    class becomes a blank for each of its bytes, and so does white space
    outside ASCII, which the pattern keeps and [split] then takes for a
    separator: the words that [split] finds are the same. *)
Fixpoint blank_punctuation (s : string) : string :=
  match s with
  | EmptyString => EmptyString
  | String a r1 =>
      let one := String (if is_word a || Js.is_space a then a else " "%char)
                   (blank_punctuation r1) in
      match r1 with
      | String b (String c r3) =>
          if is_cjk a b c then String a (String b (String c (blank_punctuation r3)))
          else one
      | _ => one
      end
  end.

(** [w.length] of a word: its characters, each one UTF-16 unit, counted
    as the bytes that are not continuation bytes. *)
Fixpoint word_length (w : string) : nat :=
  match w with
  | EmptyString => 0
  | String c r =>
      let n := nat_of_ascii c in
      (if Nat.leb 128 n && Nat.leb n 191 then 0 else 1) + word_length r
  end.

Definition normalizeText (text : string) : list string :=
  filter (fun w => Nat.ltb 1 (word_length w))
    (Js.split_ws (blank_punctuation (lowered text))).

Definition calculateKeywordSimilarity (text1 text2 : string) : R :=
  if negb (Js.truthy text1) || negb (Js.truthy text2) then 0
  else
    let words1 := Js.Set_of (normalizeText text1) in
    let words2 := Js.Set_of (normalizeText text2) in
    if Nat.eqb (List.length words1) 0 || Nat.eqb (List.length words2) 0 then 0
    else
      let intersection := Js.Set_of (filter (Js.has words2) words1) in
      let union := Js.Set_of (words1 ++ words2) in
      INR (List.length intersection) / INR (List.length union).

Definition ms_per_day : R := 1000 * 60 * 60 * 24.

Definition calculateTimeDecay (lastUsed : option Z) (halfLife : R) (now : Z) : R :=
  match lastUsed with
  | None => 1
  | Some last =>
      let daysPassed := (IZR now - IZR last) / ms_per_day in
      Rpower 0.5 (daysPassed / halfLife)
  end.

(** The argument [inputScore] that [calculateRecallScore] passes to the
    barrier equation. *)
Definition recall_inputScore (input : string) (memory : V5Memory) (now : Z) : R :=
  let keywordScore := calculateKeywordSimilarity input (mem_text memory) in
  let timeDecay := calculateTimeDecay (lastUsedAt (lifecycle (meta memory))) 7 now in
  let priorityScore := Js.num_or (recall_priority (dimensions (meta memory))) 0.5 in
  let platformWeight := if String.eqb (platform (meta memory)) "deepseek" then 1.0 else 0.9 in
  keywordScore * 0.3 +
  priorityScore * 0.3 +
  timeDecay * 0.2 +
  platformWeight * 0.2.

Definition calculateRecallScore (input : string) (memory : V5Memory)
    (gamma barrier : R) (now : Z) : R :=
  v5Formula (recall_inputScore input memory now) gamma barrier.

Definition calculateWriteScore (memory : V5Memory) : R :=
  let d := dimensions (meta memory) in
  let confidence := Js.num_default (confidence d) 0.8 in
  let importance := Js.num_default (importance d) 0.7 in
  let platformWeight := Js.num_default (platformWeight d) 1.0 in
  let freshness := Js.num_default (freshness d) 0.8 in
  (Js.num_or (Some confidence) 0.8) * 0.4 +
  (Js.num_or (Some importance) 0.7) * 0.3 +
  platformWeight * 0.2 +
  freshness * 0.1.

End Scorer.

(** ** Retriever (src/core/engine/retriever.js) *)

Module Retriever.

Local Open Scope R_scope.

Record Config : Type := mkConfig {
  gamma : R;
  barrier : R;
  threshold : R;
  maxResults : nat;
  typePriority : string -> option R
}.

Definition default_typePriority (t : string) : option R :=
  if String.eqb t "pinned" then Some 3
  else if String.eqb t "persona" then Some 2
  else if String.eqb t "core" then Some 1.5
  else if String.eqb t "episodic" then Some 1
  else None.

Definition default_config : Config :=
  mkConfig 0.85 0.5 0.5 20 default_typePriority.

(** The retriever's own [calculateRecallScore]: the raw score. *)
Definition calculateRecallScore (input : string) (memory : V5Memory)
    (typePriority : string -> option R) (now : Z) : R :=
  let keywordScore := Scorer.calculateKeywordSimilarity input (mem_text memory) in
  let timeScore := Scorer.calculateTimeDecay (lastUsedAt (lifecycle (meta memory))) 7 now in
  let typeScore := Js.num_or (typePriority (mem_type memory)) 1 in
  let priorityScore := Js.num_or (recall_priority (dimensions (meta memory))) 0.5 in
  let platformWeight := 1.0 in
  keywordScore * 0.35 +
  priorityScore * 0.25 +
  timeScore * 0.2 +
  platformWeight * 0.1 +
  (typeScore / 3) * 0.1.

(** [{ ...memory, recallScore, v5Probability }] *)
Record Retrieved : Type := mkRetrieved {
  memory : V5Memory;
  recallScore : R;
  v5Probability : R
}.

Definition score_memory (input : string) (cfg : Config) (now : Z) (m : V5Memory) : Retrieved :=
  let recallScore := calculateRecallScore input m (typePriority cfg) now in
  mkRetrieved m recallScore (Scorer.v5Formula recallScore (gamma cfg) (barrier cfg)).

(** Steps 1 and 2 of [retrieveMemories]: the array [filtered].  Step 3
    sorts it with a comparator that ties scores within 0.1 of each other
    and is therefore not an order, so the arrangement [sort] returns is
    left to the implementation; step 4 keeps [maxResults] of them. *)
Definition filtered (input : string) (memories : list V5Memory) (cfg : Config) (now : Z)
  : list Retrieved :=
  if negb (Js.truthy input) || Nat.eqb (List.length memories) 0 then []
  else
    filter (fun m => Js.Rleb (threshold cfg) (recallScore m))
      (map (score_memory input cfg now) memories).

End Retriever.

(** ** Extractor (src/core/engine/extractor.js) *)

Module Extractor.

(** An extraction candidate, as [extractCandidates] and [extractMemory]
    build it. *)
Record Candidate : Type := mkCandidate {
  c_type : string;
  c_text : string;
  keyInfo : string;
  c_dimensions : option V5Dimensions;
  rawContent : string;
  score : R
}.

Record Context : Type := mkContext {
  ctx_platform : string;
  ctx_namespace : string;
  conversationId : option string;
  turnId : option string
}.

(** [/[a-z]/.test(text)] *)
Fixpoint has_lower_letter (s : string) : bool :=
  match s with
  | EmptyString => false
  | String c r =>
      let n := nat_of_ascii c in
      (Nat.leb 97 n && Nat.leb n 122) || has_lower_letter r
  end.

(** The test of the CJK range U+4E00 to U+9FFF on UTF-8: a three-byte sequence from
    E4 B8 80 to E9 BF BF. *)
Fixpoint has_cjk (s : string) : bool :=
  match s with
  | String a (String b (String c _ as r2) as r1) =>
      let x := nat_of_ascii a in
      let y := nat_of_ascii b in
      let z := nat_of_ascii c in
      ((Nat.leb 228 x && Nat.leb x 233) && (Nat.leb 128 y && Nat.leb y 191) &&
       (Nat.leb 128 z && Nat.leb z 191) && (negb (Nat.eqb x 228) || Nat.leb 184 y))
      || has_cjk r1
  | _ => false
  end.

(** The table [domainTags]: the alternatives of each pattern and its tag. *)
Definition domainTags : list (list string * string) :=
  [ (["技术"; "编程"; "代码"; "开发"], "tech");
    (["设计"; "UI"; "UX"; "视觉"], "design");
    (["写作"; "文章"; "内容"], "writing");
    (["商务"; "商业"; "营销"], "business");
    (["个人"; "生活"; "习惯"], "personal") ].

Definition inferTags (text : string) : list string :=
  let textLower := Js.toLowerCase text in
  let tags : list string :=
    ((if has_lower_letter text then ["english"] else []) ++
     (if has_cjk text then ["chinese"] else []) ++
     flat_map
       (fun entry : list string * string =>
          if existsb (fun alt => Js.includes alt textLower) (fst entry)
          then [snd entry] else [])
       domainTags)%list in
  match tags with
  | [] => ["general"]
  | _ => tags
  end.

Definition default_dimensions : V5Dimensions :=
  mkDimensions (Some 0.7%R) (Some 0.6%R) (Some 0.8%R) (Some 0.7%R) None None false None.

(** A call [v()] whose callee [v] is the number that [Date.now()]
    returned: a number is not callable. *)
Definition call_number (v : Z) : Result Z :=
  Throw (TypeError "Date.now(...) is not a function").

Definition thirty_days_ms : Z := (30 * 24 * 60 * 60 * 1000)%Z.

(** [createMemoryEntry].  [random] is the suffix drawn from
    [Math.random()].  The properties of the object literal are evaluated
    in source order; [expiresAt] is computed from [Date.now()()]. *)
Definition createMemoryEntry (candidate : Candidate) (context : Context)
    (now : Z) (random : string) : Result V5Memory :=
  let i := "mem_" ++ NilZero.string_of_int (Z.to_int now) ++ "_" ++ random in
  let platform := Js.or_else (ctx_platform context) "unknown" in
  let namespace := Js.or_else (ctx_namespace context) "default" in
  let tags := inferTags (c_text candidate) in
  let dimensions :=
    match c_dimensions candidate with
    | Some d => d
    | None => default_dimensions
    end in
  let relations := mkRelations None [] (conversationId context) (turnId context) in
  base <- call_number now ;;
  let lifecycle :=
    mkLifecycle now now (Some now) (Some (base + thirty_days_ms)%Z)
      (30 * 24 * 60 * 60)%Z "active" in
  let security := mkSecurity "normal" false "auto" in
  Ok (mkMemory
        (mkMeta i "v1.0" platform namespace tags dimensions relations lifecycle
           security None None None)
        (mkBody (Js.or_else (c_type candidate) "episodic") (c_text candidate)
           (rawContent candidate) None None [] None)
        None).

End Extractor.

(** ** Injector (src/core/engine/injector.js)

    The engine imports [injectMemory]; this is the one function of that
    name in the repository. *)

Module Injector.

Definition nl : string := String (ascii_of_nat 10) EmptyString.

(** A platform adapter: its name and the two operations the core
    calls. *)
Record Adapter : Type := mkAdapter {
  name : string;
  parseResponse : string -> string;
  inject : string -> string -> string
}.

Definition defaultInject (input context : string) : string :=
  context ++ nl ++ nl ++ "---" ++ nl ++ nl ++ input.

Definition deepseekAdapter : Adapter :=
  mkAdapter "deepseek" (fun response => response)
    (fun input context => context ++ nl ++ nl ++ "---" ++ nl ++ nl ++ "用户：" ++ input).

(** One labelled section of the context block; nothing for an empty
    bucket. *)
Definition section (label : string) (bucket : list V5Memory) : string :=
  match bucket with
  | [] => EmptyString
  | _ => nl ++ label ++ nl ++ Js.join nl (map (fun m => "• " ++ mem_text m) bucket)
  end.

Definition of_type (ty : string) (memories : list V5Memory) : list V5Memory :=
  filter (fun m => String.eqb (Js.or_else (mem_type m) "episodic") ty) memories.

Definition buildContext (memories : list V5Memory) : string :=
  "[Global Memory V5]" ++ nl ++
  "[Meta-Info] Platform: multi, Namespace: default" ++ nl ++
  section "【置顶记忆】" (of_type "pinned" memories) ++
  section "【用户画像】" (of_type "persona" memories) ++
  section "【核心记忆】" (of_type "core" memories) ++
  section "【相关细节】" (of_type "episodic" memories) ++
  nl ++ "【使用规则】以上记忆仅作参考辅助，若与当前指令冲突，请优先执行当前指令。".

(** The object [injectMemory] returns. *)
Record Injection : Type := mkInjection {
  original : string;
  injected : string;
  memories : option nat;
  adapter : string;
  timestamp : option Z
}.

Definition injectMemory (input : string) (memories : list V5Memory) (adapter : Adapter)
    (now : Z) : Injection :=
  match memories with
  | [] => mkInjection input input None (name adapter) None
  | _ =>
      let contextText := buildContext memories in
      let injected :=
        Js.or_else (inject adapter input contextText) (defaultInject input contextText) in
      mkInjection input injected (Some (List.length memories)) (name adapter) (Some now)
  end.

End Injector.

(** ** MemoryCompressor (src/core/compression/compressor.js) *)

Module MemoryCompressor.

(** COMPRESSION_LEVELS *)
Definition NONE : nat := 0.
Definition LIGHT : nat := 1.
Definition MEDIUM : nat := 2.
Definition HEAVY : nat := 3.
Definition SUMMARY : nat := 4.

(** The compressor object.  The keyword extractor it owns and the two
    methods that cut a text into sentences are its members; every
    property below holds whatever text they return. *)
Record t : Type := mkCompressor {
  keepKeywords : nat;
  summaryMaxLength : nat;
  keywordExtractor_extract : string -> nat -> list string;
  extractKeySentences : string -> nat -> list string;
  compressLight : string -> list string -> string
}.

Definition compressMedium (text : string) (keywords keySentences : list string) : string :=
  let result := Js.join "。" (firstn 2 keySentences) in
  let kwText := "[关键词: " ++ Js.join ", " (firstn 3 keywords) ++ "]" in
  kwText ++ " " ++ result.

Definition compressHeavy (this : t) (text : string) (keywords keySentences : list string)
  : string :=
  let firstKey := match keySentences with k :: _ => k | [] => EmptyString end in
  let kwText := "[关键词: " ++ Js.join ", " (firstn 2 keywords) ++ "]" in
  String.substring 0 (summaryMaxLength this) (kwText ++ " " ++ firstKey).

Definition generateSummary (text : string) (keywords : list string) : string :=
  let kwText := Js.join ", " (firstn 2 keywords) in
  let preview := String.substring 0 50 text in
  "[" ++ kwText ++ "] " ++ preview ++ "...".

Local Open Scope R_scope.

Definition typeWeights (t : string) : option R :=
  if String.eqb t "pinned" then Some 1.0
  else if String.eqb t "persona" then Some 0.8
  else if String.eqb t "core" then Some 0.6
  else if String.eqb t "episodic" then Some 0.4
  else None.

Definition evaluateImportance (memory : V5Memory) (now : Z) : R :=
  let lastUsed := match lastUsedAt (lifecycle (meta memory)) with Some l => l | None => 0%Z end in
  let daysSinceUse := (IZR now - IZR lastUsed) / (1000 * 60 * 60 * 24) in
  let usageCount := Js.num_or (usageCount memory) 0 in
  let score := 0 + Rmin (usageCount / 10) 0.4 in
  let score := score + Js.num_or (typeWeights (mem_type memory)) 0.3 in
  let timeDecay := Rpower 0.5 (daysSinceUse / 30) in
  let score := score + timeDecay * 0.3 in
  let score :=
    if String.eqb (sensitivity (security (meta memory))) "highly_sensitive"
    then score * 0.7 else score in
  Rmin score 1.

Definition determineCompressionLevel (memory : V5Memory) (now : Z) : nat :=
  let importance := evaluateImportance memory now in
  if Rlt_dec 0.7 importance then NONE
  else if Rlt_dec 0.5 importance then LIGHT
  else if Rlt_dec 0.3 importance then MEDIUM
  else if Rlt_dec 0.15 importance then HEAVY
  else SUMMARY.

Local Close Scope R_scope.

(** [level || this.determineCompressionLevel(memory)]: [null] and
    [COMPRESSION_LEVELS.NONE], which is 0, are both falsy. *)
Definition effective_level (level : option nat) (memory : V5Memory) (now : Z) : nat :=
  match level with
  | Some (S n) => S n
  | _ => determineCompressionLevel memory now
  end.

(** Whether [compress] hands back the object it was given: the two
    early returns. *)
Definition returns_argument (memory : V5Memory) (level : option nat) (now : Z) : bool :=
  negb (Js.truthy (mem_text memory)) ||
  Nat.eqb (effective_level level memory now) NONE.

Definition compress (this : t) (memory : V5Memory) (level : option nat) (now : Z)
  : V5Memory :=
  let text := mem_text memory in
  if negb (Js.truthy text) then memory
  else
    let compressionLevel := effective_level level memory now in
    if Nat.eqb compressionLevel NONE then memory
    else
      let keywords := keywordExtractor_extract this text (keepKeywords this) in
      let keySentences := extractKeySentences this text compressionLevel in
      let compressedText :=
        match compressionLevel with
        | 1 => compressLight this text keywords
        | 2 => compressMedium text keywords keySentences
        | 3 => compressHeavy this text keywords keySentences
        | 4 => generateSummary text keywords
        | _ => text
        end in
      let b := body memory in
      let d := dimensions (meta memory) in
      mkMemory
        (set_dimensions
           (mkDimensions (confidence d) (Some (evaluateImportance memory now))
              (time_decay d) (recall_priority d) (platformWeight d) (freshness d)
              true (Some compressionLevel))
           (meta memory))
        (mkBody (type b) compressedText (raw_content b) (Some text)
           (Some compressionLevel) keywords (body_compressed b))
        (usageCount memory).

(** [!memory.body?.original_text]: an absent and an empty original are
    both falsy. *)
Definition decompress (memory : V5Memory) : V5Memory :=
  match original_text (body memory) with
  | Some (String c r) =>
      let b := body memory in
      mkMemory (meta memory)
        (mkBody (type b) (String c r) (raw_content b) (original_text b)
           (compression_level b) (keywords b) (Some false))
        (usageCount memory)
  | _ => memory
  end.

End MemoryCompressor.

(** ** HierarchicalStorage (src/core/storage/hierarchical.js) *)

Module HierarchicalStorage.

Record TierConfig : Type := mkTierConfig {
  HOT_maxAge : Z;
  WARM_maxAge : Z
}.

(** STORAGE_TIERS: 7 days, 30 days, and no bound for the cold tier. *)
Definition STORAGE_TIERS : TierConfig :=
  mkTierConfig (7 * 24 * 60 * 60 * 1000)%Z (30 * 24 * 60 * 60 * 1000)%Z.

(** The storage object.  [hotCache] is a [Map] from ids to records, in
    insertion order; a record held in it is shared with whoever obtained
    it from the map, so an assignment to one of its fields shows in the
    map. *)
Record t : Type := mkStorage {
  tierConfig : TierConfig;
  autoCompress : bool;
  compressor : MemoryCompressor.t;
  hotCache : list (string * V5Memory);
  warmStore : FileSystemStore.Store;
  coldStore : FileSystemStore.Store
}.

Definition new (c : MemoryCompressor.t) : t :=
  mkStorage STORAGE_TIERS true c [] [] [].

Definition with_hotCache (this : t) (h : list (string * V5Memory)) : t :=
  mkStorage (tierConfig this) (autoCompress this) (compressor this) h
    (warmStore this) (coldStore this).

Definition with_warmStore (this : t) (s : FileSystemStore.Store) : t :=
  mkStorage (tierConfig this) (autoCompress this) (compressor this) (hotCache this)
    s (coldStore this).

Definition with_coldStore (this : t) (s : FileSystemStore.Store) : t :=
  mkStorage (tierConfig this) (autoCompress this) (compressor this) (hotCache this)
    (warmStore this) s.

(** [Map.prototype.get], [has], [set], [delete], [values]. *)
Fixpoint cache_get (h : list (string * V5Memory)) (i : string) : option V5Memory :=
  match h with
  | [] => None
  | (k, v) :: r => if String.eqb k i then Some v else cache_get r i
  end.

Definition cache_has (h : list (string * V5Memory)) (i : string) : bool :=
  match cache_get h i with Some _ => true | None => false end.

Fixpoint cache_set (h : list (string * V5Memory)) (i : string) (m : V5Memory)
  : list (string * V5Memory) :=
  match h with
  | [] => [(i, m)]
  | (k, v) :: r => if String.eqb k i then (k, m) :: r else (k, v) :: cache_set r i m
  end.

Fixpoint cache_delete (h : list (string * V5Memory)) (i : string)
  : list (string * V5Memory) :=
  match h with
  | [] => []
  | (k, v) :: r => if String.eqb k i then r else (k, v) :: cache_delete r i
  end.

Definition cache_values (h : list (string * V5Memory)) : list V5Memory := map snd h.

(** An assignment to a field of the object the map holds under [i]. *)
Definition cache_mutate (h : list (string * V5Memory)) (i : string) (m : V5Memory)
  : list (string * V5Memory) :=
  if cache_has h i then cache_set h i m else h.

Definition determineTier (this : t) (memory : V5Memory) (now : Z) : string :=
  let lastUsed := match lastUsedAt (lifecycle (meta memory)) with Some l => l | None => now end in
  let age := (now - lastUsed)%Z in
  if Z.ltb age (HOT_maxAge (tierConfig this)) then "hot"
  else if Z.ltb age (WARM_maxAge (tierConfig this)) then "warm"
  else "cold".

(** [levels[tier] || COMPRESSION_LEVELS.MEDIUM]: the level of the hot
    tier is [NONE], which is 0 and falsy. *)
Definition getCompressionLevel (tier : string) : nat :=
  let levels :=
    if String.eqb tier "hot" then Some MemoryCompressor.NONE
    else if String.eqb tier "warm" then Some MemoryCompressor.MEDIUM
    else if String.eqb tier "cold" then Some MemoryCompressor.SUMMARY
    else None in
  match levels with
  | Some (S n) => S n
  | _ => MemoryCompressor.MEDIUM
  end.

(** [storeToTier]: the storage afterwards, the record [processed], and
    whether [processed] is the very object [memory]. *)
Definition storeToTier (this : t) (memory : V5Memory) (tier : string) (now : Z)
  : t * V5Memory * bool :=
  let '(processed, same) :=
    if autoCompress this then
      let compressionLevel := getCompressionLevel tier in
      (MemoryCompressor.compress (compressor this) memory (Some compressionLevel) now,
       MemoryCompressor.returns_argument memory (Some compressionLevel) now)
    else (memory, true) in
  let processed := with_meta processed (set_tier tier now) in
  if String.eqb tier "hot" then
    (with_hotCache this (cache_set (hotCache this) (mem_id processed) processed),
     processed, same)
  else if String.eqb tier "warm" then
    let '(s, i) := FileSystemStore.add (warmStore this) now processed in
    (with_warmStore this s, with_meta processed (set_id i), same)
  else
    let '(s, i) := FileSystemStore.add (coldStore this) now processed in
    (with_coldStore this s, with_meta processed (set_id i), same).

Definition add (this : t) (memory : V5Memory) (now : Z) : t * V5Memory :=
  let tier := determineTier this memory now in
  let '(this, stored, _) := storeToTier this memory tier now in
  (with_hotCache this (cache_set (hotCache this) (mem_id stored) stored), stored).

(** [migrateToTier]: the storage afterwards. *)
Definition migrateToTier (this : t) (i : string) (targetTier : string) (now : Z) : t :=
  match cache_get (hotCache this) i with
  | None => this
  | Some currentMem =>
      let currentTier :=
        match storage_tier (meta currentMem) with
        | Some s => Js.or_else s "hot"
        | None => "hot"
        end in
      if String.eqb currentTier targetTier then this
      else
        let this :=
          if String.eqb currentTier "hot" then
            with_hotCache this (cache_delete (hotCache this) i)
          else if String.eqb currentTier "warm" then
            with_warmStore this (FileSystemStore.delete (warmStore this) i)
          else with_coldStore this (FileSystemStore.delete (coldStore this) i) in
        let '(this, processed, same) := storeToTier this currentMem targetTier now in
        if same then with_hotCache this (cache_mutate (hotCache this) i processed)
        else this
  end.

Definition touch (this : t) (i : string) (now : Z) : t :=
  match cache_get (hotCache this) i with
  | None => this
  | Some mem =>
      let mem := with_meta mem (fun x => set_lifecycle (set_lastUsedAt now (lifecycle x)) x) in
      let this := with_hotCache this (cache_set (hotCache this) i mem) in
      let newTier := determineTier this mem now in
      if negb (match storage_tier (meta mem) with
               | Some s => String.eqb newTier s
               | None => false
               end)
      then migrateToTier this i newTier now
      else this
  end.

(** [get]: the storage afterwards, and whether a record is returned
    ([null] and [undefined] are [false]).  A record returned from the
    first branch is the object found in the map before [touch]. *)
Definition get (this : t) (i : string) (now : Z) : t * bool :=
  if cache_has (hotCache this) i then (touch this i now, true)
  else
    match FileSystemStore.get (warmStore this) i with
    | Some _ =>
        let this := migrateToTier this i "hot" now in
        (this, cache_has (hotCache this) i)
    | None =>
        match FileSystemStore.get (coldStore this) i with
        | Some _ =>
            let this := migrateToTier this i "warm" now in
            (this, cache_has (hotCache this) i)
        | None => (this, false)
        end
    end.

Definition update (this : t) (memory : V5Memory) (now : Z) : t :=
  let tier := determineTier this memory now in
  let this :=
    if String.eqb tier "hot" then
      with_hotCache this (cache_set (hotCache this) (mem_id memory) memory)
    else if String.eqb tier "warm" then
      with_warmStore this (FileSystemStore.update (warmStore this) memory)
    else with_coldStore this (FileSystemStore.update (coldStore this) memory) in
  migrateToTier this (mem_id memory) "hot" now.

Record Filters : Type := mkFilters {
  base : FileSystemStore.Filters;
  f_tier : option string;
  includeAllTiers : bool
}.

(** The storage's own [matchesFilters]: it has no [namespace] case. *)
Definition matchesFilters (memory : V5Memory) (filters : Filters) : bool :=
  FileSystemStore.key_matches (FileSystemStore.f_status (base filters))
    (status (lifecycle (meta memory))) &&
  FileSystemStore.key_matches (FileSystemStore.f_platform (base filters))
    (platform (meta memory)) &&
  FileSystemStore.key_matches (FileSystemStore.f_type (base filters))
    (type (body memory)) &&
  match f_tier filters with
  | Some value =>
      match storage_tier (meta memory) with
      | Some s => String.eqb s value
      | None => false
      end
  | None => true
  end.

Definition query (this : t) (filters : Filters) : list V5Memory :=
  let results := filter (fun m => matchesFilters m filters) (cache_values (hotCache this)) in
  if includeAllTiers filters then
    let warmResults := FileSystemStore.query (warmStore this) (base filters) in
    let coldResults := FileSystemStore.query (coldStore this) (base filters) in
    let ids := map mem_id results in
    results ++ filter (fun m => negb (Js.has ids (mem_id m))) (warmResults ++ coldResults)
  else results.

Definition all_records : Filters := mkFilters FileSystemStore.no_filter None false.

Definition runCompressionCycle (this : t) (now : Z) : t :=
  let allMemories := cache_values (hotCache this) in
  fold_left
    (fun this mem =>
       let currentTier :=
         match storage_tier (meta mem) with
         | Some s => Js.or_else s "hot"
         | None => "hot"
         end in
       let targetTier := determineTier this mem now in
       if negb (String.eqb currentTier targetTier)
       then migrateToTier this (mem_id mem) targetTier now
       else this)
    allMemories this.

End HierarchicalStorage.

(** ** V5MetaEngine (src/core/engine/meta_engine.js) *)

Module V5MetaEngine.

Import FileSystemStore.

Record Budget : Type := mkBudget {
  persona : nat;
  core : nat;
  episodic : nat
}.

(** The engine configuration.  A regular expression of
    [sensitivityPatterns] is its [test] predicate. *)
Record Config : Type := mkConfig {
  gamma : R;
  barrier : R;
  recallThreshold : R;
  writeThreshold : R;
  cfg_platform : string;
  cfg_namespace : string;
  budget : Budget;
  cfg_ttl : Z;
  autoMaskSensitive : bool;
  sensitivityPatterns : list (string -> bool)
}.

(** [/\d{n,}/.test(s)]: a run of at least [n] digits. *)
Fixpoint has_digit_run_from (n run : nat) (s : string) : bool :=
  Nat.leb n run ||
  match s with
  | EmptyString => false
  | String c r =>
      if Js.is_digit c then has_digit_run_from n (S run) r
      else has_digit_run_from n 0 r
  end.

Definition includes_ci (p s : string) : bool := Js.includes p (Js.toLowerCase s).

Definition default_sensitivityPatterns : list (string -> bool) :=
  [ includes_ci "password";
    (fun s => includes_ci "apikey" s || includes_ci "api_key" s || includes_ci "api-key" s);
    includes_ci "secret";
    includes_ci "token";
    includes_ci "otp";
    has_digit_run_from 6 0;
    includes_ci "bank" ].

Definition default_budget : Budget := mkBudget 3 4 6.

Definition default_config : Config :=
  mkConfig 0.85%R 0.5%R 0.5%R 0.6%R "deepseek" "default" default_budget
    (30 * 24 * 60 * 60 * 1000)%Z true default_sensitivityPatterns.

(** [text.replace(/(\d{4,})/g, '****')] *)
Definition flush_digits (run : string) : string :=
  if Nat.leb 4 (String.length run) then "****" else run.

Fixpoint mask_digits_from (run : string) (s : string) : string :=
  match s with
  | EmptyString => flush_digits run
  | String c r =>
      if Js.is_digit c then mask_digits_from (run ++ String c EmptyString) r
      else flush_digits run ++ String c (mask_digits_from EmptyString r)
  end.

(** [.replace(/(password|api[_-]?key|secret|token)[^\s]*/gi, '****')]:
    a keyword and every character up to the next whitespace. *)
Definition starts_keyword (s : string) : bool :=
  let l := Js.toLowerCase s in
  Js.starts_with "password" l || Js.starts_with "apikey" l ||
  Js.starts_with "api_key" l || Js.starts_with "api-key" l ||
  Js.starts_with "secret" l || Js.starts_with "token" l.

Fixpoint mask_keywords_from (skipping : bool) (s : string) : string :=
  match s with
  | EmptyString => EmptyString
  | String c r =>
      if skipping then
        if Js.is_space c then String c (mask_keywords_from false r)
        else mask_keywords_from true r
      else if starts_keyword s then "****" ++ mask_keywords_from true r
      else String c (mask_keywords_from false r)
  end.

Definition maskSensitive (text : string) : string :=
  mask_keywords_from false (mask_digits_from EmptyString text).

Definition processSensitive (cfg : Config) (memory : V5Memory) : V5Memory :=
  if negb (autoMaskSensitive cfg) then memory
  else
    let text := mem_text memory in
    let sensitivity :=
      if existsb (fun pattern => pattern text) (sensitivityPatterns cfg)
      then "highly_sensitive" else "normal" in
    let sec := security (meta memory) in
    if String.eqb sensitivity "highly_sensitive" && negb (masked sec) then
      with_meta (with_body memory (set_text (maskSensitive text)))
        (set_security (mkSecurity sensitivity true (origin sec)))
    else
      with_meta memory (set_security (mkSecurity sensitivity (masked sec) (origin sec))).

(** [processed.meta.relations.supersedes = existing.meta.id] *)
Definition link_supersedes (memory existing : V5Memory) : V5Memory :=
  with_meta memory
    (fun x => set_relations (set_supersedes (Some (mem_id existing)) (relations x)) x).

(** [existing.meta.status = s] *)
Definition assign_meta_status (memory : V5Memory) (s : string) : V5Memory :=
  with_meta memory (set_meta_status s).

(** The second half of the loop body of [write], from the conflict
    check on: the store afterwards and the record pushed on [written]. *)
Definition persist (now : Z) (st : Store) (processed : V5Memory) : Store * V5Memory :=
  match findSimilar st processed with
  | Some existing =>
      let processed := link_supersedes processed existing in
      let existing := assign_meta_status existing "superseded" in
      let st := update st existing in
      let '(st, i) := add st now processed in
      (st, with_meta processed (set_id i))
  | None =>
      let '(st, i) := add st now processed in
      (st, with_meta processed (set_id i))
  end.

(** The body of the loop of [write]: the store after the iteration and
    the record pushed on [written], if any. *)
Definition write_one (cfg : Config) (now : Z) (st : Store) (mem : V5Memory)
  : Store * option V5Memory :=
  let writeScore := Scorer.calculateWriteScore mem in
  if Js.Rltb writeScore (writeThreshold cfg) then (st, None)
  else
    let '(st, w) := persist now st (processSensitive cfg mem) in
    (st, Some w).

Fixpoint write_from (cfg : Config) (now : Z) (st : Store) (memories written : list V5Memory)
  : Store * list V5Memory :=
  match memories with
  | [] => (st, written)
  | mem :: rest =>
      match write_one cfg now st mem with
      | (st', Some w) => write_from cfg now st' rest (written ++ [w])%list
      | (st', None) => write_from cfg now st' rest written
      end
  end.

Definition write (cfg : Config) (now : Z) (st : Store) (memories : list V5Memory)
  : Store * list V5Memory :=
  write_from cfg now st memories [].

(** A JavaScript number that may be [NaN]. *)
Inductive jsnum : Type :=
| Num (r : R)
| NaN.

Definition js_lift2 (f : R -> R -> R) (x y : jsnum) : jsnum :=
  match x, y with
  | Num a, Num b => Num (f a b)
  | _, _ => NaN
  end.

(** [x > y] is false when [x] is [NaN]. *)
Definition js_gt (x : jsnum) (y : R) : bool :=
  match x with
  | Num r => Js.Rltb y r
  | NaN => false
  end.

(** [union.size > 0 ? intersection.size / union.size : 0], where
    [intersection] is an array: [intersection.size] is [undefined] and
    the quotient is [NaN]. *)
Definition size_of_array_over (union : list string) : jsnum :=
  if Nat.ltb 0 (List.length union) then NaN else Num 0%R.

(** The engine's own [textSimilarity]. *)
Definition textSimilarity (a b : string) : jsnum :=
  if negb (Js.truthy a) || negb (Js.truthy b) then Num 0%R
  else
    let setA := Js.Set_of (Js.split_ws (Js.toLowerCase a)) in
    let setB := Js.Set_of (Js.split_ws (Js.toLowerCase b)) in
    let union := Js.Set_of (setA ++ setB) in
    size_of_array_over union.

(** [handleConflict]: the store afterwards, the record with its
    [supersedes] link, and the returned flag. *)
Fixpoint handleConflict_from (st : Store) (memory : V5Memory) (all : list V5Memory)
  : Store * V5Memory * bool :=
  match all with
  | [] => (st, memory, false)
  | existing :: rest =>
      let similarity := textSimilarity (mem_text memory) (mem_text existing) in
      if js_gt similarity 0.8%R then
        let memory := link_supersedes memory existing in
        let existing := assign_meta_status existing "superseded" in
        (update st existing, memory, true)
      else handleConflict_from st memory rest
  end.

Definition handleConflict (st : Store) (memory : V5Memory) : Store * V5Memory * bool :=
  handleConflict_from st memory (query st (scope_of memory)).

(** [calculateMatchScore] *)
Definition calculateMatchScore (input : string) (memory : V5Memory) (now : Z) : jsnum :=
  let text := mem_text memory in
  let inputWords := Js.Set_of (Js.split_ws (Js.toLowerCase input)) in
  let memoryWords := Js.Set_of (Js.split_ws (Js.toLowerCase text)) in
  let union := Js.Set_of (inputWords ++ memoryWords) in
  let keywordScore := size_of_array_over union in
  let priorityScore := Js.num_or (recall_priority (dimensions (meta memory))) 0.5%R in
  let daysPassed :=
    match lastUsedAt (lifecycle (meta memory)) with
    | Some lastUsed => ((IZR now - IZR lastUsed) / (1000 * 60 * 60 * 24))%R
    | None => 0%R
    end in
  let timeDecay := Rpower 0.5 (daysPassed / 7) in
  let platformWeight := 1.0%R in
  let typeScore := Js.num_or (Scorer.typeScores (mem_type memory)) 0.5%R in
  js_lift2 Rplus
    (js_lift2 Rmult keywordScore (Num 0.35%R))
    (Num (priorityScore * 0.25 + timeDecay * 0.2 + platformWeight * 0.1 + typeScore * 0.1)%R).

(** [cleanup]: the store afterwards and the number of records swept. *)
Definition cleanup_step (now : Z) (acc : Store * nat) (mem : V5Memory) : Store * nat :=
  let '(st, cleaned) := acc in
  if String.eqb (status (lifecycle (meta mem))) "deleted" then (st, cleaned)
  else
    match expiresAt (lifecycle (meta mem)) with
    | Some e =>
        if Z.ltb e now then
          (update st (assign_meta_status mem "expired"), S cleaned)
        else (st, cleaned)
    | None => (st, cleaned)
    end.

Definition engine_scope (cfg : Config) : Filters :=
  mkFilters None (Some (cfg_platform cfg)) (Some (cfg_namespace cfg)) None.

Definition active_scope (cfg : Config) : Filters :=
  mkFilters (Some "active") (Some (cfg_platform cfg)) (Some (cfg_namespace cfg)) None.

Definition cleanup (cfg : Config) (now : Z) (st : Store) : Store * nat :=
  let all := query st (engine_scope cfg) in
  fold_left (cleanup_step now) all (st, 0%nat).

(** [{ ...mem, recallScore }] *)
Record Scored : Type := mkScored {
  memory : V5Memory;
  recallScore : R
}.

Definition scored_type (m : Scored) : string := mem_type (memory m).

(** [budget[type]] *)
Definition budget_of (b : Budget) (ty : string) : option nat :=
  if String.eqb ty "persona" then Some (persona b)
  else if String.eqb ty "core" then Some (core b)
  else if String.eqb ty "episodic" then Some (episodic b)
  else None.

(** [items.slice(0, n)]; the whole array when [n] is [undefined]. *)
Definition slice0 {A : Type} (items : list A) (n : option nat) : list A :=
  match n with
  | Some k => firstn k items
  | None => items
  end.

Definition bucket (scored : list Scored) (b : Budget) (ty : string) : list Scored :=
  let items := filter (fun m => String.eqb (scored_type m) ty) scored in
  slice0 items (budget_of b ty).

Definition allocateBudget (scored : list Scored) (b : Budget) : list Scored :=
  (bucket scored b "persona" ++ bucket scored b "core" ++ bucket scored b "episodic")%list.

(** [array.sort((a, b) => b.recallScore - a.recallScore)]: a stable
    sort, highest score first. *)
Fixpoint insert_desc (x : Scored) (l : list Scored) : list Scored :=
  match l with
  | [] => [x]
  | y :: r =>
      if Js.Rleb (recallScore y) (recallScore x) then x :: y :: r
      else y :: insert_desc x r
  end.

Fixpoint sort_desc (l : list Scored) : list Scored :=
  match l with
  | [] => []
  | x :: r => insert_desc x (sort_desc r)
  end.

(** The part of [recall] that follows the scoring: the pool [scored],
    the score filter, the sort and the budget. *)
Definition recall_select (cfg : Config) (scored : list Scored) : list Scored :=
  let filtered :=
    sort_desc (filter (fun m => Js.Rleb (recallThreshold cfg) (recallScore m)) scored) in
  allocateBudget filtered (budget cfg).

Definition recall (cfg : Config) (st : Store) (input : string) (now : Z) : list Scored :=
  let memories := query st (active_scope cfg) in
  let scored :=
    map (fun mem =>
           mkScored mem (Scorer.calculateRecallScore input mem (gamma cfg) (barrier cfg) now))
      memories in
  recall_select cfg scored.

(** The counters [used] of [cropMemories]. *)
Record Used : Type := mkUsed {
  used_persona : nat;
  used_core : nat;
  used_episodic : nat
}.

(** [used[type]]: a count for the three own keys; for any other key
    [undefined] or a member of [Object.prototype], neither of which is
    less than a number. *)
Definition used_of (u : Used) (ty : string) : option nat :=
  if String.eqb ty "persona" then Some (used_persona u)
  else if String.eqb ty "core" then Some (used_core u)
  else if String.eqb ty "episodic" then Some (used_episodic u)
  else None.

(** [used[type]++] *)
Definition increment (u : Used) (ty : string) : Used :=
  if String.eqb ty "persona" then mkUsed (S (used_persona u)) (used_core u) (used_episodic u)
  else if String.eqb ty "core" then mkUsed (used_persona u) (S (used_core u)) (used_episodic u)
  else if String.eqb ty "episodic" then mkUsed (used_persona u) (used_core u) (S (used_episodic u))
  else u.

(** [budget[type] || 6] *)
Definition budget_or_six (b : Budget) (ty : string) : nat :=
  match budget_of b ty with
  | Some (S n) => S n
  | _ => 6
  end.

Fixpoint cropMemories_from (b : Budget) (used : Used) (sortedMemories : list Scored)
  : list Scored :=
  match sortedMemories with
  | [] => []
  | mem :: rest =>
      let ty := Js.or_else (scored_type mem) "episodic" in
      match used_of used ty with
      | Some n =>
          if Nat.ltb n (budget_or_six b ty)
          then mem :: cropMemories_from b (increment used ty) rest
          else cropMemories_from b used rest
      | None => cropMemories_from b used rest
      end
  end.

Definition cropMemories (cfg : Config) (sortedMemories : list Scored) : list Scored :=
  cropMemories_from (budget cfg) (mkUsed 0 0 0) sortedMemories.

(** *** processTurn

    The four phases are methods of the engine that read and change the
    world [W] (the store, the adapter) and may throw. *)

Definition M (W A : Type) : Type := W -> Result A * W.

Record Phases (W : Type) : Type := mkPhases {
  ph_recall : string -> M W (list Scored);
  ph_inject : string -> list Scored -> M W Injector.Injection;
  ph_extract : string -> M W (list Extractor.Candidate);
  ph_write : list Extractor.Candidate -> M W (list V5Memory)
}.
Arguments ph_recall {W} _ _ _.
Arguments ph_inject {W} _ _ _ _.
Arguments ph_extract {W} _ _ _.
Arguments ph_write {W} _ _ _.

Record TurnError : Type := mkTurnError {
  phase : string;
  error : exn;
  timestamp : Z
}.

(** The result object; [injected] starts as an empty array and becomes
    the value the inject phase returns. *)
Record TurnResult : Type := mkTurnResult {
  input : string;
  response : string;
  extracted : list Extractor.Candidate;
  recalled : list Scored;
  injected : option Injector.Injection;
  written : list V5Memory;
  errors : list TurnError
}.

Definition caught (result : TurnResult) (e : exn) (now : Z) : TurnResult :=
  mkTurnResult (input result) (response result) (extracted result) (recalled result)
    (injected result) (written result)
    (errors result ++ [mkTurnError "processTurn" e now])%list.

Definition processTurn {W : Type} (this : Phases W) (now : Z) (input response : string)
  : W -> TurnResult * W :=
  fun w =>
    let result := mkTurnResult input response [] [] None [] [] in
    match ph_recall this input w with
    | (Throw e, w) => (caught result e now, w)
    | (Ok r, w) =>
        let result := mkTurnResult input response [] r None [] [] in
        match ph_inject this input r w with
        | (Throw e, w) => (caught result e now, w)
        | (Ok i, w) =>
            let result := mkTurnResult input response [] r (Some i) [] [] in
            match ph_extract this response w with
            | (Throw e, w) => (caught result e now, w)
            | (Ok x, w) =>
                let result := mkTurnResult input response x r (Some i) [] [] in
                match ph_write this x w with
                | (Throw e, w) => (caught result e now, w)
                | (Ok wr, w) => (mkTurnResult input response x r (Some i) wr [], w)
                end
            end
        end
    end.

(** The phases of a run that records which of them were entered: the
    world is the list of their names. *)
Definition logged {A : Type} (name : string) (r : Result A) : M (list string) A :=
  fun log => (r, (log ++ [name])%list).

Definition logging_phases (recall_result : Result (list Scored))
    (inject_result : Result Injector.Injection)
    (extract_result : Result (list Extractor.Candidate))
    (write_result : Result (list V5Memory)) : Phases (list string) :=
  mkPhases (list string)
    (fun _ => logged "recall" recall_result)
    (fun _ _ => logged "inject" inject_result)
    (fun _ => logged "extract" extract_result)
    (fun _ => logged "write" write_result).

(** *** extractAndSave

    [calculateWriteScore] is called with four numbers; it reads
    [memory.meta.dimensions] of its first argument, and [meta] of a
    number is [undefined]. *)
Definition calculateWriteScore_of_number (confidence : R) : Result R :=
  Throw (TypeError "Cannot read properties of undefined (reading 'dimensions')").

Definition extractAndSave (platformAdapter : option (string -> string))
    (conversation platform : string) : Result (option V5Memory) :=
  match platformAdapter with
  | None => Throw (Error ("未适配平台：" ++ platform))
  | Some parseResponse =>
      let parsedContent := parseResponse conversation in
      writeScore <- calculateWriteScore_of_number 0.8%R ;;
      Ok None
  end.

End V5MetaEngine.

(** ** Sample data used by the concrete checks *)

Module Sample.

Definition day : Z := (24 * 60 * 60 * 1000)%Z.

(** 2026-02-19T00:00:00Z *)
Definition t0 : Z := 1771459200000%Z.

Definition dims : V5Dimensions :=
  mkDimensions (Some 0.8%R) (Some 0.7%R) (Some 0.9%R) (Some 1%R) None None false None.

(** A record as the extractor lays it out: active, created and last
    used at [used], expiring 30 days later, no predecessor. *)
Definition record_at (used : Z) (i ty txt : string) : V5Memory :=
  mkMemory
    (mkMeta i "v1.0" "deepseek" "default" ["general"] dims
       (mkRelations None [] None None)
       (mkLifecycle used used (Some used) (Some (used + 30 * day)%Z)
          (30 * 24 * 60 * 60)%Z "active")
       (mkSecurity "normal" false "auto")
       None None None)
    (mkBody ty txt "" None None [] None)
    None.

Definition record (i ty txt : string) : V5Memory := record_at t0 i ty txt.

(** A compressor whose keyword extractor returns the first tokens and
    whose sentence methods return the text whole. *)
Definition compressor : MemoryCompressor.t :=
  MemoryCompressor.mkCompressor 5 100
    (fun text count => firstn count (Scorer.normalizeText text))
    (fun text level => [text])
    (fun text keywords => text).

End Sample.

(** ** Version chains *)

Module Chain.

Import FileSystemStore.

(** [a] supersedes [b] in the store: a document of id [a] whose
    [relations.supersedes] is [b]. *)
Definition supersedes_edge (st : Store) (a b : string) : Prop :=
  exists r, In r st /\ mem_id r = a /\ mem_supersedes r = Some b.

(** No record supersedes, directly or through a chain, itself. *)
Definition acyclic (st : Store) : Prop :=
  forall a, ~ clos_trans string (supersedes_edge st) a a.

(** The id is neither used nor referred to in the store. *)
Definition fresh (st : Store) (i : string) : Prop :=
  (forall r, In r st -> mem_id r <> i) /\
  (forall r, In r st -> mem_supersedes r <> Some i).

Definition unique_ids (st : Store) : Prop := NoDup (map mem_id st).


End Chain.

(** ** The properties as the specification words them *)

Module Spec.

Import FileSystemStore.

(** Conflict resolution: a record at least 0.8 similar to an active
    record of its scope supersedes exactly one prior record, which then
    is no longer active. *)
Definition conflict_resolution (cfg : V5MetaEngine.Config) (now : Z) (st : Store)
    (m : V5Memory) : Prop :=
  (exists e, In e (query st (scope_of m)) /\
             (0.8 <= textSimilarity (mem_text m) (mem_text e))%Q) ->
  exists e w st',
    V5MetaEngine.write cfg now st [m] = (st', [w]) /\
    In e st /\
    mem_supersedes w = Some (mem_id e) /\
    (forall r, In r (query st' (scope_of m)) -> mem_id r <> mem_id e) /\
    Chain.acyclic st'.

(** Fail-open turn: whatever the phases return, all four are entered. *)
Definition every_phase_runs (recall_result : Result (list V5MetaEngine.Scored))
    (inject_result : Result Injector.Injection)
    (extract_result : Result (list Extractor.Candidate))
    (write_result : Result (list V5Memory)) : Prop :=
  forall now input response,
    snd (V5MetaEngine.processTurn
           (V5MetaEngine.logging_phases recall_result inject_result extract_result
              write_result) now input response [])
    = ["recall"; "inject"; "extract"; "write"].

(** Expiry sweep: after [cleanup], a non-deleted record of the scope
    whose [expiresAt] has passed is [expired]. *)
Definition swept (cfg : V5MetaEngine.Config) (now : Z) (st : Store) : Prop :=
  forall m e,
    In m (query (fst (V5MetaEngine.cleanup cfg now st)) (V5MetaEngine.engine_scope cfg)) ->
    mem_status m <> "deleted" ->
    expiresAt (lifecycle (meta m)) = Some e -> (e < now)%Z ->
    mem_status m = "expired".

(** Promotion: a [get] on a record of the warm or cold tier leaves it
    in the hot tier. *)
Definition promoted_by_get (this : HierarchicalStorage.t) (i : string) (now : Z) : Prop :=
  forall m,
    (FileSystemStore.get (HierarchicalStorage.warmStore this) i = Some m \/
     FileSystemStore.get (HierarchicalStorage.coldStore this) i = Some m) ->
    exists m',
      HierarchicalStorage.cache_get
        (HierarchicalStorage.hotCache (fst (HierarchicalStorage.get this i now))) i = Some m' /\
      storage_tier (meta m') = Some "hot".

(** Budget allocation: every record of the output exceeds the recall
    threshold. *)
Definition output_exceeds_threshold (cfg : V5MetaEngine.Config)
    (scored : list V5MetaEngine.Scored) : Prop :=
  forall m, In m (V5MetaEngine.recall_select cfg scored) ->
            (V5MetaEngine.recallThreshold cfg < V5MetaEngine.recallScore m)%R.

(** Recall score: the activation of 35% keyword overlap, 25% recall
    priority, 20% time decay and 10% of a platform-weight constant. *)
Definition recall_score_weights (input : string) (memory : V5Memory)
    (gamma barrier : R) (now : Z) : Prop :=
  exists platformWeight : R,
    (0 <= platformWeight <= 1)%R /\
    Scorer.calculateRecallScore input memory gamma barrier now =
    Scorer.v5Formula
      (Scorer.calculateKeywordSimilarity input (mem_text memory) * 0.35 +
       Js.num_or (recall_priority (dimensions (meta memory))) 0.5 * 0.25 +
       Scorer.calculateTimeDecay (lastUsedAt (lifecycle (meta memory))) 7 now * 0.2 +
       platformWeight * 0.1)%R
      gamma barrier.

(** Activation: strictly increasing in the input on [0,1]. *)
Definition strictly_increasing (gamma barrier : R) : Prop :=
  forall x y : R,
    (0 <= x)%R -> (x < y)%R -> (y <= 1)%R ->
    (Scorer.v5Formula x gamma barrier < Scorer.v5Formula y gamma barrier)%R.

(** Round trip: decompressing a compressed record restores its text. *)
Definition round_trip (this : MemoryCompressor.t) (memory : V5Memory)
    (level : option nat) (now : Z) : Prop :=
  mem_text (MemoryCompressor.decompress (MemoryCompressor.compress this memory level now))
  = mem_text memory.

(** Budget steps: what [allocateBudget] and [cropMemories] emit has
    [body.type] persona, core or episodic. *)
Definition only_budgeted_types (cfg : V5MetaEngine.Config)
    (scored : list V5MetaEngine.Scored) : Prop :=
  forall m,
    In m (V5MetaEngine.allocateBudget scored (V5MetaEngine.budget cfg)) \/
    In m (V5MetaEngine.cropMemories cfg scored) ->
    V5MetaEngine.scored_type m = "persona" \/ V5MetaEngine.scored_type m = "core" \/
    V5MetaEngine.scored_type m = "episodic".

End Spec.

(** ** What [cleanup] does to one record *)

Definition sweep (cfg : V5MetaEngine.Config) (now : Z) (r : V5Memory) : V5Memory :=
  if FileSystemStore.matchesFilters r (V5MetaEngine.engine_scope cfg) &&
     negb (String.eqb (mem_status r) "deleted") &&
     match expiresAt (lifecycle (meta r)) with
     | Some e => Z.ltb e now
     | None => false
     end
  then V5MetaEngine.assign_meta_status r "expired"
  else r.

(** ** Counting the records of a type in a recall output *)

Definition count_type (ty : string) (l : list V5MetaEngine.Scored) : nat :=
  List.length (filter (fun m => String.eqb (V5MetaEngine.scored_type m) ty) l).

(** The type under which [cropMemories] counts a record:
    [mem.body?.type || 'episodic']. *)
Definition crop_type (m : V5MetaEngine.Scored) : string :=
  Js.or_else (V5MetaEngine.scored_type m) "episodic".

Definition budgeted_type (ty : string) : Prop :=
  ty = "persona" \/ ty = "core" \/ ty = "episodic".

(** ** Scorer: adjusting the parameters (src/core/engine/scorer.js) *)

Module Tuning.

Local Open Scope R_scope.

(** The object [params]; an absent key is [None]. *)
Record Params : Type := mkParams {
  p_gamma : option R;
  p_barrier : option R
}.

(** The object [feedback]: the truthiness of its two flags. *)
Record Feedback : Type := mkFeedback {
  irrelevant : bool;
  useful : bool
}.

(** The object [adjustV5Params] returns. *)
Record Adjusted : Type := mkAdjusted {
  gamma : R;
  barrier : R
}.

Definition adjustV5Params (params : Params) (feedback : Feedback) : Adjusted :=
  let gamma := Js.num_default (p_gamma params) 0.85 in
  let barrier := Js.num_default (p_barrier params) 0.5 in
  if irrelevant feedback then
    mkAdjusted (Rmin (gamma * 1.1) 1.5) (Rmin (barrier + 0.05) 0.9)
  else if useful feedback then
    mkAdjusted (Rmax (gamma * 0.9) 0.5) (Rmax (barrier - 0.05) 0.3)
  else mkAdjusted gamma barrier.

(** The returned object, passed as [params] of the next call. *)
Definition as_params (a : Adjusted) : Params := mkParams (Some (gamma a)) (Some (barrier a)).

(** [n] calls in a row with the same feedback, each on the result of
    the one before. *)
Fixpoint adjusted_times (n : nat) (params : Params) (feedback : Feedback) : Adjusted :=
  match n with
  | O => adjustV5Params params (mkFeedback false false)
  | S k => adjustV5Params (as_params (adjusted_times k params feedback)) feedback
  end.

End Tuning.

(** ** MemoryCompressor: a batch (src/core/compression/compressor.js) *)

Module CompressorBatch.

(** [memories.map(m => this.compress(m))]: each record at the level its
    importance determines. *)
Definition compressBatch (this : MemoryCompressor.t) (memories : list V5Memory) (now : Z)
  : list V5Memory :=
  map (fun m => MemoryCompressor.compress this m None now) memories.

End CompressorBatch.

(** ** HierarchicalStorage: start-up and removal
    (src/core/storage/hierarchical.js) *)

Module TierMaintenance.

Import HierarchicalStorage.

(** [rebuildCache], which [init] runs once: every record of the warm
    and of the cold store is put in [hotCache] under its id.  A cold
    record is put there as a copy whose text is [body.summary] when
    there is one; no code of the repository writes that key, so the copy
    has the text of the record. *)
Definition rebuildCache (this : t) : t :=
  let load h (memories : list V5Memory) :=
    fold_left (fun h mem => cache_set h (mem_id mem) mem) memories h in
  let warmMemories := FileSystemStore.query (warmStore this) FileSystemStore.no_filter in
  let coldMemories := FileSystemStore.query (coldStore this) FileSystemStore.no_filter in
  with_hotCache this (load (load (hotCache this) warmMemories) coldMemories).

(** [delete]: from the cache and from both stores. *)
Definition delete (this : t) (i : string) : t :=
  let this := with_hotCache this (cache_delete (hotCache this) i) in
  let this := with_warmStore this (FileSystemStore.delete (warmStore this) i) in
  with_coldStore this (FileSystemStore.delete (coldStore this) i).

(** The cache as a [Map] has it: one entry per key, and every record
    under its own id, which is how [add], [storeToTier] and
    [rebuildCache] enter it. *)
Definition cache_by_id (h : list (string * V5Memory)) : Prop :=
  NoDup (map fst h) /\ forall k v, In (k, v) h -> mem_id v = k.

(** [cleanup]: the cold records not used for more than 180 days are
    deleted from the cold store.  The storage afterwards and the number
    of records deleted; a record without [lastUsedAt] counts as last
    used at the epoch. *)
Definition days_180 : Z := (180 * (1000 * 60 * 60 * 24))%Z.

Definition long_unused (now : Z) (mem : V5Memory) : bool :=
  let lastUsed := match lastUsedAt (lifecycle (meta mem)) with Some l => l | None => 0%Z end in
  Z.ltb days_180 (now - lastUsed).

Definition cleanup (this : t) (now : Z) : t * nat :=
  let coldMemories := FileSystemStore.query (coldStore this) FileSystemStore.no_filter in
  let '(cold, cleaned) :=
    fold_left
      (fun (acc : FileSystemStore.Store * nat) mem =>
         if long_unused now mem
         then (FileSystemStore.delete (fst acc) (mem_id mem), S (snd acc))
         else acc)
      coldMemories (coldStore this, 0%nat) in
  (with_coldStore this cold, cleaned).

End TierMaintenance.

(** ** Object literals used as tables *)

Module JsObject.

(** The names that every object literal inherits from
    [Object.prototype].  A look-up under one of them finds a function
    (the prototype itself under [__proto__]): a value that is truthy, is
    not a number and has none of the members the code goes on to use. *)
Definition inherited (key : string) : bool :=
  existsb (String.eqb key)
    ["constructor"; "__defineGetter__"; "__defineSetter__"; "hasOwnProperty";
     "__lookupGetter__"; "__lookupSetter__"; "isPrototypeOf"; "propertyIsEnumerable";
     "toString"; "valueOf"; "__proto__"; "toLocaleString"].

End JsObject.

(** ** Extractor: scoring and de-duplicating candidates
    (src/core/engine/extractor.js) *)

Module ExtractorFilter.

Import Extractor.

(** [s.replace(/\s/g, '')] *)
Fixpoint remove_ws (s : string) : string :=
  match s with
  | EmptyString => EmptyString
  | String c r => if Js.is_space c then remove_ws r else String c (remove_ws r)
  end.

(** The key under which [deduplicate] remembers a candidate. *)
Definition normalized (c : Candidate) : string := remove_ws (Js.toLowerCase (c_text c)).

Fixpoint deduplicate_from (seen : list string) (candidates : list Candidate) : list Candidate :=
  match candidates with
  | [] => []
  | c :: rest =>
      if Js.has seen (normalized c) then deduplicate_from seen rest
      else c :: deduplicate_from (normalized c :: seen) rest
  end.

Definition deduplicate (candidates : list Candidate) : list Candidate :=
  deduplicate_from [] candidates.

(** [s.length]: the number of UTF-16 code units of a text held as
    UTF-8.  A byte that starts a character counts one, the first byte of
    a four-byte character counts two (a surrogate pair), a continuation
    byte counts nothing. *)
Fixpoint length16 (s : string) : nat :=
  match s with
  | EmptyString => 0
  | String c r =>
      let n := nat_of_ascii c in
      (if Nat.leb 128 n && Nat.leb n 191 then 0
       else if Nat.leb 240 n then 2 else 1) + length16 r
  end.

(** The number of pieces of [fullText.split(p)] less one, for a
    non-empty [p]: the occurrences of [p], counted from the left without
    overlap.  [skip] is the number of characters still covered by the
    occurrence found last. *)
Fixpoint occurrences_from (p : string) (skip : nat) (s : string) : nat :=
  match s with
  | EmptyString => 0
  | String c r =>
      match skip with
      | S k => occurrences_from p k r
      | O =>
          if Js.starts_with p s then S (occurrences_from p (String.length p - 1) r)
          else occurrences_from p 0 r
      end
  end.

(** [fullText.split(text).length - 1]; an empty separator splits a text
    into its code units. *)
Definition duplicates (fullText text : string) : Z :=
  match text with
  | EmptyString => (Z.of_nat (length16 fullText) - 1)%Z
  | _ => Z.of_nat (occurrences_from text 0 fullText)
  end.

(** [/我|我们|本人/.test(text)] *)
Definition has_pronoun (text : string) : bool :=
  Js.includes "我" text || Js.includes "我们" text || Js.includes "本人" text.

Local Open Scope R_scope.

(** The own keys of the table [typeWeights]. *)
Definition typeWeights (t : string) : option R :=
  if String.eqb t "persona" then Some 0.9
  else if String.eqb t "core" then Some 0.85
  else if String.eqb t "episodic" then Some 0.7
  else None.

(** [scoreExtraction].  Under a type that names an inherited member the
    table gives that member, the product with it is [NaN], and [NaN] it
    stays through the last two steps. *)
Definition scoreExtraction (candidate : Candidate) (fullText : string) : V5MetaEngine.jsnum :=
  let score := 0.5 in
  let len := length16 (c_text candidate) in
  let score :=
    if Nat.leb 10 len && Nat.leb len 100 then score + 0.2
    else if Nat.ltb 100 len then score - 0.1
    else score in
  let score := if has_pronoun (c_text candidate) then score + 0.15 else score in
  if JsObject.inherited (c_type candidate) then V5MetaEngine.NaN
  else
    let score := score * Js.num_or (typeWeights (c_type candidate)) 0.5 in
    let score :=
      if Z.ltb 1 (duplicates fullText (c_text candidate)) then score * 0.8 else score in
    V5MetaEngine.Num (Rmin score 1).

(** [{ ...c, score: scoreExtraction(c, text) }] for a candidate that
    passes [c.score >= 0.4], which [NaN] does not. *)
Definition scored (fullText : string) (c : Candidate) : option Candidate :=
  match scoreExtraction c fullText with
  | V5MetaEngine.Num s =>
      if Js.Rleb 0.4 s
      then Some (mkCandidate (c_type c) (c_text c) (keyInfo c) (c_dimensions c) (rawContent c) s)
      else None
  | V5MetaEngine.NaN => None
  end.

(** Steps 3 and 4 of [extractMemory], on the candidates that
    [extractCandidates] found in the response [text]. *)
Definition filter_and_deduplicate (candidates : list Candidate) (text : string)
  : list Candidate :=
  deduplicate
    (flat_map (fun c => match scored text c with Some k => [k] | None => [] end) candidates).

End ExtractorFilter.

(** ** Injector: the adapters by platform (src/core/engine/injector.js) *)

Module InjectorAdapters.

Import Injector.

(** The response is a text here, which [parseResponse] returns as it
    is. *)
Definition chatgptAdapter : Adapter :=
  mkAdapter "chatgpt" (fun response => response)
    (fun input context => context ++ nl ++ nl ++ "---" ++ nl ++ nl ++ input).

Definition claudeAdapter : Adapter :=
  mkAdapter "claude" (fun response => response)
    (fun input context => context ++ nl ++ nl ++ "---" ++ nl ++ nl ++ input).

(** [adapters[platform] || deepseekAdapter]: an adapter, or [None] for
    a platform that names an inherited member, which is what the
    look-up then returns in place of an adapter. *)
Definition getAdapter (platform : string) : option Adapter :=
  if String.eqb platform "deepseek" then Some deepseekAdapter
  else if String.eqb platform "chatgpt" then Some chatgptAdapter
  else if String.eqb platform "claude" then Some claudeAdapter
  else if String.eqb platform "claude-3-opus" then Some claudeAdapter
  else if String.eqb platform "claude-3-sonnet" then Some claudeAdapter
  else if String.eqb platform "gpt-4" then Some chatgptAdapter
  else if String.eqb platform "gpt-3.5-turbo" then Some chatgptAdapter
  else if JsObject.inherited platform then None
  else Some deepseekAdapter.

(** The type under which [buildContext] files a record:
    [m.body.type || 'episodic']. *)
Definition context_type (m : V5Memory) : string := Js.or_else (mem_type m) "episodic".

(** The types that [buildContext] has a section for. *)
Definition has_section (m : V5Memory) : bool :=
  let ty := Js.or_else (mem_type m) "episodic" in
  String.eqb ty "pinned" || String.eqb ty "persona" || String.eqb ty "core" ||
  String.eqb ty "episodic".

End InjectorAdapters.

(** ** Retriever: similarity of embeddings (src/core/engine/retriever.js) *)

Module Semantic.

Local Open Scope R_scope.

(** The result of a division: a number, [NaN] (0 by 0) or an infinity
    (anything else by 0). *)
Inductive quotient : Type :=
| Finite (r : R)
| NotANumber
| Infinite.

(** [x / y] for a divisor that is not negative. *)
Definition js_div (x y : R) : quotient :=
  if Req_dec_T y 0 then (if Req_dec_T x 0 then NotANumber else Infinite)
  else Finite (x / y).

(** One round of the loop of [cosineSimilarity]. *)
Definition step (acc : R * R * R) (xy : R * R) : R * R * R :=
  let '(dotProduct, normA, normB) := acc in
  (dotProduct + fst xy * snd xy, normA + fst xy * fst xy, normB + snd xy * snd xy).

(** The loop, over two arrays of one length. *)
Definition sums (a b : list R) : R * R * R :=
  fold_left step (combine a b) (0, 0, 0).

(** [cosineSimilarity]; a missing embedding is [None]. *)
Definition cosineSimilarity (a b : option (list R)) : quotient :=
  match a, b with
  | Some a, Some b =>
      if negb (Nat.eqb (List.length a) (List.length b)) then Finite 0
      else
        let '(dotProduct, normA, normB) := sums a b in
        js_div dotProduct (sqrt normA * sqrt normB)
  | _, _ => Finite 0
  end.

(** [semanticScore >= 0.7], the filter of [semanticRetrieve]. *)
Definition is_similar (q : quotient) : bool :=
  match q with
  | Finite r => Js.Rleb 0.7 r
  | NotANumber => false
  | Infinite => true
  end.

End Semantic.

(** * Properties *)

(** ** Numbers *)

Lemma Rltb_true (x y : R) : Js.Rltb x y = true <-> (x < y)%R.
Proof.
  unfold Js.Rltb. destruct (Rlt_dec x y); split; intros;
    try discriminate; try reflexivity; lra.
Qed.

Lemma Rltb_false (x y : R) : Js.Rltb x y = false <-> (y <= x)%R.
Proof.
  unfold Js.Rltb. destruct (Rlt_dec x y); split; intros;
    try discriminate; try reflexivity; lra.
Qed.

Lemma Rleb_true (x y : R) : Js.Rleb x y = true <-> (x <= y)%R.
Proof.
  unfold Js.Rleb. destruct (Rle_dec x y); split; intros;
    try discriminate; try reflexivity; lra.
Qed.

Lemma Rleb_false (x y : R) : Js.Rleb x y = false <-> (y < x)%R.
Proof.
  unfold Js.Rleb. destruct (Rle_dec x y); split; intros;
    try discriminate; try reflexivity; lra.
Qed.

Lemma num_or_nonzero (v d : R) : v <> 0%R -> Js.num_or (Some v) d = v.
Proof.
  intros H. unfold Js.num_or. destruct (Req_dec_T v 0); [contradiction | reflexivity].
Qed.

Lemma num_or_zero (d : R) : Js.num_or (Some 0%R) d = d.
Proof.
  unfold Js.num_or. destruct (Req_dec_T 0 0); [reflexivity | contradiction].
Qed.

Lemma Qltb_true (x y : Q) : Js.Qltb x y = true <-> (x < y)%Q.
Proof.
  unfold Js.Qltb. rewrite negb_true_iff. split; intros H.
  - apply Qnot_le_lt. intros C. apply Qle_bool_iff in C. congruence.
  - destruct (Qle_bool y x) eqn:E; [| reflexivity].
    apply Qle_bool_iff in E. exfalso. exact (Qlt_not_le _ _ H E).
Qed.

(** ** Records *)

Lemma sample_writeScore (used : Z) (i ty txt : string) :
  Scorer.calculateWriteScore (Sample.record_at used i ty txt) = 0.81%R.
Proof.
  unfold Scorer.calculateWriteScore, Js.num_or, Js.num_default. cbn.
  repeat match goal with
         | |- context [Req_dec_T ?a ?b] => destruct (Req_dec_T a b); try lra
         end.
Qed.

Lemma write_one_accepts (cfg : V5MetaEngine.Config) (now : Z)
    (st : FileSystemStore.Store) (mem : V5Memory) :
  (V5MetaEngine.writeThreshold cfg <= Scorer.calculateWriteScore mem)%R ->
  V5MetaEngine.write_one cfg now st mem =
  (fst (V5MetaEngine.persist now st (V5MetaEngine.processSensitive cfg mem)),
   Some (snd (V5MetaEngine.persist now st (V5MetaEngine.processSensitive cfg mem)))).
Proof.
  intros H. unfold V5MetaEngine.write_one.
  apply Rltb_false in H. rewrite H.
  destruct (V5MetaEngine.persist _ _ _); reflexivity.
Qed.

Lemma write_one_rejects (cfg : V5MetaEngine.Config) (now : Z)
    (st : FileSystemStore.Store) (mem : V5Memory) :
  (Scorer.calculateWriteScore mem < V5MetaEngine.writeThreshold cfg)%R ->
  V5MetaEngine.write_one cfg now st mem = (st, None).
Proof.
  intros H. unfold V5MetaEngine.write_one.
  apply Rltb_true in H. rewrite H. reflexivity.
Qed.

Lemma write_single (cfg : V5MetaEngine.Config) (now : Z)
    (st : FileSystemStore.Store) (mem : V5Memory) :
  (V5MetaEngine.writeThreshold cfg <= Scorer.calculateWriteScore mem)%R ->
  V5MetaEngine.write cfg now st [mem] =
  (fst (V5MetaEngine.persist now st (V5MetaEngine.processSensitive cfg mem)),
   [snd (V5MetaEngine.persist now st (V5MetaEngine.processSensitive cfg mem))]).
Proof.
  intros H. unfold V5MetaEngine.write. cbn [V5MetaEngine.write_from].
  rewrite (write_one_accepts _ _ _ _ H). reflexivity.
Qed.


(** ** The file-system store *)

Lemma find_first {A : Type} (f : A -> bool) (l : list A) (x : A) :
  find f l = Some x ->
  exists before after,
    l = (before ++ x :: after)%list /\ f x = true /\
    forall y, In y before -> f y = false.
Proof.
  induction l as [| a l IH]; cbn; intros H; [discriminate |].
  destruct (f a) eqn:E.
  - injection H as ->. exists [], l. repeat split; auto. intros y [].
  - destruct (IH H) as (b & c & -> & Hx & Hb).
    exists (a :: b), c. repeat split; auto.
    intros y [<- | Hy]; auto.
Qed.

Lemma find_exists {A : Type} (f : A -> bool) (l : list A) :
  (exists x, In x l /\ f x = true) -> exists y, find f l = Some y.
Proof.
  intros (x & Hin & Hf). destruct (find f l) eqn:E; [eauto |].
  rewrite (find_none f l E x Hin) in Hf. discriminate.
Qed.

Lemma write_file_In (m r : V5Memory) (st : FileSystemStore.Store) :
  In r (FileSystemStore.write_file m st) -> r = m \/ In r st.
Proof.
  induction st as [| a st IH]; cbn.
  - intros [<- | []]. now left.
  - destruct (String.eqb (mem_id a) (mem_id m)); cbn.
    + intros [<- | H]; auto.
    + intros [<- | H]; auto. destruct (IH H); auto.
Qed.

Lemma write_file_keeps (m r : V5Memory) (st : FileSystemStore.Store) :
  In r st -> mem_id r <> mem_id m -> In r (FileSystemStore.write_file m st).
Proof.
  induction st as [| a st IH]; cbn; [tauto |].
  intros [<- | H] Hid.
  - destruct (String.eqb (mem_id a) (mem_id m)) eqn:E.
    + apply String.eqb_eq in E. contradiction.
    + now left.
  - destruct (String.eqb (mem_id a) (mem_id m)); right; auto.
Qed.

Lemma write_file_has (m : V5Memory) (st : FileSystemStore.Store) :
  In m (FileSystemStore.write_file m st).
Proof.
  induction st as [| a st IH]; cbn; [now left |].
  destruct (String.eqb (mem_id a) (mem_id m)); [now left | now right].
Qed.

Lemma query_In (st : FileSystemStore.Store) (f : FileSystemStore.Filters) (m : V5Memory) :
  In m (FileSystemStore.query st f) <->
  In m st /\ FileSystemStore.matchesFilters m f = true.
Proof. unfold FileSystemStore.query. apply filter_In. Qed.

Lemma set_own_id (m : V5Memory) : with_meta m (set_id (mem_id m)) = m.
Proof. destruct m as [[] ? ?]. reflexivity. Qed.

Lemma add_with_id (st : FileSystemStore.Store) (now : Z) (m : V5Memory) :
  Js.truthy (mem_id m) = true ->
  FileSystemStore.add st now m = (FileSystemStore.write_file m st, mem_id m).
Proof.
  intros H. unfold FileSystemStore.add. rewrite H, set_own_id. reflexivity.
Qed.

(** ** Sensitive text *)

Lemma processSensitive_id (cfg : V5MetaEngine.Config) (m : V5Memory) :
  mem_id (V5MetaEngine.processSensitive cfg m) = mem_id m.
Proof.
  unfold V5MetaEngine.processSensitive.
  destruct (negb _); [reflexivity |].
  destruct (_ && _); reflexivity.
Qed.


Lemma processSensitive_scope (cfg : V5MetaEngine.Config) (m : V5Memory) :
  FileSystemStore.scope_of (V5MetaEngine.processSensitive cfg m) = FileSystemStore.scope_of m.
Proof.
  unfold V5MetaEngine.processSensitive.
  destruct (negb _); [reflexivity |].
  destruct (_ && _); reflexivity.
Qed.

(** ** Version chains *)

Lemma edge_write_file (m : V5Memory) (st : FileSystemStore.Store) (a b : string) :
  Chain.supersedes_edge (FileSystemStore.write_file m st) a b ->
  Chain.supersedes_edge st a b \/ (a = mem_id m /\ mem_supersedes m = Some b).
Proof.
  intros (r & Hin & Ha & Hb).
  destruct (write_file_In _ _ _ Hin) as [-> | Hr].
  - right. auto.
  - left. exists r. auto.
Qed.

Section Extend.

Variables (R R' : string -> string -> Prop) (w e : string).
Hypothesis sub : forall a b, R' a b -> R a b \/ (a = w /\ b = e).
Hypothesis unreferenced : forall a, ~ R a w.
Hypothesis distinct : e <> w.

Lemma extended_path_target (x y : string) : clos_trans string R' x y -> y <> w.
Proof.
  induction 1 as [x y H | x y z _ _ _ IH]; [| exact IH].
  destruct (sub _ _ H) as [H1 | [_ ->]]; [| exact distinct].
  intros ->. exact (unreferenced _ H1).
Qed.

Lemma extended_path_old (x y : string) :
  clos_trans string R' x y -> x <> w -> clos_trans string R x y.
Proof.
  induction 1 as [x y H | x y z H1 IH1 H2 IH2]; intros Hx.
  - apply t_step. destruct (sub _ _ H) as [H1 | [-> _]]; [exact H1 | contradiction].
  - apply t_trans with y; [exact (IH1 Hx) |].
    apply IH2. exact (extended_path_target _ _ H1).
Qed.

Lemma acyclic_extend :
  (forall a, ~ clos_trans string R a a) -> forall a, ~ clos_trans string R' a a.
Proof.
  intros Hac a Hc. apply (Hac a).
  apply extended_path_old; [exact Hc |].
  exact (extended_path_target _ _ Hc).
Qed.

End Extend.

Lemma acyclic_without_links (st : FileSystemStore.Store) :
  (forall r, In r st -> mem_supersedes r = None) -> Chain.acyclic st.
Proof.
  intros H a Hc.
  assert (G : forall x y, clos_trans string (Chain.supersedes_edge st) x y -> False).
  { induction 1 as [x y (r & Hin & _ & Hs) | ]; [| assumption].
    rewrite (H r Hin) in Hs. discriminate. }
  exact (G _ _ Hc).
Qed.

(** ** Conflict resolution on the write path *)

Lemma persist_supersedes (now : Z) (st : FileSystemStore.Store) (p e : V5Memory) :
  FileSystemStore.findSimilar st p = Some e ->
  Js.truthy (mem_id p) = true ->
  V5MetaEngine.persist now st p =
  (FileSystemStore.write_file (V5MetaEngine.link_supersedes p e)
     (FileSystemStore.write_file (V5MetaEngine.assign_meta_status e "superseded") st),
   V5MetaEngine.link_supersedes p e).
Proof.
  intros Hf Hid. unfold V5MetaEngine.persist. rewrite Hf.
  unfold FileSystemStore.update.
  rewrite add_with_id by exact Hid.
  rewrite set_own_id. reflexivity.
Qed.

(** C1, as amended.  A record written through [write] whose processed
    text is strictly more than 0.8 similar to an active record of its
    scope supersedes the first such record in store order: the new
    record is stored with [relations.supersedes] set to that record's
    id, every other prior record is left as it was, and, the new id
    being fresh, the version chains of the store stay free of cycles. *)
Theorem write_supersedes_first_similar :
  forall (cfg : V5MetaEngine.Config) (now : Z) (st : FileSystemStore.Store) (m : V5Memory),
    let p := V5MetaEngine.processSensitive cfg m in
    (V5MetaEngine.writeThreshold cfg <= Scorer.calculateWriteScore m)%R ->
    (exists e, In e (FileSystemStore.query st (FileSystemStore.scope_of p)) /\
               (0.8 < FileSystemStore.textSimilarity (mem_text p) (mem_text e))%Q) ->
    Js.truthy (mem_id m) = true ->
    Chain.fresh st (mem_id m) ->
    Chain.acyclic st ->
    exists e w st',
      V5MetaEngine.write cfg now st [m] = (st', [w]) /\
      (exists before after,
          FileSystemStore.query st (FileSystemStore.scope_of p) = (before ++ e :: after)%list /\
          forall x, In x before ->
                    (FileSystemStore.textSimilarity (mem_text p) (mem_text x) <= 0.8)%Q) /\
      (0.8 < FileSystemStore.textSimilarity (mem_text p) (mem_text e))%Q /\
      In e st /\ mem_status e = "active" /\
      mem_supersedes w = Some (mem_id e) /\
      mem_id w = mem_id m /\
      In w st' /\
      (forall r, In r st -> mem_id r <> mem_id e -> In r st') /\
      (forall r, In r st' -> r = w \/ mem_id r = mem_id e \/ In r st) /\
      Chain.acyclic st'.
Proof.
  intros cfg now st m p Hscore Hex Hid [Hfresh Href] Hac.
  assert (Hpid : mem_id p = mem_id m) by apply processSensitive_id.
  destruct (find_exists
              (fun x => Js.Qltb 0.8%Q (FileSystemStore.textSimilarity (mem_text p) (mem_text x)))
              (FileSystemStore.query st (FileSystemStore.scope_of p))) as [e He].
  { destruct Hex as (e & Hin & Hs). exists e. split; [exact Hin |].
    apply Qltb_true. exact Hs. }
  fold (FileSystemStore.findSimilar st p) in He.
  destruct (find_first _ _ _ He) as (before & after & Hq & Hsim & Hbefore).
  apply Qltb_true in Hsim.
  assert (Hin : In e (FileSystemStore.query st (FileSystemStore.scope_of p))).
  { rewrite Hq. apply in_or_app. right. now left. }
  apply query_In in Hin. destruct Hin as [Hest Hmatch].
  pose (e' := V5MetaEngine.assign_meta_status e "superseded").
  pose (w := V5MetaEngine.link_supersedes p e).
  pose (st1 := FileSystemStore.write_file e' st).
  exists e, w, (FileSystemStore.write_file w st1).
  assert (Hwid : mem_id w = mem_id m) by exact Hpid.
  assert (He'id : mem_id e' = mem_id e) by reflexivity.
  split.
  { rewrite (write_single _ _ _ _ Hscore). fold p.
    rewrite (persist_supersedes now st p e He) by (rewrite Hpid; exact Hid).
    reflexivity. }
  split.
  { exists before, after. split; [exact Hq |].
    intros x Hx. specialize (Hbefore x Hx). cbn in Hbefore.
    destruct (Qlt_le_dec 0.8 (FileSystemStore.textSimilarity (mem_text p) (mem_text x)))
      as [C | C]; [| exact C].
    apply Qltb_true in C. congruence. }
  split; [exact Hsim |].
  split; [exact Hest |].
  split.
  { unfold FileSystemStore.matchesFilters, FileSystemStore.scope_of in Hmatch. cbn in Hmatch.
    apply andb_prop in Hmatch. destruct Hmatch as [Hmatch _].
    apply andb_prop in Hmatch. destruct Hmatch as [Hmatch _].
    apply andb_prop in Hmatch. destruct Hmatch as [Hmatch _].
    apply String.eqb_eq in Hmatch. exact Hmatch. }
  split; [reflexivity |].
  split; [exact Hwid |].
  split; [apply write_file_has |].
  split.
  { intros r Hr Hne. apply write_file_keeps.
    - apply write_file_keeps; [exact Hr | rewrite He'id; exact Hne].
    - rewrite Hwid. exact (Hfresh r Hr). }
  split.
  { intros r Hr. destruct (write_file_In _ _ _ Hr) as [-> | Hr1]; [now left | right].
    destruct (write_file_In _ _ _ Hr1) as [-> | Hr2]; [now left | now right]. }
  unfold Chain.acyclic.
  refine (acyclic_extend (Chain.supersedes_edge st) _ (mem_id m) (mem_id e) _ _ _ Hac).
  - intros a b Hab.
    destruct (edge_write_file _ _ _ _ Hab) as [H1 | [Ha Hb]].
    + destruct (edge_write_file _ _ _ _ H1) as [H2 | [Ha Hb]]; [now left | left].
      exists e. repeat split; [exact Hest | now rewrite Ha | exact Hb].
    + right. rewrite Ha. split; [exact Hwid |].
      cbn in Hb. injection Hb as <-. reflexivity.
  - intros a (r & Hr & _ & Hs). exact (Href r Hr Hs).
  - exact (Hfresh e Hest).
Qed.

Lemma write_supersedes_first_similar_witness :
  exists e w st',
    V5MetaEngine.write V5MetaEngine.default_config Sample.t0
      [Sample.record "m0" "core" "the project uses rocq";
       Sample.record "m1" "persona" "I like python for backend work a lot"]
      [Sample.record "m2" "persona" "I like Python for backend work a lot really"]
    = (st', [w]) /\
    mem_id e = "m1" /\
    mem_supersedes w = Some "m1" /\
    In w st' /\
    Chain.acyclic st'.
Proof.
  destruct (write_supersedes_first_similar V5MetaEngine.default_config Sample.t0
              [Sample.record "m0" "core" "the project uses rocq";
               Sample.record "m1" "persona" "I like python for backend work a lot"]
              (Sample.record "m2" "persona" "I like Python for backend work a lot really"))
    as (e & w & st' & Hw & _ & Hsim & He & _ & Hs & _ & Hin & _ & _ & Hac).
  - unfold Sample.record. rewrite sample_writeScore.
    unfold V5MetaEngine.default_config, V5MetaEngine.writeThreshold. lra.
  - exists (Sample.record "m1" "persona" "I like python for backend work a lot").
    split; [apply query_In; split; [right; left; reflexivity | reflexivity]
           | lazy; reflexivity].
  - reflexivity.
  - split; intros r [<- | [<- | []]]; discriminate.
  - apply acyclic_without_links. intros r [<- | [<- | []]]; reflexivity.
  - exists e, w, st'.
    destruct He as [<- | [<- | []]].
    + lazy in Hsim. discriminate Hsim.
    + auto.
Defined.

(** C1, as worded, fails at a similarity of exactly 0.8: four of the
    five tokens are shared, and nothing is superseded. *)
Lemma conflict_at_similarity_0_8_counterexample :
  ~ Spec.conflict_resolution V5MetaEngine.default_config Sample.t0
      [Sample.record "m1" "persona" "a b c d"]
      (Sample.record "m2" "persona" "a b c d e").
Proof.
  unfold Spec.conflict_resolution. intros H.
  destruct H as (e & w & st' & Hw & _ & Hs & _).
  - exists (Sample.record "m1" "persona" "a b c d").
    split; [apply query_In; split; [left; reflexivity | reflexivity]
           | lazy; discriminate].
  - assert (Hscore : (V5MetaEngine.writeThreshold V5MetaEngine.default_config <=
                      Scorer.calculateWriteScore (Sample.record "m2" "persona" "a b c d e"))%R).
    { unfold Sample.record. rewrite sample_writeScore.
      unfold V5MetaEngine.default_config, V5MetaEngine.writeThreshold. lra. }
    rewrite (write_single _ _ _ _ Hscore) in Hw.
    apply (f_equal (fun x => map mem_supersedes (snd x))) in Hw.
    cbn [snd map] in Hw. rewrite Hs in Hw. lazy in Hw. discriminate Hw.
Qed.

(** ** The version chains under any batch of writes *)


Lemma persist_written (now : Z) (st : FileSystemStore.Store) (p : V5Memory) :
  Js.truthy (mem_id p) = true ->
  mem_id (snd (V5MetaEngine.persist now st p)) = mem_id p /\
  (mem_supersedes (snd (V5MetaEngine.persist now st p)) = mem_supersedes p \/
   exists e, In e st /\ mem_supersedes (snd (V5MetaEngine.persist now st p)) = Some (mem_id e)).
Proof.
  intros Hid. unfold V5MetaEngine.persist.
  destruct (FileSystemStore.findSimilar st p) as [e |] eqn:Hf.
  - unfold FileSystemStore.update. rewrite add_with_id by exact Hid.
    rewrite set_own_id. cbn [fst snd]. split; [reflexivity | right].
    exists e. destruct (find_some _ _ Hf) as [Hin _].
    apply query_In in Hin. destruct Hin as [Hin _]. auto.
  - rewrite add_with_id by exact Hid. rewrite set_own_id. cbn [fst snd]. auto.
Qed.







(** The engine's own similarity is never above 0.8, so [handleConflict]
    supersedes nothing; and [extractAndSave], which calls it, throws
    before it gets there. *)
Lemma engine_textSimilarity_not_above (a b : string) :
  V5MetaEngine.js_gt (V5MetaEngine.textSimilarity a b) 0.8%R = false.
Proof.
  unfold V5MetaEngine.textSimilarity, V5MetaEngine.size_of_array_over.
  destruct (negb (Js.truthy a) || negb (Js.truthy b)).
  - cbn. apply Rltb_false. lra.
  - destruct (Nat.ltb 0 _); cbn; [reflexivity |]. apply Rltb_false. lra.
Qed.

Lemma handleConflict_supersedes_nothing (st : FileSystemStore.Store) (memory : V5Memory) :
  V5MetaEngine.handleConflict st memory = (st, memory, false).
Proof.
  unfold V5MetaEngine.handleConflict.
  induction (FileSystemStore.query st (FileSystemStore.scope_of memory)) as [| x l IH];
    cbn; [reflexivity |].
  rewrite engine_textSimilarity_not_above. exact IH.
Qed.

Lemma extractAndSave_throws (platformAdapter : option (string -> string))
    (conversation platform : string) :
  exists e, V5MetaEngine.extractAndSave platformAdapter conversation platform = Throw e.
Proof.
  destruct platformAdapter; cbn; eauto.
Qed.

(** The record that [write] supersedes keeps [lifecycle.status]: the
    assignment goes to [meta.status]. *)
Lemma superseded_record_still_active (now : Z) (st : FileSystemStore.Store) (p e : V5Memory) :
  FileSystemStore.findSimilar st p = Some e ->
  Js.truthy (mem_id p) = true ->
  mem_id e <> mem_id p ->
  let e' := V5MetaEngine.assign_meta_status e "superseded" in
  In e' (FileSystemStore.query (fst (V5MetaEngine.persist now st p)) (FileSystemStore.scope_of p)) /\
  mem_status e' = "active".
Proof.
  intros Hf Hid Hne e'.
  destruct (find_some _ _ Hf) as [Hin _].
  apply query_In in Hin. destruct Hin as [Hin Hm].
  assert (Hact : mem_status e' = "active").
  { unfold FileSystemStore.matchesFilters, FileSystemStore.scope_of in Hm. cbn in Hm.
    repeat (apply andb_prop in Hm; destruct Hm as [Hm _]).
    apply String.eqb_eq in Hm. exact Hm. }
  split; [| exact Hact].
  rewrite (persist_supersedes now st p e Hf Hid). cbn [fst].
  apply query_In. split; [| exact Hm].
  apply write_file_keeps; [apply write_file_has | exact Hne].
Qed.

(** ** The expiry sweep *)

Lemma sweep_id (cfg : V5MetaEngine.Config) (now : Z) (r : V5Memory) :
  mem_id (sweep cfg now r) = mem_id r.
Proof. unfold sweep. destruct (_ && _); reflexivity. Qed.

Lemma write_file_middle (m r : V5Memory) (l1 l2 : list V5Memory) :
  mem_id r = mem_id m ->
  (forall x, In x l1 -> mem_id x <> mem_id m) ->
  FileSystemStore.write_file m (l1 ++ r :: l2)%list = (l1 ++ m :: l2)%list.
Proof.
  intros Hr. induction l1 as [| a l1 IH]; cbn; intros H.
  - rewrite Hr, String.eqb_refl. reflexivity.
  - destruct (String.eqb (mem_id a) (mem_id m)) eqn:E.
    + apply String.eqb_eq in E. exfalso. apply (H a); auto.
    + rewrite IH; auto.
Qed.

Lemma cleanup_fold (cfg : V5MetaEngine.Config) (now : Z) (pending : list V5Memory) :
  forall (swept_part : list V5Memory) (n : nat),
    NoDup (map mem_id (swept_part ++ pending)%list) ->
    exists n',
      fold_left (V5MetaEngine.cleanup_step now)
        (FileSystemStore.query pending (V5MetaEngine.engine_scope cfg))
        ((map (sweep cfg now) swept_part ++ pending)%list, n)
      = (map (sweep cfg now) (swept_part ++ pending)%list, n').
Proof.
  induction pending as [| x t IH]; intros swept_part n Hnd.
  - cbn. exists n. rewrite !app_nil_r. reflexivity.
  - assert (Hstep : forall k,
               NoDup (map mem_id ((swept_part ++ [x]) ++ t)%list) ->
               sweep cfg now x = x ->
               exists n',
                 fold_left (V5MetaEngine.cleanup_step now)
                   (FileSystemStore.query t (V5MetaEngine.engine_scope cfg))
                   ((map (sweep cfg now) swept_part ++ x :: t)%list, k)
                 = (map (sweep cfg now) (swept_part ++ x :: t)%list, n')).
    { intros k Hnd' Hx. destruct (IH (swept_part ++ [x])%list k Hnd') as [n' Hn'].
      exists n'. rewrite map_app in Hn'. cbn [map] in Hn'. rewrite Hx in Hn'.
      rewrite <- !app_assoc in Hn'. exact Hn'. }
    assert (Hnd' : NoDup (map mem_id ((swept_part ++ [x]) ++ t)%list)).
    { rewrite <- app_assoc. exact Hnd. }
    unfold FileSystemStore.query. cbn [filter]. fold (FileSystemStore.query t (V5MetaEngine.engine_scope cfg)).
    destruct (FileSystemStore.matchesFilters x (V5MetaEngine.engine_scope cfg)) eqn:Em.
    2:{ apply Hstep; [exact Hnd' |]. unfold sweep. rewrite Em. reflexivity. }
    cbn [fold_left]. unfold V5MetaEngine.cleanup_step at 2.
    change (status (lifecycle (meta x))) with (mem_status x).
    destruct (String.eqb (mem_status x) "deleted") eqn:Ed.
    { apply Hstep; [exact Hnd' |]. unfold sweep. rewrite Em, Ed. reflexivity. }
    destruct (expiresAt (lifecycle (meta x))) as [e |] eqn:Ee.
    2:{ apply Hstep; [exact Hnd' |]. unfold sweep. rewrite Em, Ed, Ee. reflexivity. }
    destruct (Z.ltb e now) eqn:El.
    2:{ apply Hstep; [exact Hnd' |]. unfold sweep. rewrite Em, Ed, Ee, El. reflexivity. }
    unfold FileSystemStore.update.
    rewrite write_file_middle.
    + destruct (IH (swept_part ++ [x])%list (S n) Hnd') as [n' Hn'].
      exists n'. rewrite map_app in Hn'. cbn [map] in Hn'.
      unfold sweep at 2 in Hn'. rewrite Em, Ed, Ee, El in Hn'. cbn [andb negb] in Hn'.
      rewrite <- !app_assoc in Hn'. exact Hn'.
    + reflexivity.
    + intros y Hy. apply in_map_iff in Hy. destruct Hy as (y0 & <- & Hy0).
      rewrite sweep_id. change (mem_id (V5MetaEngine.assign_meta_status x "expired")) with (mem_id x).
      rewrite map_app in Hnd. cbn [map] in Hnd.
      apply NoDup_remove_2 in Hnd. intros Heq. apply Hnd.
      apply in_or_app. left. rewrite <- Heq. apply in_map. exact Hy0.
Qed.

Lemma cleanup_is_sweep (cfg : V5MetaEngine.Config) (now : Z) (st : FileSystemStore.Store) :
  Chain.unique_ids st ->
  fst (V5MetaEngine.cleanup cfg now st) = map (sweep cfg now) st.
Proof.
  intros H. unfold V5MetaEngine.cleanup. cbv zeta.
  destruct (cleanup_fold cfg now st [] 0%nat H) as [n' Hn'].
  cbn [map app] in Hn'. exact (f_equal fst Hn').
Qed.

(** C3, the behaviour of the code.  [cleanup] assigns [meta.status] and
    leaves [lifecycle.status] alone: an active record of the scope whose
    [expiresAt] has passed is still active afterwards, is still returned
    by the [status = 'active'] query, and the sweep the specification
    describes has not happened. *)
Theorem cleanup_leaves_expired_record_active :
  forall (cfg : V5MetaEngine.Config) (now : Z) (st : FileSystemStore.Store)
         (m : V5Memory) (e : Z),
    Chain.unique_ids st ->
    In m (FileSystemStore.query st (V5MetaEngine.active_scope cfg)) ->
    expiresAt (lifecycle (meta m)) = Some e ->
    (e < now)%Z ->
    let m' := V5MetaEngine.assign_meta_status m "expired" in
    In m' (FileSystemStore.query (fst (V5MetaEngine.cleanup cfg now st))
             (V5MetaEngine.active_scope cfg)) /\
    mem_status m' = "active" /\
    meta_status (meta m') = Some "expired" /\
    ~ Spec.swept cfg now st.
Proof.
  intros cfg now st m e Hu Hin He Hlt m'.
  apply query_In in Hin. destruct Hin as [Hin Hm].
  assert (Hparts :
            mem_status m = "active" /\
            FileSystemStore.matchesFilters m (V5MetaEngine.engine_scope cfg) = true).
  { unfold FileSystemStore.matchesFilters, V5MetaEngine.active_scope in Hm. cbn in Hm.
    unfold FileSystemStore.matchesFilters, V5MetaEngine.engine_scope. cbn.
    apply andb_prop in Hm. destruct Hm as [Hm H4].
    apply andb_prop in Hm. destruct Hm as [Hm H3].
    apply andb_prop in Hm. destruct Hm as [H1 H2].
    apply String.eqb_eq in H1. rewrite H2, H3. auto. }
  destruct Hparts as [Hact Hscope].
  assert (Hsweep : sweep cfg now m = m').
  { unfold sweep. rewrite Hscope, Hact, He. cbn.
    apply Z.ltb_lt in Hlt. rewrite Hlt. reflexivity. }
  assert (Hin' : In m' (fst (V5MetaEngine.cleanup cfg now st))).
  { rewrite (cleanup_is_sweep cfg now st Hu), <- Hsweep. apply in_map. exact Hin. }
  split; [apply query_In; split; [exact Hin' | exact Hm] |].
  split; [exact Hact |].
  split; [reflexivity |].
  intros Hs.
  assert (C : mem_status m' = "expired").
  { apply (Hs m' e).
    - apply query_In. split; [exact Hin' | exact Hscope].
    - change (mem_status m') with (mem_status m). rewrite Hact. discriminate.
    - exact He.
    - exact Hlt. }
  change (mem_status m') with (mem_status m) in C. rewrite Hact in C. discriminate C.
Qed.

Lemma cleanup_leaves_expired_record_active_witness :
  let st := [Sample.record "m1" "persona" "I like python for backend work a lot"] in
  let now := (Sample.t0 + 31 * Sample.day)%Z in
  map mem_status (FileSystemStore.query (fst (V5MetaEngine.cleanup V5MetaEngine.default_config now st))
                    (V5MetaEngine.active_scope V5MetaEngine.default_config)) = ["active"] /\
  snd (V5MetaEngine.cleanup V5MetaEngine.default_config now st) = 1%nat /\
  ~ Spec.swept V5MetaEngine.default_config now st.
Proof.
  intros st now.
  split; [reflexivity |]. split; [reflexivity |].
  apply (cleanup_leaves_expired_record_active V5MetaEngine.default_config now st
           (Sample.record "m1" "persona" "I like python for backend work a lot")
           (Sample.t0 + 30 * Sample.day)%Z).
  - repeat constructor. intros [].
  - left. reflexivity.
  - reflexivity.
  - unfold now, Sample.day. lia.
Defined.

(** ** Budget allocation *)

Lemma firstn_In {A : Type} (n : nat) (l : list A) (x : A) :
  In x (firstn n l) -> In x l.
Proof.
  revert l. induction n as [| n IH]; intros [| a l]; cbn; try tauto.
  intros [-> | H]; auto.
Qed.

Lemma slice0_In {A : Type} (l : list A) (n : option nat) (x : A) :
  In x (V5MetaEngine.slice0 l n) -> In x l.
Proof. destruct n; cbn; [apply firstn_In | auto]. Qed.

Lemma budget_of_some (b : V5MetaEngine.Budget) (ty : string) (n : nat) :
  V5MetaEngine.budget_of b ty = Some n -> budgeted_type ty.
Proof.
  unfold V5MetaEngine.budget_of, budgeted_type.
  destruct (String.eqb ty "persona") eqn:E1; [apply String.eqb_eq in E1; auto |].
  destruct (String.eqb ty "core") eqn:E2; [apply String.eqb_eq in E2; auto |].
  destruct (String.eqb ty "episodic") eqn:E3; [apply String.eqb_eq in E3; auto |].
  discriminate.
Qed.

Lemma used_of_some (u : V5MetaEngine.Used) (ty : string) (n : nat) :
  V5MetaEngine.used_of u ty = Some n -> budgeted_type ty.
Proof.
  unfold V5MetaEngine.used_of, budgeted_type.
  destruct (String.eqb ty "persona") eqn:E1; [apply String.eqb_eq in E1; auto |].
  destruct (String.eqb ty "core") eqn:E2; [apply String.eqb_eq in E2; auto |].
  destruct (String.eqb ty "episodic") eqn:E3; [apply String.eqb_eq in E3; auto |].
  discriminate.
Qed.

Lemma bucket_In (scored : list V5MetaEngine.Scored) (b : V5MetaEngine.Budget)
    (ty : string) (m : V5MetaEngine.Scored) :
  In m (V5MetaEngine.bucket scored b ty) ->
  In m scored /\ V5MetaEngine.scored_type m = ty.
Proof.
  unfold V5MetaEngine.bucket. intros H. apply slice0_In in H.
  apply filter_In in H. destruct H as [H1 H2].
  apply String.eqb_eq in H2. auto.
Qed.

Lemma bucket_length (scored : list V5MetaEngine.Scored) (b : V5MetaEngine.Budget)
    (ty : string) (n : nat) :
  V5MetaEngine.budget_of b ty = Some n ->
  (List.length (V5MetaEngine.bucket scored b ty) <= n)%nat.
Proof.
  unfold V5MetaEngine.bucket. intros ->. cbn. apply firstn_le_length.
Qed.

Lemma allocateBudget_In (scored : list V5MetaEngine.Scored) (b : V5MetaEngine.Budget)
    (m : V5MetaEngine.Scored) :
  In m (V5MetaEngine.allocateBudget scored b) ->
  In m scored /\ budgeted_type (V5MetaEngine.scored_type m).
Proof.
  unfold V5MetaEngine.allocateBudget, budgeted_type. intros H.
  apply in_app_or in H. destruct H as [H | H]; [apply bucket_In in H; tauto |].
  apply in_app_or in H. destruct H as [H | H]; apply bucket_In in H; tauto.
Qed.

Lemma count_bucket_other (scored : list V5MetaEngine.Scored) (b : V5MetaEngine.Budget)
    (ty ty' : string) :
  ty' <> ty -> count_type ty (V5MetaEngine.bucket scored b ty') = 0%nat.
Proof.
  intros Hne. unfold count_type.
  assert (G : forall l, (forall m, In m l -> V5MetaEngine.scored_type m = ty') ->
                        filter (fun m => String.eqb (V5MetaEngine.scored_type m) ty) l = []).
  { induction l as [| a l IH]; cbn; intros H; [reflexivity |].
    destruct (String.eqb (V5MetaEngine.scored_type a) ty) eqn:E.
    - apply String.eqb_eq in E. rewrite (H a) in E by auto. contradiction.
    - apply IH. auto. }
  rewrite G; [reflexivity |]. intros m Hm. apply bucket_In in Hm. tauto.
Qed.

Lemma count_type_le (ty : string) (l : list V5MetaEngine.Scored) :
  (count_type ty l <= List.length l)%nat.
Proof. apply filter_length_le. Qed.

Lemma count_type_app (ty : string) (l1 l2 : list V5MetaEngine.Scored) :
  count_type ty (l1 ++ l2) = (count_type ty l1 + count_type ty l2)%nat.
Proof. unfold count_type. rewrite filter_app, length_app. reflexivity. Qed.

Lemma allocateBudget_count (scored : list V5MetaEngine.Scored) (b : V5MetaEngine.Budget)
    (ty : string) (n : nat) :
  V5MetaEngine.budget_of b ty = Some n ->
  (count_type ty (V5MetaEngine.allocateBudget scored b) <= n)%nat.
Proof.
  intros Hb. unfold V5MetaEngine.allocateBudget. rewrite !count_type_app.
  pose proof (bucket_length scored b ty n Hb) as Hlen.
  destruct (budget_of_some _ _ _ Hb) as [-> | [-> | ->]].
  - rewrite (count_bucket_other scored b "persona" "core") by discriminate.
    rewrite (count_bucket_other scored b "persona" "episodic") by discriminate.
    pose proof (count_type_le "persona" (V5MetaEngine.bucket scored b "persona")). lia.
  - rewrite (count_bucket_other scored b "core" "persona") by discriminate.
    rewrite (count_bucket_other scored b "core" "episodic") by discriminate.
    pose proof (count_type_le "core" (V5MetaEngine.bucket scored b "core")). lia.
  - rewrite (count_bucket_other scored b "episodic" "persona") by discriminate.
    rewrite (count_bucket_other scored b "episodic" "core") by discriminate.
    pose proof (count_type_le "episodic" (V5MetaEngine.bucket scored b "episodic")). lia.
Qed.

Lemma insert_desc_In (x y : V5MetaEngine.Scored) (l : list V5MetaEngine.Scored) :
  In y (V5MetaEngine.insert_desc x l) <-> y = x \/ In y l.
Proof.
  induction l as [| a l IH]; cbn.
  - intuition.
  - destruct (Js.Rleb _ _); cbn; [intuition |]. rewrite IH. intuition.
Qed.

Lemma sort_desc_In (y : V5MetaEngine.Scored) (l : list V5MetaEngine.Scored) :
  In y (V5MetaEngine.sort_desc l) <-> In y l.
Proof.
  induction l as [| a l IH]; cbn; [tauto |].
  rewrite insert_desc_In, IH. intuition.
Qed.

Lemma recall_select_In (cfg : V5MetaEngine.Config) (scored : list V5MetaEngine.Scored)
    (m : V5MetaEngine.Scored) :
  In m (V5MetaEngine.recall_select cfg scored) ->
  In m scored /\
  (V5MetaEngine.recallThreshold cfg <= V5MetaEngine.recallScore m)%R /\
  budgeted_type (V5MetaEngine.scored_type m).
Proof.
  unfold V5MetaEngine.recall_select. intros H.
  apply allocateBudget_In in H. destruct H as [H Hty].
  apply -> sort_desc_In in H. apply filter_In in H. destruct H as [H1 H2].
  apply Rleb_true in H2. auto.
Qed.

(** C5, as amended.  Whatever the scored pool, the output of the score
    filter followed by [allocateBudget] holds at most [budget[type]]
    records of each budgeted type, every one of them taken from the pool
    with a score of at least [recallThreshold]; the same holds of
    [recall] on any store. *)
Theorem recall_output_within_budget_and_threshold :
  forall (cfg : V5MetaEngine.Config) (scored : list V5MetaEngine.Scored),
    (forall ty n,
        V5MetaEngine.budget_of (V5MetaEngine.budget cfg) ty = Some n ->
        (count_type ty (V5MetaEngine.recall_select cfg scored) <= n)%nat) /\
    (forall m, In m (V5MetaEngine.recall_select cfg scored) ->
               In m scored /\
               (V5MetaEngine.recallThreshold cfg <= V5MetaEngine.recallScore m)%R) /\
    (forall st input now,
        (forall ty n,
            V5MetaEngine.budget_of (V5MetaEngine.budget cfg) ty = Some n ->
            (count_type ty (V5MetaEngine.recall cfg st input now) <= n)%nat) /\
        (forall m, In m (V5MetaEngine.recall cfg st input now) ->
                   (V5MetaEngine.recallThreshold cfg <= V5MetaEngine.recallScore m)%R)).
Proof.
  intros cfg scored.
  split; [| split].
  - intros ty n Hb. apply allocateBudget_count. exact Hb.
  - intros m Hm. apply recall_select_In in Hm. tauto.
  - intros st input now. split.
    + intros ty n Hb. apply allocateBudget_count. exact Hb.
    + intros m Hm. apply recall_select_In in Hm. tauto.
Qed.

(** C5, as worded, fails for a record whose score equals the threshold:
    the filter keeps it. *)
Lemma output_at_threshold_counterexample :
  ~ Spec.output_exceeds_threshold V5MetaEngine.default_config
      [V5MetaEngine.mkScored (Sample.record "m1" "persona" "I like python") 0.5%R].
Proof.
  intros H.
  specialize (H (V5MetaEngine.mkScored (Sample.record "m1" "persona" "I like python") 0.5%R)).
  assert (Hin : In (V5MetaEngine.mkScored (Sample.record "m1" "persona" "I like python") 0.5%R)
                   (V5MetaEngine.recall_select V5MetaEngine.default_config
                      [V5MetaEngine.mkScored (Sample.record "m1" "persona" "I like python") 0.5%R])).
  { unfold V5MetaEngine.recall_select. cbn [filter].
    replace (Js.Rleb _ _) with true.
    - left. reflexivity.
    - symmetry. apply Rleb_true. cbn. lra. }
  specialize (H Hin). cbn in H. lra.
Qed.

(** ** Types that reach the output *)

Lemma cropMemories_from_In (b : V5MetaEngine.Budget) (l : list V5MetaEngine.Scored) :
  forall (u : V5MetaEngine.Used) (m : V5MetaEngine.Scored),
    In m (V5MetaEngine.cropMemories_from b u l) ->
    In m l /\ budgeted_type (crop_type m).
Proof.
  induction l as [| a l IH]; intros u m H; [contradiction |].
  cbn [V5MetaEngine.cropMemories_from] in H. cbv zeta in H.
  fold (crop_type a) in H.
  destruct (V5MetaEngine.used_of u (crop_type a)) as [n |] eqn:E.
  - destruct (Nat.ltb n (V5MetaEngine.budget_or_six b (crop_type a))).
    + destruct H as [<- | H].
      * split; [now left | exact (used_of_some _ _ _ E)].
      * destruct (IH _ _ H). split; [right |]; assumption.
    + destruct (IH _ _ H). split; [right |]; assumption.
  - destruct (IH _ _ H). split; [right |]; assumption.
Qed.

(** C10.  [allocateBudget] emits only records of its pool whose
    [body.type] is persona, core or episodic, and [cropMemories] only
    records it counts under one of these three (the type, or episodic
    for a record without one); a record of type pinned, or of any other
    type, is in neither output. *)
Theorem budget_steps_drop_pinned :
  forall (cfg : V5MetaEngine.Config) (scored : list V5MetaEngine.Scored),
    (forall m, In m (V5MetaEngine.allocateBudget scored (V5MetaEngine.budget cfg)) ->
               In m scored /\ budgeted_type (V5MetaEngine.scored_type m)) /\
    (forall m, In m (V5MetaEngine.recall_select cfg scored) ->
               In m scored /\ budgeted_type (V5MetaEngine.scored_type m)) /\
    (forall m, In m (V5MetaEngine.cropMemories cfg scored) ->
               In m scored /\ budgeted_type (crop_type m)) /\
    (forall m, V5MetaEngine.scored_type m = "pinned" ->
               ~ In m (V5MetaEngine.allocateBudget scored (V5MetaEngine.budget cfg)) /\
               ~ In m (V5MetaEngine.recall_select cfg scored) /\
               ~ In m (V5MetaEngine.cropMemories cfg scored)) /\
    (forall m, ~ budgeted_type (V5MetaEngine.scored_type m) ->
               V5MetaEngine.scored_type m <> "" ->
               ~ In m (V5MetaEngine.allocateBudget scored (V5MetaEngine.budget cfg)) /\
               ~ In m (V5MetaEngine.recall_select cfg scored) /\
               ~ In m (V5MetaEngine.cropMemories cfg scored)).
Proof.
  intros cfg scored.
  assert (A : forall m, In m (V5MetaEngine.allocateBudget scored (V5MetaEngine.budget cfg)) ->
                        In m scored /\ budgeted_type (V5MetaEngine.scored_type m))
    by (intros m; apply allocateBudget_In).
  assert (B : forall m, In m (V5MetaEngine.recall_select cfg scored) ->
                        In m scored /\ budgeted_type (V5MetaEngine.scored_type m))
    by (intros m Hm; apply recall_select_In in Hm; tauto).
  assert (C : forall m, In m (V5MetaEngine.cropMemories cfg scored) ->
                        In m scored /\ budgeted_type (crop_type m))
    by (intros m; apply cropMemories_from_In).
  assert (D : forall m, ~ budgeted_type (V5MetaEngine.scored_type m) ->
                        V5MetaEngine.scored_type m <> "" ->
                        ~ In m (V5MetaEngine.allocateBudget scored (V5MetaEngine.budget cfg)) /\
                        ~ In m (V5MetaEngine.recall_select cfg scored) /\
                        ~ In m (V5MetaEngine.cropMemories cfg scored)).
  { intros m Hty Hne. repeat split; intros Hin.
    - apply A in Hin. tauto.
    - apply B in Hin. tauto.
    - apply C in Hin. destruct Hin as [_ Hin]. apply Hty.
      unfold crop_type, Js.or_else in Hin.
      destruct (V5MetaEngine.scored_type m); [contradiction | exact Hin]. }
  split; [exact A |]. split; [exact B |]. split; [exact C |]. split; [| exact D].
  intros m H. apply D; rewrite H.
  - unfold budgeted_type. intros [E | [E | E]]; discriminate.
  - discriminate.
Qed.

(** C10, as worded, fails for [cropMemories] on a record without a
    type: it is counted as episodic and emitted, and its [body.type] is
    none of the three. *)
Lemma typeless_record_is_cropped_counterexample :
  ~ Spec.only_budgeted_types V5MetaEngine.default_config
      [V5MetaEngine.mkScored (Sample.record "m1" "" "a note without a type") 0.9%R].
Proof.
  intros H.
  specialize (H (V5MetaEngine.mkScored (Sample.record "m1" "" "a note without a type") 0.9%R)).
  assert (Hin : In (V5MetaEngine.mkScored (Sample.record "m1" "" "a note without a type") 0.9%R)
                   (V5MetaEngine.cropMemories V5MetaEngine.default_config
                      [V5MetaEngine.mkScored
                         (Sample.record "m1" "" "a note without a type") 0.9%R])).
  { left. reflexivity. }
  destruct (H (or_intror Hin)) as [E | [E | E]]; discriminate E.
Qed.

(** ** One turn *)

(** Once the outcome of a phase is known, a premise about it either
    names that outcome or is absurd. *)
Ltac settle_phases :=
  repeat first
    [ discriminate
    | reflexivity
    | match goal with
      | H : (Ok _, _) = (Ok _, _) |- _ => injection H as <- <-
      | H : (Throw _, _) = (Throw _, _) |- _ => injection H as <- <-
      | E : ?t = (_, _), H : ?t = (_, _) |- _ => rewrite E in H
      end ].

(** C2, as amended.  [processTurn] always returns its result object.  An
    exception thrown by a phase is caught and appended, as the only
    entry, to [errors]; the phases before it have filled their fields,
    the failing phase and every later one leave theirs empty, and the
    world is the one the failing phase left: no later phase has run. *)
Theorem processTurn_stops_at_first_failure :
  forall (W : Type) (this : V5MetaEngine.Phases W) (now : Z) (input response : string) (w : W),
    let result := fst (V5MetaEngine.processTurn this now input response w) in
    let final := snd (V5MetaEngine.processTurn this now input response w) in
    V5MetaEngine.input result = input /\
    V5MetaEngine.response result = response /\
    (List.length (V5MetaEngine.errors result) <= 1)%nat /\
    (forall e w1,
        V5MetaEngine.ph_recall this input w = (Throw e, w1) ->
        V5MetaEngine.errors result = [V5MetaEngine.mkTurnError "processTurn" e now] /\
        V5MetaEngine.recalled result = [] /\ V5MetaEngine.injected result = None /\
        V5MetaEngine.extracted result = [] /\ V5MetaEngine.written result = [] /\
        final = w1) /\
    (forall r w1,
        V5MetaEngine.ph_recall this input w = (Ok r, w1) ->
        V5MetaEngine.recalled result = r /\
        (forall e w2,
            V5MetaEngine.ph_inject this input r w1 = (Throw e, w2) ->
            V5MetaEngine.errors result = [V5MetaEngine.mkTurnError "processTurn" e now] /\
            V5MetaEngine.injected result = None /\
            V5MetaEngine.extracted result = [] /\ V5MetaEngine.written result = [] /\
            final = w2) /\
        (forall i w2,
            V5MetaEngine.ph_inject this input r w1 = (Ok i, w2) ->
            V5MetaEngine.injected result = Some i /\
            (forall e w3,
                V5MetaEngine.ph_extract this response w2 = (Throw e, w3) ->
                V5MetaEngine.errors result = [V5MetaEngine.mkTurnError "processTurn" e now] /\
                V5MetaEngine.extracted result = [] /\ V5MetaEngine.written result = [] /\
                final = w3) /\
            (forall x w3,
                V5MetaEngine.ph_extract this response w2 = (Ok x, w3) ->
                V5MetaEngine.extracted result = x /\
                (forall e w4,
                    V5MetaEngine.ph_write this x w3 = (Throw e, w4) ->
                    V5MetaEngine.errors result = [V5MetaEngine.mkTurnError "processTurn" e now] /\
                    V5MetaEngine.written result = [] /\
                    final = w4) /\
                (forall wr w4,
                    V5MetaEngine.ph_write this x w3 = (Ok wr, w4) ->
                    V5MetaEngine.errors result = [] /\
                    V5MetaEngine.written result = wr /\
                    final = w4)))).
Proof.
  intros W this now input response w result final.
  unfold result, final, V5MetaEngine.processTurn.
  destruct (V5MetaEngine.ph_recall this input w) as [[r | e] w1] eqn:E1;
    [destruct (V5MetaEngine.ph_inject this input r w1) as [[i | e] w2] eqn:E2;
     [destruct (V5MetaEngine.ph_extract this response w2) as [[x | e] w3] eqn:E3;
      [destruct (V5MetaEngine.ph_write this x w3) as [[wr | e] w4] eqn:E4 | ] | ] | ];
    cbn; repeat split; auto; intros; settle_phases.
Qed.

Lemma processTurn_stops_at_first_failure_witness :
  let this :=
    V5MetaEngine.logging_phases (Ok []) (Throw (Error "Platform adapter not set"))
      (Ok []) (Ok []) in
  let run := V5MetaEngine.processTurn this Sample.t0 "hello" "answer" [] in
  V5MetaEngine.errors (fst run) =
    [V5MetaEngine.mkTurnError "processTurn" (Error "Platform adapter not set") Sample.t0] /\
  V5MetaEngine.recalled (fst run) = [] /\
  V5MetaEngine.extracted (fst run) = [] /\
  V5MetaEngine.written (fst run) = [] /\
  snd run = ["recall"; "inject"].
Proof.
  intros this run.
  destruct (processTurn_stops_at_first_failure (list string) this Sample.t0 "hello" "answer" [])
    as (_ & _ & _ & _ & H).
  destruct (H [] ["recall"] eq_refl) as (Hr & H2 & _).
  destruct (H2 (Error "Platform adapter not set") ["recall"; "inject"] eq_refl)
    as (He & _ & Hx & Hw & Hf).
  repeat split; assumption.
Defined.

(** C2, as worded, fails when the first phase throws: the three later
    phases are never entered. *)
Lemma later_phases_skipped_counterexample :
  ~ Spec.every_phase_runs (Throw (Error "storage unavailable"))
      (Ok (Injector.mkInjection "hello" "hello" None "deepseek" None)) (Ok []) (Ok []).
Proof.
  intros H. specialize (H Sample.t0 "hello" "answer"). cbn in H. discriminate H.
Qed.

(** ** Building a record *)

(** C8, the behaviour of the code.  [createMemoryEntry] returns no
    record: evaluating [expiresAt] calls the number [Date.now()]
    returned, which throws a [TypeError], whatever the candidate. *)
Theorem createMemoryEntry_throws :
  forall (candidate : Extractor.Candidate) (context : Extractor.Context)
         (now : Z) (random : string),
    Extractor.createMemoryEntry candidate context now random =
    Throw (TypeError "Date.now(...) is not a function").
Proof.
  intros candidate context now random. reflexivity.
Qed.

(** ** Compression *)

Lemma compress_unchanged (this : MemoryCompressor.t) (memory : V5Memory)
    (level : option nat) (now : Z) :
  MemoryCompressor.returns_argument memory level now = true ->
  MemoryCompressor.compress this memory level now = memory.
Proof.
  unfold MemoryCompressor.returns_argument, MemoryCompressor.compress.
  intros H. destruct (negb (Js.truthy (mem_text memory))); [reflexivity |].
  cbn in H. rewrite H. reflexivity.
Qed.

Lemma compress_keeps_original (this : MemoryCompressor.t) (memory : V5Memory)
    (level : option nat) (now : Z) :
  MemoryCompressor.returns_argument memory level now = false ->
  original_text (body (MemoryCompressor.compress this memory level now)) =
    Some (mem_text memory) /\
  Js.truthy (mem_text memory) = true.
Proof.
  unfold MemoryCompressor.returns_argument, MemoryCompressor.compress.
  intros H. apply orb_false_elim in H. destruct H as [H1 H2].
  rewrite H1, H2. apply negb_false_iff in H1. split; [reflexivity | exact H1].
Qed.

Lemma compress_meta_id (this : MemoryCompressor.t) (memory : V5Memory)
    (level : option nat) (now : Z) :
  mem_id (MemoryCompressor.compress this memory level now) = mem_id memory.
Proof.
  unfold MemoryCompressor.compress.
  destruct (negb _); [reflexivity |]. destruct (Nat.eqb _ _); reflexivity.
Qed.

Lemma decompress_restores (memory : V5Memory) (t : string) :
  original_text (body memory) = Some t -> Js.truthy t = true ->
  mem_text (MemoryCompressor.decompress memory) = t.
Proof.
  unfold MemoryCompressor.decompress. intros -> Ht.
  destruct t; [discriminate | reflexivity].
Qed.

Lemma decompress_fresh (memory : V5Memory) :
  original_text (body memory) = None \/ original_text (body memory) = Some "" ->
  MemoryCompressor.decompress memory = memory.
Proof.
  unfold MemoryCompressor.decompress. intros [-> | ->]; reflexivity.
Qed.

(** C9, as amended.  [decompress(compress(record, level))] restores
    [body.text] for every level whenever the record carries no original
    text from an earlier compression, and also whenever [compress] does
    compress it, which it does if the text is not empty and the level,
    or for level 0 or null the level its importance selects, is not
    NONE. *)
Theorem decompress_compress_restores_text :
  forall (this : MemoryCompressor.t) (memory : V5Memory) (level : option nat) (now : Z),
    (original_text (body memory) = None \/ original_text (body memory) = Some "" \/
     MemoryCompressor.returns_argument memory level now = false) ->
    mem_text (MemoryCompressor.decompress (MemoryCompressor.compress this memory level now))
    = mem_text memory.
Proof.
  intros this memory level now H.
  destruct (MemoryCompressor.returns_argument memory level now) eqn:E.
  - rewrite (compress_unchanged _ _ _ _ E).
    rewrite decompress_fresh; [reflexivity |].
    destruct H as [H | [H | H]]; [now left | now right | discriminate].
  - destruct (compress_keeps_original this memory level now E) as [Ho Ht].
    apply decompress_restores; assumption.
Qed.

Lemma decompress_compress_restores_text_witness :
  mem_text
    (MemoryCompressor.decompress
       (MemoryCompressor.compress Sample.compressor
          (Sample.record "m1" "core" "the project uses rocq for proofs")
          (Some MemoryCompressor.SUMMARY) Sample.t0))
  = "the project uses rocq for proofs" /\
  mem_text
    (MemoryCompressor.compress Sample.compressor
       (Sample.record "m1" "core" "the project uses rocq for proofs")
       (Some MemoryCompressor.SUMMARY) Sample.t0)
  = "[the, project] the project uses rocq for proofs...".
Proof.
  split.
  - apply (decompress_compress_restores_text Sample.compressor
             (Sample.record "m1" "core" "the project uses rocq for proofs")
             (Some MemoryCompressor.SUMMARY) Sample.t0).
    left. reflexivity.
  - reflexivity.
Defined.

Lemma pinned_importance (memory : V5Memory) (now : Z) :
  mem_type memory = "pinned" ->
  sensitivity (security (meta memory)) = "normal" ->
  usageCount memory = None ->
  MemoryCompressor.evaluateImportance memory now = 1%R.
Proof.
  intros Hty Hs Hu. unfold MemoryCompressor.evaluateImportance.
  rewrite Hty, Hs, Hu. cbn [Js.num_or MemoryCompressor.typeWeights String.eqb Ascii.eqb Bool.eqb].
  cbv zeta.
  match goal with
  | |- context [Rpower ?a ?b] =>
      pose proof (exp_pos (b * ln a)) as Hp; fold (Rpower a b) in Hp;
      generalize dependent (Rpower a b); intros p Hp
  end.
  unfold Js.num_or. destruct (Req_dec_T 1.0 0); [lra |].
  unfold Rdiv at 1. rewrite Rmult_0_l.
  rewrite (Rmin_left 0 0.4) by lra.
  apply Rmin_right. lra.
Qed.

(** C9, as worded, fails for a record that is already compressed and
    that [compress] leaves alone: [decompress] then puts the older
    original in the place of the text the record had. *)
Lemma round_trip_counterexample :
  ~ Spec.round_trip Sample.compressor
      (with_body (Sample.record "m1" "pinned" "[rocq, proofs] the project uses rocq...")
         (fun b => mkBody (type b) (text b) (raw_content b)
                     (Some "the project uses rocq for its proofs")
                     (Some MemoryCompressor.SUMMARY) ["rocq"; "proofs"] None))
      (Some MemoryCompressor.NONE) (Sample.t0 + Sample.day)%Z.
Proof.
  unfold Spec.round_trip. intros H.
  rewrite compress_unchanged in H.
  - cbn in H. discriminate H.
  - unfold MemoryCompressor.returns_argument,
      MemoryCompressor.effective_level, MemoryCompressor.determineCompressionLevel.
    rewrite pinned_importance by reflexivity.
    destruct (Rlt_dec 0.7 1); [reflexivity | lra].
Qed.

(** ** Tiers *)

Lemma determineTier_forty_days (this : HierarchicalStorage.t) (memory : V5Memory) (now : Z) :
  HierarchicalStorage.tierConfig this = HierarchicalStorage.STORAGE_TIERS ->
  lastUsedAt (lifecycle (meta memory)) = Some (now - 40 * Sample.day)%Z ->
  HierarchicalStorage.determineTier this memory now = "cold".
Proof.
  intros Hc Hl. unfold HierarchicalStorage.determineTier. rewrite Hc, Hl.
  replace (now - (now - 40 * Sample.day))%Z with (40 * Sample.day)%Z by lia.
  reflexivity.
Qed.

Lemma cache_has_false (h : list (string * V5Memory)) (i : string) :
  HierarchicalStorage.cache_has h i = false -> HierarchicalStorage.cache_get h i = None.
Proof.
  unfold HierarchicalStorage.cache_has.
  destruct (HierarchicalStorage.cache_get h i); [discriminate | reflexivity].
Qed.

Lemma cache_get_set (h : list (string * V5Memory)) (i : string) (m : V5Memory) :
  HierarchicalStorage.cache_get (HierarchicalStorage.cache_set h i m) i = Some m.
Proof.
  induction h as [| [k v] h IH]; cbn.
  - rewrite String.eqb_refl. reflexivity.
  - destruct (String.eqb k i) eqn:E; cbn; rewrite E; [reflexivity | exact IH].
Qed.

Lemma migrateToTier_uncached (this : HierarchicalStorage.t) (i tier : string) (now : Z) :
  HierarchicalStorage.cache_has (HierarchicalStorage.hotCache this) i = false ->
  HierarchicalStorage.migrateToTier this i tier now = this.
Proof.
  intros H. unfold HierarchicalStorage.migrateToTier.
  rewrite (cache_has_false _ _ H). reflexivity.
Qed.

(** C4, the behaviour of the code.  A [get] on a record that lies in
    the warm or cold store and not in the map [hotCache] — where the
    compression cycle leaves every record it demotes — changes nothing
    and returns no record: [migrateToTier] looks the record up in
    [hotCache] only.  The record is not promoted. *)
Theorem get_leaves_demoted_record_in_its_tier :
  forall (this : HierarchicalStorage.t) (i : string) (now : Z) (m : V5Memory),
    HierarchicalStorage.cache_has (HierarchicalStorage.hotCache this) i = false ->
    (FileSystemStore.get (HierarchicalStorage.warmStore this) i = Some m \/
     FileSystemStore.get (HierarchicalStorage.coldStore this) i = Some m) ->
    HierarchicalStorage.get this i now = (this, false) /\
    ~ Spec.promoted_by_get this i now.
Proof.
  intros this i now m Hc Hm.
  assert (Hget : HierarchicalStorage.get this i now = (this, false)).
  { unfold HierarchicalStorage.get. rewrite Hc.
    destruct (FileSystemStore.get (HierarchicalStorage.warmStore this) i).
    - rewrite (migrateToTier_uncached _ _ _ _ Hc), Hc. reflexivity.
    - destruct (FileSystemStore.get (HierarchicalStorage.coldStore this) i); [| reflexivity].
      rewrite (migrateToTier_uncached _ _ _ _ Hc), Hc. reflexivity. }
  split; [exact Hget |].
  intros Hp. destruct (Hp m Hm) as (m' & Hm' & _).
  rewrite Hget in Hm'. cbn [fst] in Hm'.
  rewrite (cache_has_false _ _ Hc) in Hm'. discriminate Hm'.
Qed.

(** A record added fresh, demoted to the warm tier by the compression
    cycle ten days later, and then read. *)
Lemma get_leaves_demoted_record_in_its_tier_witness :
  let added :=
    fst (HierarchicalStorage.add (HierarchicalStorage.new Sample.compressor)
           (Sample.record "m1" "core" "the project uses rocq for proofs") Sample.t0) in
  let later := (Sample.t0 + 10 * Sample.day)%Z in
  let demoted := HierarchicalStorage.runCompressionCycle added later in
  map (fun m => (mem_id m, storage_tier (meta m))) (HierarchicalStorage.warmStore demoted)
    = [("m1", Some "warm")] /\
  HierarchicalStorage.get demoted "m1" later = (demoted, false) /\
  HierarchicalStorage.query (fst (HierarchicalStorage.get demoted "m1" later))
    HierarchicalStorage.all_records = [] /\
  ~ Spec.promoted_by_get demoted "m1" later.
Proof.
  intros added later demoted.
  assert (Hw : exists m, FileSystemStore.get (HierarchicalStorage.warmStore demoted) "m1" = Some m)
    by (eexists; reflexivity).
  destruct Hw as [m Hm].
  destruct (get_leaves_demoted_record_in_its_tier demoted "m1" later m) as [Hget Hnot].
  - reflexivity.
  - left. exact Hm.
  - split; [reflexivity |]. split; [exact Hget |]. split; [| exact Hnot].
    rewrite Hget. reflexivity.
Defined.

(** The scenario of the specification does hold: a record added with a
    last use 40 days back is stored cold and is also put in [hotCache],
    so a [get] finds it there and promotes it. *)
Lemma get_promotes_cached_cold_record :
  let now := Sample.t0 in
  let added :=
    fst (HierarchicalStorage.add (HierarchicalStorage.new Sample.compressor)
           (Sample.record_at (now - 40 * Sample.day)%Z "m9" "core"
              "the project uses rocq for proofs") now) in
  map (fun m => (mem_id m, storage_tier (meta m))) (HierarchicalStorage.coldStore added)
    = [("m9", Some "cold")] /\
  map (fun m => (mem_id m, storage_tier (meta m)))
    (HierarchicalStorage.query (fst (HierarchicalStorage.get added "m9" now))
       HierarchicalStorage.all_records)
    = [("m9", Some "hot")] /\
  HierarchicalStorage.coldStore (fst (HierarchicalStorage.get added "m9" now)) = [].
Proof.
  intros now added. repeat split; reflexivity.
Qed.

(** ** The activation formula *)

Section Activation.

Local Open Scope R_scope.

Lemma toFixed4_monotone (p q : R) : p <= q -> Scorer.toFixed4 p <= Scorer.toFixed4 q.
Proof.
  intros H. unfold Scorer.toFixed4, Scorer.toFixed4_ticks.
  assert (G : (Zfloor (p * 10000 + / 2) <= Zfloor (q * 10000 + / 2))%Z)
    by (apply Zfloor_le; lra).
  apply IZR_le in G. lra.
Qed.

Lemma toFixed4_ticks_exact (n : Z) : Scorer.toFixed4_ticks (IZR n / 10000) = n.
Proof.
  unfold Scorer.toFixed4_ticks. apply Zfloor_eq. lra.
Qed.

Lemma toFixed4_exact (n : Z) : Scorer.toFixed4 (IZR n / 10000) = IZR n / 10000.
Proof. unfold Scorer.toFixed4. rewrite toFixed4_ticks_exact. reflexivity. Qed.

Lemma toFixed4_near (p : R) : Rabs (Scorer.toFixed4 p - p) <= 0.00005.
Proof.
  unfold Scorer.toFixed4, Scorer.toFixed4_ticks.
  pose proof (Zfloor_bound (p * 10000 + / 2)) as [H1 H2].
  apply Rabs_le. lra.
Qed.

Lemma toFixed4_between (lo hi : Z) (p : R) :
  IZR lo / 10000 <= p -> p <= IZR hi / 10000 ->
  IZR lo / 10000 <= Scorer.toFixed4 p <= IZR hi / 10000.
Proof.
  intros H1 H2. split.
  - rewrite <- (toFixed4_exact lo). apply toFixed4_monotone. exact H1.
  - rewrite <- (toFixed4_exact hi). apply toFixed4_monotone. exact H2.
Qed.

Lemma clamp01_range (x : R) : 0 <= Scorer.clamp01 x <= 1.
Proof.
  unfold Scorer.clamp01. split; [apply Rmax_l |].
  apply Rmax_lub; [lra | apply Rmin_l].
Qed.

Lemma clamp01_inside (x : R) : 0 <= x <= 1 -> Scorer.clamp01 x = x.
Proof.
  intros [H0 H1]. unfold Scorer.clamp01.
  rewrite Rmin_right by exact H1. apply Rmax_right. exact H0.
Qed.

Lemma clamp01_below (x : R) : x <= 0 -> Scorer.clamp01 x = 0.
Proof.
  intros H. unfold Scorer.clamp01. rewrite Rmin_right by lra. apply Rmax_left. exact H.
Qed.

Lemma clamp01_above (x : R) : 1 <= x -> Scorer.clamp01 x = 1.
Proof.
  intros H. unfold Scorer.clamp01. rewrite Rmin_left by exact H. apply Rmax_right. lra.
Qed.

Lemma clamp01_monotone (x y : R) : x <= y -> Scorer.clamp01 x <= Scorer.clamp01 y.
Proof.
  intros H. unfold Scorer.clamp01.
  apply Rle_max_compat_l. apply Rle_min_compat_l. exact H.
Qed.

Lemma clamp01_idempotent (x : R) : Scorer.clamp01 (Scorer.clamp01 x) = Scorer.clamp01 x.
Proof. apply clamp01_inside. apply clamp01_range. Qed.

(** The logistic curve [1 / (1 + exp t)]. *)
Lemma logistic_range (t : R) : 0 < 1 / (1 + exp t) < 1.
Proof.
  pose proof (exp_pos t) as He.
  split.
  - apply Rdiv_lt_0_compat; lra.
  - apply Rmult_lt_reg_r with (1 + exp t); [lra |].
    unfold Rdiv. rewrite Rmult_assoc, Rinv_l by lra. lra.
Qed.

Lemma logistic_antitone (s t : R) : s <= t -> 1 / (1 + exp t) <= 1 / (1 + exp s).
Proof.
  intros H. pose proof (exp_pos s) as Hs.
  assert (He : exp s <= exp t).
  { destruct H as [H | ->]; [left; apply exp_increasing; exact H | right; reflexivity]. }
  unfold Rdiv. rewrite !Rmult_1_l.
  apply Rinv_le_contravar; lra.
Qed.

Lemma logistic_strictly_antitone (s t : R) : s < t -> 1 / (1 + exp t) < 1 / (1 + exp s).
Proof.
  intros H. pose proof (exp_pos s) as Hs.
  pose proof (exp_increasing _ _ H) as He.
  unfold Rdiv. rewrite !Rmult_1_l.
  apply Rinv_lt_contravar; [| lra].
  apply Rmult_lt_0_compat; lra.
Qed.

Lemma logistic_lower (t a : R) : 0 < a -> a * (1 + exp t) <= 1 -> a <= 1 / (1 + exp t).
Proof.
  intros Ha H. pose proof (exp_pos t) as He.
  apply Rmult_le_reg_r with (1 + exp t); [lra |].
  unfold Rdiv. rewrite Rmult_assoc, Rinv_l by lra. lra.
Qed.

Lemma logistic_upper (t b : R) : 1 <= b * (1 + exp t) -> 1 / (1 + exp t) <= b.
Proof.
  intros H. pose proof (exp_pos t) as He.
  apply Rmult_le_reg_r with (1 + exp t); [lra |].
  unfold Rdiv. rewrite Rmult_assoc, Rinv_l by lra. lra.
Qed.

Lemma barrier_equation_range (input gamma barrier : R) :
  0 < Scorer.barrier_equation input gamma barrier < 1.
Proof. unfold Scorer.barrier_equation. apply logistic_range. Qed.

Lemma barrier_equation_monotone (gamma barrier x y : R) :
  0 < gamma -> x <= y ->
  Scorer.barrier_equation x gamma barrier <= Scorer.barrier_equation y gamma barrier.
Proof.
  intros Hg H. unfold Scorer.barrier_equation. cbv zeta.
  apply logistic_antitone.
  pose proof (clamp01_monotone x y H). nra.
Qed.

Lemma barrier_equation_increasing (gamma barrier x y : R) :
  0 < gamma -> 0 <= x -> x < y -> y <= 1 ->
  Scorer.barrier_equation x gamma barrier < Scorer.barrier_equation y gamma barrier.
Proof.
  intros Hg H0 H H1. unfold Scorer.barrier_equation. cbv zeta.
  rewrite (clamp01_inside x), (clamp01_inside y) by lra.
  apply logistic_strictly_antitone. nra.
Qed.

Lemma barrier_equation_at_barrier (gamma barrier : R) :
  0 <= barrier <= 1 -> Scorer.barrier_equation barrier gamma barrier = / 2.
Proof.
  intros H. unfold Scorer.barrier_equation. cbv zeta.
  rewrite (clamp01_inside barrier H).
  replace (-2 * gamma * (barrier - barrier)) with 0 by ring.
  rewrite exp_0. lra.
Qed.

Lemma v5Formula_monotone (gamma barrier x y : R) :
  0 < gamma -> x <= y ->
  Scorer.v5Formula x gamma barrier <= Scorer.v5Formula y gamma barrier.
Proof.
  intros Hg H. unfold Scorer.v5Formula.
  apply toFixed4_monotone. apply barrier_equation_monotone; assumption.
Qed.

Lemma v5Formula_clamped (gamma barrier x : R) :
  Scorer.v5Formula x gamma barrier = Scorer.v5Formula (Scorer.clamp01 x) gamma barrier.
Proof.
  unfold Scorer.v5Formula, Scorer.barrier_equation. cbv zeta.
  rewrite clamp01_idempotent. reflexivity.
Qed.

Lemma v5Formula_at_barrier (gamma barrier : R) :
  0 <= barrier <= 1 -> Scorer.v5Formula barrier gamma barrier = 0.5.
Proof.
  intros H. unfold Scorer.v5Formula. rewrite (barrier_equation_at_barrier _ _ H).
  replace (/ 2) with (IZR 5000 / 10000) by lra.
  rewrite toFixed4_exact. lra.
Qed.

(** C7, as amended.  For every [gamma > 0] the activation lies in
    [0,1], is non-decreasing in the input (the unrounded curve is
    strictly increasing on [0,1]), is exactly 0.5 at an input equal to
    the barrier, clamps an input outside [0,1] before evaluation, and is
    the unrounded value rounded to four decimals. *)
Theorem v5Formula_is_rounded_monotone_sigmoid :
  forall gamma barrier : R,
    0 < gamma ->
    (forall input, 0 <= Scorer.v5Formula input gamma barrier <= 1) /\
    (forall x y, x <= y ->
                 Scorer.v5Formula x gamma barrier <= Scorer.v5Formula y gamma barrier) /\
    (forall x y, 0 <= x -> x < y -> y <= 1 ->
                 Scorer.barrier_equation x gamma barrier <
                 Scorer.barrier_equation y gamma barrier) /\
    (0 <= barrier <= 1 -> Scorer.v5Formula barrier gamma barrier = 0.5) /\
    (forall input,
        Scorer.v5Formula input gamma barrier =
          Scorer.v5Formula (Scorer.clamp01 input) gamma barrier /\
        (input <= 0 -> Scorer.v5Formula input gamma barrier = Scorer.v5Formula 0 gamma barrier) /\
        (1 <= input -> Scorer.v5Formula input gamma barrier = Scorer.v5Formula 1 gamma barrier)) /\
    (forall input,
        exists n : Z,
          Scorer.v5Formula input gamma barrier = IZR n / 10000 /\
          Rabs (Scorer.v5Formula input gamma barrier -
                Scorer.barrier_equation input gamma barrier) <= 0.00005).
Proof.
  intros gamma barrier Hg.
  split; [| split; [| split; [| split; [| split]]]].
  - intros input. unfold Scorer.v5Formula.
    pose proof (barrier_equation_range input gamma barrier) as [H0 H1].
    pose proof (toFixed4_between 0 10000 (Scorer.barrier_equation input gamma barrier)) as G.
    lra.
  - intros x y H. apply v5Formula_monotone; assumption.
  - intros x y H0 H H1. apply barrier_equation_increasing; assumption.
  - apply v5Formula_at_barrier.
  - intros input. split; [apply v5Formula_clamped |]. split; intros H.
    + rewrite v5Formula_clamped, (clamp01_below _ H).
      rewrite (v5Formula_clamped _ _ 0), (clamp01_below 0) by lra. reflexivity.
    + rewrite v5Formula_clamped, (clamp01_above _ H).
      rewrite (v5Formula_clamped _ _ 1), (clamp01_above 1) by lra. reflexivity.
  - intros input.
    exists (Scorer.toFixed4_ticks (Scorer.barrier_equation input gamma barrier)).
    split; [reflexivity | apply toFixed4_near].
Qed.

Lemma v5Formula_is_rounded_monotone_sigmoid_witness :
  Scorer.v5Formula 0.5 0.85 0.5 = 0.5 /\
  Scorer.v5Formula (-5) 0.85 0.5 = Scorer.v5Formula 0 0.85 0.5 /\
  Scorer.v5Formula 5 0.85 0.5 = Scorer.v5Formula 1 0.85 0.5 /\
  Scorer.v5Formula 0.2 0.85 0.5 <= Scorer.v5Formula 0.9 0.85 0.5.
Proof.
  destruct (v5Formula_is_rounded_monotone_sigmoid 0.85 0.5) as (_ & Hm & _ & Hb & Hc & _);
    [lra |].
  split; [apply Hb; lra |].
  split; [apply (Hc (-5)); lra |].
  split; [apply (Hc 5); lra |].
  apply Hm. lra.
Defined.

(** Two inputs a hundred-thousandth apart are both sent to 0.5. *)
Lemma v5Formula_just_above_barrier : Scorer.v5Formula 0.50001 0.85 0.5 = 0.5.
Proof.
  unfold Scorer.v5Formula, Scorer.barrier_equation. cbv zeta.
  rewrite clamp01_inside by lra.
  replace (-2 * 0.85 * (0.50001 - 0.5)) with (- 0.000017) by lra.
  pose proof (exp_ineq1_le (- 0.000017)) as Hlo.
  assert (Hhi : exp (- 0.000017) <= 1).
  { rewrite <- exp_0. left. apply exp_increasing. lra. }
  pose proof (toFixed4_between 5000 5000 (1 / (1 + exp (- 0.000017)))) as G.
  assert (H1 : IZR 5000 / 10000 <= 1 / (1 + exp (- 0.000017))).
  { apply logistic_lower; lra. }
  unfold Scorer.toFixed4, Scorer.toFixed4_ticks.
  replace (Zfloor (1 / (1 + exp (- 0.000017)) * 10000 + / 2)) with 5000%Z; [lra |].
  symmetry. apply Zfloor_eq.
  assert (H2 : 1 / (1 + exp (- 0.000017)) <= 0.50001).
  { apply logistic_upper. lra. }
  lra.
Qed.

(** C7, as worded, fails: rounding to four decimals makes the
    activation constant on short intervals, so it is not strictly
    increasing. *)
Lemma strictly_increasing_counterexample : ~ Spec.strictly_increasing 0.85 0.5.
Proof.
  intros H. specialize (H 0.5 0.50001).
  rewrite v5Formula_just_above_barrier in H.
  rewrite v5Formula_at_barrier in H by lra. lra.
Qed.

End Activation.

(** ** The recall score *)

Section RecallScore.

Local Open Scope R_scope.

Lemma Set_of_length_incl (l l' : list string) :
  incl l l' -> (List.length (Js.Set_of l) <= List.length (Js.Set_of l'))%nat.
Proof.
  intros H. unfold Js.Set_of. apply NoDup_incl_length; [apply NoDup_nodup |].
  intros x Hx. apply nodup_In. apply H. apply nodup_In in Hx. exact Hx.
Qed.

Lemma Set_of_idempotent_length (l : list string) :
  List.length (Js.Set_of (Js.Set_of l)) = List.length (Js.Set_of l).
Proof.
  unfold Js.Set_of. rewrite (nodup_fixed_point string_dec (NoDup_nodup string_dec l)).
  reflexivity.
Qed.

Lemma calculateKeywordSimilarity_range (text1 text2 : string) :
  0 <= Scorer.calculateKeywordSimilarity text1 text2 <= 1.
Proof.
  unfold Scorer.calculateKeywordSimilarity.
  destruct (negb (Js.truthy text1) || negb (Js.truthy text2)); [lra |].
  set (w1 := Js.Set_of (Scorer.normalizeText text1)).
  set (w2 := Js.Set_of (Scorer.normalizeText text2)).
  destruct (Nat.eqb (List.length w1) 0) eqn:E1; cbn [orb]; [lra |].
  destruct (Nat.eqb (List.length w2) 0) eqn:E2; [lra |].
  apply Nat.eqb_neq in E1.
  assert (Hi : (List.length (Js.Set_of (filter (Js.has w2) w1)) <=
                List.length (Js.Set_of (w1 ++ w2)))%nat).
  { apply Set_of_length_incl. intros x Hx. apply filter_In in Hx.
    apply in_or_app. left. tauto. }
  assert (Hu : (List.length w1 <= List.length (Js.Set_of (w1 ++ w2)))%nat).
  { unfold w1 at 1. rewrite <- Set_of_idempotent_length. fold w1.
    apply Set_of_length_incl. intros x Hx. apply in_or_app. now left. }
  apply le_INR in Hi.
  assert (Hpos : 0 < INR (List.length (Js.Set_of (w1 ++ w2)))).
  { apply lt_0_INR. lia. }
  pose proof (pos_INR (List.length (Js.Set_of (filter (Js.has w2) w1)))) as Hn.
  split.
  - apply Rmult_le_reg_r with (INR (List.length (Js.Set_of (w1 ++ w2)))); [exact Hpos |].
    unfold Rdiv. rewrite Rmult_assoc, Rinv_l by lra. lra.
  - apply Rmult_le_reg_r with (INR (List.length (Js.Set_of (w1 ++ w2)))); [exact Hpos |].
    unfold Rdiv. rewrite Rmult_assoc, Rinv_l by lra. lra.
Qed.

Lemma calculateKeywordSimilarity_disjoint (text1 text2 : string) :
  filter (Js.has (Js.Set_of (Scorer.normalizeText text2)))
    (Js.Set_of (Scorer.normalizeText text1)) = [] ->
  Scorer.calculateKeywordSimilarity text1 text2 = 0.
Proof.
  intros H. unfold Scorer.calculateKeywordSimilarity.
  destruct (_ || _); [reflexivity |].
  destruct (_ || _); [reflexivity |].
  rewrite H. cbn. lra.
Qed.

Lemma ln_half_negative : ln 0.5 < 0.
Proof.
  rewrite <- ln_1. apply ln_increasing; lra.
Qed.

Lemma calculateTimeDecay_range (lastUsed : option Z) (halfLife : R) (now : Z) :
  0 < halfLife ->
  (forall last, lastUsed = Some last -> (last <= now)%Z) ->
  0 < Scorer.calculateTimeDecay lastUsed halfLife now <= 1.
Proof.
  intros Hh Hl. unfold Scorer.calculateTimeDecay.
  destruct lastUsed as [last |]; [| lra].
  specialize (Hl last eq_refl). apply IZR_le in Hl.
  unfold Rpower. split; [apply exp_pos |].
  rewrite <- exp_0.
  assert (Hd : 0 <= (IZR now - IZR last) / Scorer.ms_per_day / halfLife).
  { unfold Scorer.ms_per_day.
    apply Rmult_le_pos; [apply Rmult_le_pos; [lra |] |].
    - left. apply Rinv_0_lt_compat. lra.
    - left. apply Rinv_0_lt_compat. exact Hh. }
  pose proof ln_half_negative as Hn.
  assert (Hx : (IZR now - IZR last) / Scorer.ms_per_day / halfLife * ln 0.5 <= 0) by nra.
  destruct Hx as [Hx | ->]; [left; apply exp_increasing; exact Hx | right; reflexivity].
Qed.

Lemma calculateTimeDecay_now (t : Z) (halfLife : R) :
  Scorer.calculateTimeDecay (Some t) halfLife t = 1.
Proof.
  unfold Scorer.calculateTimeDecay, Rpower.
  replace ((IZR t - IZR t) / Scorer.ms_per_day / halfLife * ln 0.5) with 0.
  - apply exp_0.
  - unfold Rdiv. ring.
Qed.

Lemma filtered_In (input : string) (memories : list V5Memory) (cfg : Retriever.Config)
    (now : Z) (r : Retriever.Retrieved) :
  In r (Retriever.filtered input memories cfg now) ->
  In (Retriever.memory r) memories /\
  Retriever.threshold cfg <= Retriever.recallScore r /\
  Retriever.recallScore r =
    Retriever.calculateRecallScore input (Retriever.memory r) (Retriever.typePriority cfg) now /\
  Retriever.v5Probability r =
    Scorer.v5Formula (Retriever.recallScore r) (Retriever.gamma cfg) (Retriever.barrier cfg).
Proof.
  unfold Retriever.filtered. destruct (_ || _); [intros [] |].
  intros H. apply filter_In in H. destruct H as [H1 H2].
  apply in_map_iff in H1. destruct H1 as (m & <- & Hm).
  apply Rleb_true in H2. cbn in *. auto.
Qed.

Lemma recall_In (cfg : V5MetaEngine.Config) (st : FileSystemStore.Store) (input : string)
    (now : Z) (s : V5MetaEngine.Scored) :
  In s (V5MetaEngine.recall cfg st input now) ->
  In (V5MetaEngine.memory s) (FileSystemStore.query st (V5MetaEngine.active_scope cfg)) /\
  V5MetaEngine.recallThreshold cfg <= V5MetaEngine.recallScore s /\
  V5MetaEngine.recallScore s =
    Scorer.calculateRecallScore input (V5MetaEngine.memory s)
      (V5MetaEngine.gamma cfg) (V5MetaEngine.barrier cfg) now.
Proof.
  unfold V5MetaEngine.recall. intros H.
  apply recall_select_In in H. destruct H as (H1 & H2 & _).
  apply in_map_iff in H1. destruct H1 as (m & <- & Hm). cbn. auto.
Qed.

(** C6, as amended.  Keyword overlap and, for a record last used no
    later than now, time decay lie in [0,1].  The retriever's score is
    35% keyword overlap, 25% recall priority, 20% time decay, 10% for a
    platform weight of 1 and 10% for a third of the type priority, and
    the retriever thresholds on this raw score, computing the
    activation beside it.  The scorer's score, which the engine's
    [recall] thresholds on, is the activation of 30% keyword overlap,
    30% recall priority, 20% time decay and 20% platform weight, the
    weight being 1 for deepseek and 0.9 otherwise. *)
Theorem recall_score_variants :
  forall (input : string) (memory : V5Memory) (now : Z),
    let keywordScore := Scorer.calculateKeywordSimilarity input (mem_text memory) in
    let priorityScore := Js.num_or (recall_priority (dimensions (meta memory))) 0.5 in
    let timeDecay := Scorer.calculateTimeDecay (lastUsedAt (lifecycle (meta memory))) 7 now in
    0 <= keywordScore <= 1 /\
    ((forall last, lastUsedAt (lifecycle (meta memory)) = Some last -> (last <= now)%Z) ->
     0 < timeDecay <= 1) /\
    (forall typePriority,
        Retriever.calculateRecallScore input memory typePriority now =
        0.35 * keywordScore + 0.25 * priorityScore + 0.2 * timeDecay + 0.1 * 1 +
        0.1 * (Js.num_or (typePriority (mem_type memory)) 1 / 3)) /\
    (forall memories cfg r,
        In r (Retriever.filtered input memories cfg now) ->
        Retriever.threshold cfg <= Retriever.recallScore r /\
        Retriever.recallScore r =
          Retriever.calculateRecallScore input (Retriever.memory r)
            (Retriever.typePriority cfg) now /\
        Retriever.v5Probability r =
          Scorer.v5Formula (Retriever.recallScore r) (Retriever.gamma cfg)
            (Retriever.barrier cfg)) /\
    (forall gamma barrier,
        Scorer.calculateRecallScore input memory gamma barrier now =
        Scorer.v5Formula
          (0.3 * keywordScore + 0.3 * priorityScore + 0.2 * timeDecay +
           0.2 * (if String.eqb (platform (meta memory)) "deepseek" then 1 else 0.9))
          gamma barrier) /\
    (forall cfg st s,
        In s (V5MetaEngine.recall cfg st input now) ->
        V5MetaEngine.recallThreshold cfg <= V5MetaEngine.recallScore s /\
        V5MetaEngine.recallScore s =
          Scorer.calculateRecallScore input (V5MetaEngine.memory s)
            (V5MetaEngine.gamma cfg) (V5MetaEngine.barrier cfg) now).
Proof.
  intros input memory now keywordScore priorityScore timeDecay.
  split; [apply calculateKeywordSimilarity_range |].
  split; [intros H; apply calculateTimeDecay_range; [lra | exact H] |].
  split.
  { intros typePriority. unfold Retriever.calculateRecallScore.
    fold keywordScore priorityScore timeDecay. lra. }
  split.
  { intros memories cfg r Hr. apply filtered_In in Hr. tauto. }
  split.
  { intros gamma barrier. unfold Scorer.calculateRecallScore, Scorer.recall_inputScore.
    fold keywordScore priorityScore timeDecay. f_equal.
    destruct (String.eqb _ _); lra. }
  intros cfg st s Hs. apply recall_In in Hs. tauto.
Qed.

Lemma recall_score_variants_witness :
  let m := Sample.record "m1" "persona" "I like python for backend work" in
  0 < Scorer.calculateTimeDecay (lastUsedAt (lifecycle (meta m))) 7
        (Sample.t0 + 3 * Sample.day)%Z <= 1 /\
  Scorer.calculateRecallScore "weather" m 0.85 0.5 Sample.t0 = Scorer.v5Formula 0.7 0.85 0.5.
Proof.
  intros m.
  destruct (recall_score_variants "weather" m (Sample.t0 + 3 * Sample.day)%Z)
    as (_ & Hd & _).
  destruct (recall_score_variants "weather" m Sample.t0) as (_ & _ & _ & _ & Hs & _).
  split.
  - apply Hd. intros last Hl. injection Hl as <-. unfold Sample.day. lia.
  - rewrite Hs. f_equal.
    rewrite (calculateKeywordSimilarity_disjoint "weather" (mem_text m)) by reflexivity.
    change (lastUsedAt (lifecycle (meta m))) with (Some Sample.t0).
    rewrite calculateTimeDecay_now.
    change (recall_priority (dimensions (meta m))) with (Some 1).
    unfold Js.num_or. destruct (Req_dec_T 1 0); [lra |].
    change (String.eqb (platform (meta m)) "deepseek") with true. cbv iota. lra.
Defined.

Lemma scorer_inputScore_sample :
  Scorer.recall_inputScore "weather"
    (Sample.record "m1" "persona" "I like python for backend work") Sample.t0 = 0.7.
Proof.
  unfold Scorer.recall_inputScore. cbv zeta.
  rewrite calculateKeywordSimilarity_disjoint by reflexivity.
  change (lastUsedAt (lifecycle (meta (Sample.record "m1" "persona"
                                          "I like python for backend work"))))
    with (Some Sample.t0).
  rewrite calculateTimeDecay_now.
  change (recall_priority (dimensions (meta (Sample.record "m1" "persona"
                                               "I like python for backend work"))))
    with (Some 1).
  unfold Js.num_or. destruct (Req_dec_T 1 0); [lra |].
  change (String.eqb (platform (meta (Sample.record "m1" "persona"
                                        "I like python for backend work"))) "deepseek")
    with true.
  cbv iota. lra.
Qed.

Lemma v5Formula_at_0_7 : 0.57 <= Scorer.v5Formula 0.7 0.85 0.5.
Proof.
  unfold Scorer.v5Formula.
  replace 0.57 with (IZR 5700 / 10000) by lra.
  rewrite <- (toFixed4_exact 5700). apply toFixed4_monotone.
  unfold Scorer.barrier_equation. cbv zeta. rewrite clamp01_inside by lra.
  replace (-2 * 0.85 * (0.7 - 0.5)) with (- 0.34) by lra.
  apply logistic_lower; [lra |].
  replace (exp (- 0.34)) with (/ exp 0.34) by (rewrite <- exp_Ropp; f_equal; lra).
  pose proof (exp_ineq1_le 0.34) as H.
  assert (Hi : / exp 0.34 <= / 1.34) by (apply Rinv_le_contravar; lra).
  lra.
Qed.

Lemma v5Formula_up_to_0_55 (x : R) : x <= 0.55 -> Scorer.v5Formula x 0.85 0.5 <= 0.53.
Proof.
  intros Hx.
  apply Rle_trans with (Scorer.v5Formula 0.55 0.85 0.5);
    [apply v5Formula_monotone; lra |].
  unfold Scorer.v5Formula.
  replace 0.53 with (IZR 5300 / 10000) by lra.
  rewrite <- (toFixed4_exact 5300). apply toFixed4_monotone.
  unfold Scorer.barrier_equation. cbv zeta. rewrite clamp01_inside by lra.
  replace (-2 * 0.85 * (0.55 - 0.5)) with (- 0.085) by lra.
  apply logistic_upper.
  pose proof (exp_ineq1_le (- 0.085)) as H. lra.
Qed.

(** C6, as worded, fails for the scorer's [calculateRecallScore]: for a
    deepseek record of priority 1, just used, with no keyword in common
    with the query, it is the activation of 0.7, while 35%, 25%, 20% and
    10% add up to 0.55 at most. *)
Lemma recall_score_weights_counterexample :
  ~ Spec.recall_score_weights "weather"
      (Sample.record "m1" "persona" "I like python for backend work") 0.85 0.5 Sample.t0.
Proof.
  intros (pw & Hpw & H).
  unfold Scorer.calculateRecallScore in H. rewrite scorer_inputScore_sample in H.
  rewrite calculateKeywordSimilarity_disjoint in H by reflexivity.
  change (lastUsedAt (lifecycle (meta (Sample.record "m1" "persona"
                                          "I like python for backend work"))))
    with (Some Sample.t0) in H.
  rewrite calculateTimeDecay_now in H.
  change (recall_priority (dimensions (meta (Sample.record "m1" "persona"
                                               "I like python for backend work"))))
    with (Some 1) in H.
  unfold Js.num_or in H. destruct (Req_dec_T 1 0); [lra |].
  pose proof v5Formula_at_0_7 as Ha.
  pose proof (v5Formula_up_to_0_55 (0 * 0.35 + 1 * 0.25 + 1 * 0.2 + pw * 0.1)) as Hb.
  rewrite H in Ha. lra.
Qed.

(** The engine's [calculateMatchScore] is [NaN] for every input: its
    keyword score divides [undefined] by the size of a set that is never
    empty. *)
Lemma split_ws_from_nonempty (s : string) : forall inws cur, Js.split_ws_from inws cur s <> [].
Proof.
  induction s as [| c s IH]; cbn; intros inws cur; [discriminate |].
  destruct (Js.is_space c); [destruct inws; [apply IH | discriminate] | apply IH].
Qed.

Lemma Set_of_nonempty (l : list string) : l <> [] -> Js.Set_of l <> [].
Proof.
  intros H E. destruct l as [| a l]; [contradiction |].
  assert (G : In a (Js.Set_of (a :: l))) by (apply nodup_In; now left).
  rewrite E in G. exact G.
Qed.

Lemma calculateMatchScore_is_NaN (input : string) (memory : V5Memory) (now : Z) :
  V5MetaEngine.calculateMatchScore input memory now = V5MetaEngine.NaN.
Proof.
  unfold V5MetaEngine.calculateMatchScore, V5MetaEngine.size_of_array_over. cbv zeta.
  match goal with
  | |- context [Nat.ltb 0 (List.length ?u)] => destruct u eqn:E
  end.
  - exfalso. apply Set_of_nonempty in E; [exact E |].
    intros C. apply app_eq_nil in C. destruct C as [C _].
    apply Set_of_nonempty in C; [exact C |]. apply split_ws_from_nonempty.
  - reflexivity.
Qed.

End RecallScore.

(** ** Recall at the threshold, and a pinned record, end to end *)

Section RecallExamples.

Local Open Scope R_scope.

Lemma decay_after_eleven_half_lives :
  Scorer.calculateTimeDecay (Some Sample.t0) 7 (Sample.t0 + 77 * Sample.day)%Z = / 2048.
Proof.
  unfold Scorer.calculateTimeDecay, Scorer.ms_per_day.
  replace ((IZR (Sample.t0 + 77 * Sample.day) - IZR Sample.t0) / (1000 * 60 * 60 * 24) / 7)
    with (INR 11).
  - rewrite Rpower_pow by lra. simpl pow. lra.
  - rewrite plus_IZR, mult_IZR. unfold Sample.day. simpl INR.
    rewrite !mult_IZR. lra.
Qed.

Lemma v5Formula_near_barrier (x : R) :
  0.5 <= x <= 0.5001 -> Scorer.v5Formula x 0.85 0.5 = 0.5.
Proof.
  intros Hx.
  unfold Scorer.v5Formula, Scorer.barrier_equation. cbv zeta.
  rewrite clamp01_inside by lra.
  set (t := -2 * 0.85 * (x - 0.5)).
  assert (Ht : - 0.00017 <= t <= 0) by (unfold t; lra).
  pose proof (exp_ineq1_le t) as Hlo.
  assert (Hhi : exp t <= 1).
  { rewrite <- exp_0. destruct (proj2 Ht) as [H | ->];
      [left; apply exp_increasing; exact H | right; reflexivity]. }
  assert (H1 : IZR 5000 / 10000 <= 1 / (1 + exp t)) by (apply logistic_lower; lra).
  assert (H2 : 1 / (1 + exp t) <= 0.50005).
  { apply logistic_upper. lra. }
  assert (H3 : 1 / (1 + exp t) < 0.50005).
  { destruct H2 as [H2 | H2]; [exact H2 |].
    pose proof (exp_pos t). exfalso.
    assert (E : 1 = 0.50005 * (1 + exp t)).
    { rewrite <- H2. unfold Rdiv. rewrite Rmult_1_l, Rinv_l by lra. reflexivity. }
    lra. }
  unfold Scorer.toFixed4, Scorer.toFixed4_ticks.
  replace (Zfloor (1 / (1 + exp t) * 10000 + / 2)) with 5000%Z; [lra |].
  symmetry. apply Zfloor_eq. lra.
Qed.

(** A deepseek record of priority 1 that shares no keyword with the
    query and was last used 77 days ago scores exactly the default
    threshold, and [recall] returns it. *)
Lemma recall_returns_record_at_threshold :
  let m := Sample.record "m1" "persona" "I like python for backend work" in
  V5MetaEngine.recall V5MetaEngine.default_config [m] "weather"
    (Sample.t0 + 77 * Sample.day)%Z
  = [V5MetaEngine.mkScored m 0.5].
Proof.
  intros m.
  assert (Hs : Scorer.calculateRecallScore "weather" m 0.85 0.5
                 (Sample.t0 + 77 * Sample.day)%Z = 0.5).
  { unfold Scorer.calculateRecallScore, Scorer.recall_inputScore. cbv zeta.
    rewrite calculateKeywordSimilarity_disjoint by reflexivity.
    change (lastUsedAt (lifecycle (meta m))) with (Some Sample.t0).
    rewrite decay_after_eleven_half_lives.
    change (recall_priority (dimensions (meta m))) with (Some 1).
    unfold Js.num_or. destruct (Req_dec_T 1 0); [lra |].
    change (String.eqb (platform (meta m)) "deepseek") with true. cbv iota.
    apply v5Formula_near_barrier. lra. }
  unfold V5MetaEngine.recall.
  change (FileSystemStore.query [m] (V5MetaEngine.active_scope V5MetaEngine.default_config))
    with [m].
  cbn [map].
  change (V5MetaEngine.gamma V5MetaEngine.default_config) with 0.85.
  change (V5MetaEngine.barrier V5MetaEngine.default_config) with 0.5.
  rewrite Hs.
  unfold V5MetaEngine.recall_select. cbn [filter V5MetaEngine.recallScore].
  replace (Js.Rleb (V5MetaEngine.recallThreshold V5MetaEngine.default_config) 0.5) with true
    by (symmetry; apply Rleb_true; cbn; lra).
  reflexivity.
Qed.

(** A pinned record with the best score is not recalled. *)
Lemma pinned_record_is_not_recalled :
  let pinned := V5MetaEngine.mkScored (Sample.record "m1" "pinned" "never deploy on friday") 0.99 in
  let persona := V5MetaEngine.mkScored (Sample.record "m2" "persona" "I like python") 0.6 in
  V5MetaEngine.recall_select V5MetaEngine.default_config [pinned; persona] = [persona] /\
  V5MetaEngine.cropMemories V5MetaEngine.default_config [pinned; persona] = [persona].
Proof.
  intros pinned persona. split; [| reflexivity].
  unfold V5MetaEngine.recall_select. cbn [filter V5MetaEngine.recallScore pinned persona].
  replace (Js.Rleb (V5MetaEngine.recallThreshold V5MetaEngine.default_config) 0.99) with true
    by (symmetry; apply Rleb_true; cbn; lra).
  replace (Js.Rleb (V5MetaEngine.recallThreshold V5MetaEngine.default_config) 0.6) with true
    by (symmetry; apply Rleb_true; cbn; lra).
  cbn [V5MetaEngine.sort_desc V5MetaEngine.insert_desc].
  change (V5MetaEngine.recallScore persona) with 0.6.
  change (V5MetaEngine.recallScore pinned) with 0.99.
  replace (Js.Rleb 0.6 0.99) with true by (symmetry; apply Rleb_true; lra).
  reflexivity.
Qed.

End RecallExamples.

(** * Further properties of the code

    The properties below are read off the source of the functions that
    surround the ones above: the store's other operations, the batch
    steps of the engine, the scorer's parameters, the compressor and the
    tiers. *)

(** ** FileSystemStore: documents by id *)

Lemma get_write_file_same (m : V5Memory) (st : FileSystemStore.Store) :
  FileSystemStore.get (FileSystemStore.write_file m st) (mem_id m) = Some m.
Proof.
  unfold FileSystemStore.get.
  induction st as [| r rest IH]; simpl.
  - now rewrite String.eqb_refl.
  - destruct (String.eqb (mem_id r) (mem_id m)) eqn:E; simpl.
    + now rewrite String.eqb_refl.
    + now rewrite E.
Qed.

Lemma get_write_file_other (m : V5Memory) (st : FileSystemStore.Store) (j : string) :
  j <> mem_id m ->
  FileSystemStore.get (FileSystemStore.write_file m st) j = FileSystemStore.get st j.
Proof.
  intros Hj. unfold FileSystemStore.get.
  assert (Hm : String.eqb (mem_id m) j = false)
    by (apply String.eqb_neq; congruence).
  induction st as [| r rest IH]; simpl.
  - now rewrite Hm.
  - destruct (String.eqb (mem_id r) (mem_id m)) eqn:E; simpl.
    + apply String.eqb_eq in E. rewrite E, Hm. reflexivity.
    + destruct (String.eqb (mem_id r) j); [reflexivity | exact IH].
Qed.

(** X1 ([FileSystemStore.add], [get], [update]): a document that was
    added is read back under the id [add] returned, carrying that id;
    every other id reads as before.  [update] writes the document
    whether or not the id existed. *)
Theorem add_then_get :
  forall (st : FileSystemStore.Store) (now : Z) (m : V5Memory),
    let st' := fst (FileSystemStore.add st now m) in
    let i := snd (FileSystemStore.add st now m) in
    FileSystemStore.get st' i = Some (with_meta m (set_id i)) /\
    i = (if Js.truthy (mem_id m) then mem_id m else FileSystemStore.generated_id now) /\
    (forall j, j <> i -> FileSystemStore.get st' j = FileSystemStore.get st j) /\
    FileSystemStore.get (FileSystemStore.update st m) (mem_id m) = Some m /\
    (forall j, j <> mem_id m ->
               FileSystemStore.get (FileSystemStore.update st m) j = FileSystemStore.get st j).
Proof.
  intros st now m st' i. subst st' i. unfold FileSystemStore.add, FileSystemStore.update.
  cbn [fst snd].
  set (i := if Js.truthy (mem_id m) then mem_id m else FileSystemStore.generated_id now).
  assert (Hid : mem_id (with_meta m (set_id i)) = i) by reflexivity.
  split; [| split; [reflexivity | split; [| split]]].
  - rewrite <- Hid at 2. apply get_write_file_same.
  - intros j Hj. apply get_write_file_other. now rewrite Hid.
  - apply get_write_file_same.
  - intros j Hj. now apply get_write_file_other.
Qed.

Lemma write_file_ids (m : V5Memory) (st : FileSystemStore.Store) :
  (In (mem_id m) (map mem_id st) /\
   map mem_id (FileSystemStore.write_file m st) = map mem_id st) \/
  (~ In (mem_id m) (map mem_id st) /\
   map mem_id (FileSystemStore.write_file m st) = (map mem_id st ++ [mem_id m])%list).
Proof.
  induction st as [| r rest IH]; simpl.
  - right. split; [tauto | reflexivity].
  - destruct (String.eqb (mem_id r) (mem_id m)) eqn:E; simpl.
    + apply String.eqb_eq in E. left. split; [now left | now rewrite E].
    + apply String.eqb_neq in E.
      destruct IH as [[Hin Heq] | [Hnin Heq]].
      * left. split; [now right | now rewrite Heq].
      * right. split; [intros [H | H]; [contradiction | contradiction] | now rewrite Heq].
Qed.

Lemma write_file_unique (m : V5Memory) (st : FileSystemStore.Store) :
  Chain.unique_ids st -> Chain.unique_ids (FileSystemStore.write_file m st).
Proof.
  unfold Chain.unique_ids. intros H.
  destruct (write_file_ids m st) as [[_ Heq] | [Hnin Heq]]; rewrite Heq.
  - exact H.
  - apply NoDup_app; [exact H | constructor; [intros [] | constructor] |].
    intros x Hx [Hm | []]. subst x. contradiction.
Qed.

Lemma delete_In (st : FileSystemStore.Store) (i : string) (r : V5Memory) :
  In r (FileSystemStore.delete st i) -> In r st.
Proof.
  induction st as [| x rest IH]; simpl; [tauto |].
  destruct (String.eqb (mem_id x) i); simpl; [now right |].
  intros [H | H]; [now left | right; auto].
Qed.

Lemma delete_unique (st : FileSystemStore.Store) (i : string) :
  Chain.unique_ids st -> Chain.unique_ids (FileSystemStore.delete st i).
Proof.
  unfold Chain.unique_ids.
  induction st as [| x rest IH]; simpl; intros H; [constructor |].
  inversion H as [| ? ? Hnin Hrest]; subst.
  destruct (String.eqb (mem_id x) i); simpl; [exact Hrest |].
  constructor; [| now apply IH].
  intros Hin. apply Hnin. apply in_map_iff in Hin. destruct Hin as [r [Hr Hin]].
  apply in_map_iff. exists r. split; [exact Hr |]. now apply delete_In in Hin.
Qed.

Lemma get_absent (st : FileSystemStore.Store) (i : string) :
  ~ In i (map mem_id st) -> FileSystemStore.get st i = None.
Proof.
  unfold FileSystemStore.get. intros H.
  destruct (find (fun m => String.eqb (mem_id m) i) st) as [r |] eqn:E; [| reflexivity].
  apply find_some in E. destruct E as [Hin Heq]. apply String.eqb_eq in Heq.
  exfalso. apply H. apply in_map_iff. now exists r.
Qed.

Lemma get_delete_same (st : FileSystemStore.Store) (i : string) :
  Chain.unique_ids st -> FileSystemStore.get (FileSystemStore.delete st i) i = None.
Proof.
  unfold Chain.unique_ids.
  induction st as [| x rest IH]; simpl; intros H; [reflexivity |].
  inversion H as [| ? ? Hnin Hrest]; subst.
  destruct (String.eqb (mem_id x) i) eqn:E.
  - apply String.eqb_eq in E. subst i. now apply get_absent.
  - unfold FileSystemStore.get in *. simpl. rewrite E. now apply IH.
Qed.

Lemma get_delete_other (st : FileSystemStore.Store) (i j : string) :
  j <> i -> FileSystemStore.get (FileSystemStore.delete st i) j = FileSystemStore.get st j.
Proof.
  intros Hj. unfold FileSystemStore.get.
  induction st as [| x rest IH]; simpl; [reflexivity |].
  destruct (String.eqb (mem_id x) i) eqn:E; simpl.
  - apply String.eqb_eq in E.
    assert (Hx : String.eqb (mem_id x) j = false) by (apply String.eqb_neq; congruence).
    now rewrite Hx.
  - destruct (String.eqb (mem_id x) j); [reflexivity | exact IH].
Qed.

(** X2 ([FileSystemStore.add], [update], [delete]): a directory holds
    one document per id, and every operation of the store keeps it so;
    in such a store a deleted id reads as absent and every other id
    reads as before. *)
Theorem store_keeps_one_document_per_id :
  forall (st : FileSystemStore.Store) (now : Z) (m : V5Memory) (i : string),
    Chain.unique_ids st ->
    Chain.unique_ids (fst (FileSystemStore.add st now m)) /\
    Chain.unique_ids (FileSystemStore.update st m) /\
    Chain.unique_ids (FileSystemStore.delete st i) /\
    FileSystemStore.get (FileSystemStore.delete st i) i = None /\
    (forall j, j <> i ->
               FileSystemStore.get (FileSystemStore.delete st i) j = FileSystemStore.get st j) /\
    (forall r, In r (FileSystemStore.delete st i) -> In r st /\ mem_id r <> i).
Proof.
  intros st now m i H.
  split; [| split; [| split; [| split; [| split]]]].
  - unfold FileSystemStore.add. cbn [fst]. now apply write_file_unique.
  - now apply write_file_unique.
  - now apply delete_unique.
  - now apply get_delete_same.
  - intros j Hj. now apply get_delete_other.
  - intros r Hr. split; [now apply delete_In in Hr |].
    intros Hid.
    assert (Hg : FileSystemStore.get (FileSystemStore.delete st i) i = None)
      by now apply get_delete_same.
    unfold FileSystemStore.get in Hg.
    apply (find_none _ _ Hg) in Hr. apply String.eqb_neq in Hr. contradiction.
Qed.

Lemma store_keeps_one_document_per_id_witness :
  let st := [Sample.record "m1" "core" "the project uses rocq";
             Sample.record "m2" "persona" "I like python"] in
  Chain.unique_ids (FileSystemStore.delete st "m1") /\
  FileSystemStore.get (FileSystemStore.delete st "m1") "m1" = None /\
  map mem_id (FileSystemStore.delete st "m1") = ["m2"].
Proof.
  assert (U : Chain.unique_ids
                [Sample.record "m1" "core" "the project uses rocq";
                 Sample.record "m2" "persona" "I like python"]).
  { unfold Chain.unique_ids. cbn [map]. constructor.
    - intros [H | []]. discriminate H.
    - constructor; [intros [] | constructor]. }
  destruct (store_keeps_one_document_per_id _ Sample.t0
              (Sample.record "m3" "core" "x") "m1" U) as [_ [_ [H1 [H2 _]]]].
  split; [exact H1 | split; [exact H2 | reflexivity]].
Defined.

(** ** FileSystemStore: similarity of texts *)

Lemma has_In (s : list string) (x : string) : Js.has s x = true <-> In x s.
Proof.
  unfold Js.has. rewrite existsb_exists. split.
  - intros [y [Hy E]]. apply String.eqb_eq in E. now subst.
  - intros H. exists x. split; [exact H | apply String.eqb_refl].
Qed.

Lemma Set_of_NoDup (l : list string) : NoDup (Js.Set_of l).
Proof. apply NoDup_nodup. Qed.

Lemma Set_of_In (l : list string) (x : string) : In x (Js.Set_of l) <-> In x l.
Proof. apply nodup_In. Qed.

Lemma same_members_same_length (l l' : list string) :
  NoDup l -> NoDup l' -> (forall x, In x l <-> In x l') -> List.length l = List.length l'.
Proof.
  intros Hl Hl' H. apply Nat.le_antisymm; apply NoDup_incl_length; try assumption;
    intros x Hx; now apply H.
Qed.

Lemma common_words_symmetric (A B : list string) :
  NoDup A -> NoDup B ->
  List.length (filter (Js.has B) A) = List.length (filter (Js.has A) B).
Proof.
  intros HA HB. apply same_members_same_length.
  - now apply NoDup_filter.
  - now apply NoDup_filter.
  - intros x. rewrite !filter_In, !has_In. tauto.
Qed.

Lemma all_words_symmetric (A B : list string) :
  List.length (Js.Set_of (A ++ B)) = List.length (Js.Set_of (B ++ A)).
Proof.
  apply same_members_same_length; try apply Set_of_NoDup.
  intros x. rewrite !Set_of_In, !in_app_iff. tauto.
Qed.

Lemma lower_char_idempotent (c : ascii) : Js.lower_char (Js.lower_char c) = Js.lower_char c.
Proof. destruct c as [[] [] [] [] [] [] [] []]; reflexivity. Qed.

Lemma toLowerCase_idempotent (s : string) : Js.toLowerCase (Js.toLowerCase s) = Js.toLowerCase s.
Proof.
  induction s as [| c r IH]; simpl; [reflexivity |].
  now rewrite lower_char_idempotent, IH.
Qed.

Lemma tokens_nonempty (s : string) : (0 < List.length (Js.Set_of (Js.split_ws s)))%nat.
Proof.
  destruct (Js.Set_of (Js.split_ws s)) as [| x r] eqn:E; [| simpl; lia].
  exfalso. unfold Js.split_ws in E.
  destruct (Js.split_ws_from false "" s) as [| y r'] eqn:E'.
  - revert E'. generalize false, EmptyString.
    induction s as [| c t IH]; intros inws cur; simpl; [discriminate |].
    destruct (Js.is_space c); [destruct inws; [apply IH | discriminate] | apply IH].
  - assert (Hy : In y (Js.Set_of (y :: r'))) by (apply Set_of_In; now left).
    rewrite E in Hy. destruct Hy.
Qed.

Lemma Zpos_of_nat (d : nat) : (0 < d)%nat -> Zpos (Pos.of_nat d) = Z.of_nat d.
Proof.
  intros Hd. rewrite <- (positive_nat_Z (Pos.of_nat d)). rewrite Nat2Pos.id by lia.
  reflexivity.
Qed.

Lemma Q_of_counts_le_1 (n d : nat) :
  (n <= d)%nat -> (0 < d)%nat -> (0 <= (Z.of_nat n # Pos.of_nat d) <= 1)%Q.
Proof.
  intros Hnd Hd. unfold Qle. cbn [Qnum Qden]. rewrite (Zpos_of_nat d Hd). lia.
Qed.

Lemma Q_of_counts_1 (d : nat) : (0 < d)%nat -> (Z.of_nat d # Pos.of_nat d == 1)%Q.
Proof.
  intros Hd. unfold Qeq. cbn [Qnum Qden]. rewrite (Zpos_of_nat d Hd). lia.
Qed.

Lemma textSimilarity_self (s : string) : (FileSystemStore.textSimilarity s s == 1)%Q.
Proof.
  unfold FileSystemStore.textSimilarity. cbv zeta.
  set (A := Js.Set_of (Js.split_ws (Js.toLowerCase s))).
  assert (HA : NoDup A) by apply Set_of_NoDup.
  assert (H1 : filter (Js.has A) A = A).
  { apply forallb_filter_id. apply forallb_forall. intros x Hx. now apply has_In. }
  assert (H2 : List.length (Js.Set_of (A ++ A)) = List.length A).
  { apply same_members_same_length; [apply Set_of_NoDup | exact HA |].
    intros x. rewrite Set_of_In, in_app_iff. tauto. }
  rewrite H1, H2. apply Q_of_counts_1. apply tokens_nonempty.
Qed.

Lemma textSimilarity_case (s t : string) :
  FileSystemStore.textSimilarity (Js.toLowerCase s) t = FileSystemStore.textSimilarity s t.
Proof. unfold FileSystemStore.textSimilarity. now rewrite toLowerCase_idempotent. Qed.

(** X3 ([FileSystemStore.textSimilarity]): the similarity the store
    computes is symmetric, lies between 0 and 1, does not depend on the
    case of ASCII letters, and is 1 for a text compared with itself. *)
Theorem textSimilarity_laws :
  forall a b : string,
    FileSystemStore.textSimilarity a b = FileSystemStore.textSimilarity b a /\
    (0 <= FileSystemStore.textSimilarity a b <= 1)%Q /\
    FileSystemStore.textSimilarity (Js.toLowerCase a) b = FileSystemStore.textSimilarity a b /\
    (FileSystemStore.textSimilarity a a == 1)%Q /\
    (FileSystemStore.textSimilarity (Js.toLowerCase a) a == 1)%Q.
Proof.
  intros a b.
  split; [| split; [| split; [| split]]].
  - unfold FileSystemStore.textSimilarity. cbv zeta.
    rewrite (common_words_symmetric _ _ (Set_of_NoDup _) (Set_of_NoDup _)).
    now rewrite all_words_symmetric.
  - unfold FileSystemStore.textSimilarity. cbv zeta.
    set (A := Js.Set_of (Js.split_ws (Js.toLowerCase a))).
    set (B := Js.Set_of (Js.split_ws (Js.toLowerCase b))).
    apply Q_of_counts_le_1.
    + transitivity (List.length A).
      * apply NoDup_incl_length; [apply NoDup_filter; apply Set_of_NoDup |].
        intros x Hx. now apply filter_In in Hx.
      * apply NoDup_incl_length; [apply Set_of_NoDup |].
        intros x Hx. apply Set_of_In. apply in_app_iff. now left.
    + apply Nat.lt_le_trans with (List.length A); [apply tokens_nonempty |].
      apply NoDup_incl_length; [apply Set_of_NoDup |].
      intros x Hx. apply Set_of_In. apply in_app_iff. now left.
  - apply textSimilarity_case.
  - apply textSimilarity_self.
  - rewrite textSimilarity_case. apply textSimilarity_self.
Qed.

(** X4 ([FileSystemStore.findSimilar]): the record returned is an
    active record of the same platform and namespace whose similarity
    exceeds 0.8, and the first such in the listing; nothing is returned
    exactly when no active record of the scope exceeds 0.8.  A record
    of the scope whose text is the same up to the case of ASCII letters
    is always detected. *)
Theorem findSimilar_sound_and_complete :
  forall (st : FileSystemStore.Store) (memory : V5Memory),
    (forall e, FileSystemStore.findSimilar st memory = Some e ->
               In e st /\ mem_status e = "active" /\
               platform (meta e) = platform (meta memory) /\
               namespace (meta e) = namespace (meta memory) /\
               (0.8 < FileSystemStore.textSimilarity (mem_text memory) (mem_text e))%Q) /\
    (FileSystemStore.findSimilar st memory = None <->
     forall e, In e (FileSystemStore.query st (FileSystemStore.scope_of memory)) ->
               (FileSystemStore.textSimilarity (mem_text memory) (mem_text e) <= 0.8)%Q) /\
    (forall e, In e (FileSystemStore.query st (FileSystemStore.scope_of memory)) ->
               Js.toLowerCase (mem_text e) = Js.toLowerCase (mem_text memory) ->
               FileSystemStore.findSimilar st memory <> None).
Proof.
  intros st memory.
  assert (Hnone : FileSystemStore.findSimilar st memory = None <->
     forall e, In e (FileSystemStore.query st (FileSystemStore.scope_of memory)) ->
               (FileSystemStore.textSimilarity (mem_text memory) (mem_text e) <= 0.8)%Q).
  { unfold FileSystemStore.findSimilar. split.
    - intros H e He. apply (find_none _ _ H) in He.
      destruct (Qlt_le_dec 0.8 (FileSystemStore.textSimilarity (mem_text memory) (mem_text e)))
        as [Hlt | Hle]; [| exact Hle].
      apply Qltb_true in Hlt. congruence.
    - intros H.
      destruct (find _ _) as [e |] eqn:E; [| reflexivity].
      apply find_some in E. destruct E as [He Hs]. apply Qltb_true in Hs.
      specialize (H e He). exfalso. apply (Qlt_irrefl 0.8%Q).
      eapply Qlt_le_trans; eassumption. }
  split; [| split; [exact Hnone |]].
  - intros e H. unfold FileSystemStore.findSimilar in H.
    apply find_some in H. destruct H as [He Hs].
    apply Qltb_true in Hs. apply query_In in He. destruct He as [He Hm].
    unfold FileSystemStore.matchesFilters, FileSystemStore.scope_of in Hm.
    cbn [FileSystemStore.f_status FileSystemStore.f_platform FileSystemStore.f_namespace
         FileSystemStore.f_type FileSystemStore.key_matches] in Hm.
    rewrite !andb_true_iff in Hm. destruct Hm as [[[H1 H2] H3] _].
    apply String.eqb_eq in H1, H2, H3.
    repeat split; assumption.
  - intros e He Htxt Hn. pose proof (proj1 Hnone Hn e He) as Hle. clear Hn.
    assert (H1 : (FileSystemStore.textSimilarity (mem_text memory) (mem_text e) == 1)%Q).
    { unfold FileSystemStore.textSimilarity. rewrite Htxt.
      fold (FileSystemStore.textSimilarity (mem_text memory) (mem_text memory)).
      apply textSimilarity_self. }
    rewrite H1 in Hle. revert Hle. unfold Qle. cbn. lia.
Qed.

(** ** The engine: what a batch of writes leaves in the store *)









(** ** The engine: its own similarity *)

Lemma union_of_tokens_nonempty (a b : string) :
  Nat.ltb 0
    (List.length
       (Js.Set_of (Js.Set_of (Js.split_ws (Js.toLowerCase a)) ++
                   Js.Set_of (Js.split_ws (Js.toLowerCase b))))) = true.
Proof.
  apply Nat.ltb_lt.
  apply Nat.lt_le_trans with (List.length (Js.Set_of (Js.split_ws (Js.toLowerCase a))));
    [apply tokens_nonempty |].
  apply NoDup_incl_length; [apply Set_of_NoDup |].
  intros x Hx. apply Set_of_In. apply in_app_iff. now left.
Qed.

(** X6 ([V5MetaEngine.textSimilarity], [handleConflict],
    [calculateMatchScore]): the engine's own similarity is [NaN] for
    every pair of non-empty texts and 0 otherwise, so it is never above
    0.8; [handleConflict] therefore changes neither the store nor the
    record and answers [false], even for a text already stored; and the
    match score of every record is [NaN]. *)
Theorem engine_similarity_is_never_a_ratio :
  forall (st : FileSystemStore.Store) (memory : V5Memory) (a b : string) (now : Z),
    V5MetaEngine.textSimilarity a b =
      (if Js.truthy a && Js.truthy b then V5MetaEngine.NaN else V5MetaEngine.Num 0%R) /\
    V5MetaEngine.js_gt (V5MetaEngine.textSimilarity a b) 0.8%R = false /\
    V5MetaEngine.handleConflict st memory = (st, memory, false) /\
    V5MetaEngine.calculateMatchScore a memory now = V5MetaEngine.NaN.
Proof.
  intros st memory a b now.
  assert (H : V5MetaEngine.textSimilarity a b =
              (if Js.truthy a && Js.truthy b then V5MetaEngine.NaN else V5MetaEngine.Num 0%R)).
  { unfold V5MetaEngine.textSimilarity, V5MetaEngine.size_of_array_over. cbv zeta.
    rewrite union_of_tokens_nonempty.
    destruct (Js.truthy a), (Js.truthy b); reflexivity. }
  split; [exact H | split; [| split]].
  - rewrite H. destruct (Js.truthy a && Js.truthy b); cbn; [reflexivity |].
    apply Rltb_false. lra.
  - unfold V5MetaEngine.handleConflict.
    induction (FileSystemStore.query st (FileSystemStore.scope_of memory)) as [| x l IH];
      cbn [V5MetaEngine.handleConflict_from]; [reflexivity |].
    now rewrite engine_textSimilarity_not_above.
  - unfold V5MetaEngine.calculateMatchScore, V5MetaEngine.size_of_array_over. cbv zeta.
    rewrite union_of_tokens_nonempty. reflexivity.
Qed.

(** ** The engine: which records recall keeps *)

Lemma insert_desc_sorted (x : V5MetaEngine.Scored) (l : list V5MetaEngine.Scored) :
  StronglySorted (fun a b => (V5MetaEngine.recallScore b <= V5MetaEngine.recallScore a)%R) l ->
  StronglySorted (fun a b => (V5MetaEngine.recallScore b <= V5MetaEngine.recallScore a)%R)
    (V5MetaEngine.insert_desc x l).
Proof.
  induction l as [| y r IH]; intros H; cbn [V5MetaEngine.insert_desc].
  - constructor; [constructor | constructor].
  - inversion H as [| ? ? Hr Hy]; subst.
    destruct (Js.Rleb (V5MetaEngine.recallScore y) (V5MetaEngine.recallScore x)) eqn:E.
    + apply Rleb_true in E. constructor; [exact H |].
      constructor; [exact E |].
      rewrite Forall_forall in *. intros z Hz. specialize (Hy z Hz). lra.
    + apply Rleb_false in E. constructor; [now apply IH |].
      rewrite Forall_forall in *. intros z Hz.
      apply insert_desc_In in Hz. destruct Hz as [-> | Hz]; [lra | now apply Hy].
Qed.

Lemma sort_desc_sorted (l : list V5MetaEngine.Scored) :
  StronglySorted (fun a b => (V5MetaEngine.recallScore b <= V5MetaEngine.recallScore a)%R)
    (V5MetaEngine.sort_desc l).
Proof.
  induction l as [| x r IH]; cbn [V5MetaEngine.sort_desc]; [constructor |].
  now apply insert_desc_sorted.
Qed.

Lemma filter_sorted {A : Type} (R : A -> A -> Prop) (f : A -> bool) (l : list A) :
  StronglySorted R l -> StronglySorted R (filter f l).
Proof.
  induction 1 as [| a l Hl IH Ha]; cbn [filter]; [constructor |].
  destruct (f a); [| exact IH].
  constructor; [exact IH |].
  rewrite Forall_forall in *. intros x Hx. apply filter_In in Hx. now apply Ha.
Qed.

Lemma sorted_split {A : Type} (R : A -> A -> Prop) (l1 l2 : list A) :
  StronglySorted R (l1 ++ l2) -> forall a b, In a l1 -> In b l2 -> R a b.
Proof.
  induction l1 as [| x r IH]; cbn [app]; intros H a b Ha Hb; [destruct Ha |].
  inversion H as [| ? ? Hr Hx]; subst.
  destruct Ha as [-> | Ha].
  - rewrite Forall_forall in Hx. apply Hx. apply in_app_iff. now right.
  - now apply IH.
Qed.

Lemma insert_desc_length (x : V5MetaEngine.Scored) (l : list V5MetaEngine.Scored) :
  List.length (V5MetaEngine.insert_desc x l) = S (List.length l).
Proof.
  induction l as [| y r IH]; cbn [V5MetaEngine.insert_desc]; [reflexivity |].
  destruct (Js.Rleb _ _); cbn [List.length]; [reflexivity | now rewrite IH].
Qed.

Lemma insert_desc_count (ty : string) (x : V5MetaEngine.Scored) (l : list V5MetaEngine.Scored) :
  count_type ty (V5MetaEngine.insert_desc x l) = count_type ty (x :: l).
Proof.
  unfold count_type.
  induction l as [| y r IH]; cbn [V5MetaEngine.insert_desc]; [reflexivity |].
  destruct (Js.Rleb _ _); [reflexivity |].
  cbn [filter] in *.
  destruct (String.eqb (V5MetaEngine.scored_type y) ty),
           (String.eqb (V5MetaEngine.scored_type x) ty);
    cbn [List.length] in *; rewrite IH; reflexivity.
Qed.

Lemma sort_desc_count (ty : string) (l : list V5MetaEngine.Scored) :
  count_type ty (V5MetaEngine.sort_desc l) = count_type ty l.
Proof.
  induction l as [| x r IH]; cbn [V5MetaEngine.sort_desc]; [reflexivity |].
  rewrite insert_desc_count. unfold count_type in *. cbn [filter].
  destruct (String.eqb (V5MetaEngine.scored_type x) ty); cbn [List.length]; now rewrite IH.
Qed.

(** X8 ([V5MetaEngine.recall], [allocateBudget]): of each budgeted type
    recall keeps the best.  The records of the type that it returns are
    as many as the budget allows among those at or above the threshold,
    and a record of the type that qualifies but is left out scores no
    higher than any record of the type that is returned. *)
Theorem recall_keeps_the_best_of_each_type :
  forall (cfg : V5MetaEngine.Config) (scored : list V5MetaEngine.Scored) (ty : string) (n : nat),
    V5MetaEngine.budget_of (V5MetaEngine.budget cfg) ty = Some n ->
    let qualifying :=
      filter (fun m => Js.Rleb (V5MetaEngine.recallThreshold cfg) (V5MetaEngine.recallScore m))
        scored in
    count_type ty (V5MetaEngine.recall_select cfg scored) = Nat.min n (count_type ty qualifying) /\
    (forall kept left_out,
        In kept (V5MetaEngine.recall_select cfg scored) ->
        V5MetaEngine.scored_type kept = ty ->
        In left_out qualifying ->
        V5MetaEngine.scored_type left_out = ty ->
        ~ In left_out (V5MetaEngine.recall_select cfg scored) ->
        (V5MetaEngine.recallScore left_out <= V5MetaEngine.recallScore kept)%R).
Proof.
  intros cfg scored ty n Hb qualifying.
  unfold V5MetaEngine.recall_select. cbv zeta. fold qualifying.
  set (pool := V5MetaEngine.sort_desc qualifying).
  set (items := filter (fun m => String.eqb (V5MetaEngine.scored_type m) ty) pool).
  assert (Hbucket : V5MetaEngine.bucket pool (V5MetaEngine.budget cfg) ty = firstn n items).
  { unfold V5MetaEngine.bucket. cbv zeta. rewrite Hb. reflexivity. }
  assert (Hsplit : forall m,
             In m (V5MetaEngine.allocateBudget pool (V5MetaEngine.budget cfg)) ->
             V5MetaEngine.scored_type m = ty -> In m (firstn n items)).
  { intros m Hm Hty. rewrite <- Hbucket.
    unfold V5MetaEngine.allocateBudget in Hm.
    rewrite !in_app_iff in Hm.
    destruct Hm as [Hm | [Hm | Hm]];
      pose proof (proj2 (bucket_In _ _ _ _ Hm)) as Hty'; rewrite <- Hty, Hty';
      exact Hm. }
  split.
  - assert (Hcount : count_type ty (V5MetaEngine.allocateBudget pool (V5MetaEngine.budget cfg))
                     = List.length (firstn n items)).
    { unfold V5MetaEngine.allocateBudget. rewrite !count_type_app.
      pose proof (budget_of_some _ _ _ Hb) as [-> | [-> | ->]];
        try rewrite (count_bucket_other pool (V5MetaEngine.budget cfg) _ "persona")
          by discriminate;
        try rewrite (count_bucket_other pool (V5MetaEngine.budget cfg) _ "core")
          by discriminate;
        try rewrite (count_bucket_other pool (V5MetaEngine.budget cfg) _ "episodic")
          by discriminate;
        rewrite Hbucket; unfold count_type;
        (rewrite forallb_filter_id;
         [lia |
          apply forallb_forall; intros x Hx; apply firstn_In in Hx;
          now apply filter_In in Hx]). }
    rewrite Hcount, length_firstn. unfold items.
    fold (count_type ty pool). unfold pool. now rewrite sort_desc_count.
  - intros kept left_out Hk Hkt Hl Hlt Hout.
    apply Hsplit in Hk; [| exact Hkt].
    assert (Hitems : In left_out items).
    { unfold items. apply filter_In. split.
      - unfold pool. now apply sort_desc_In.
      - rewrite Hlt. apply String.eqb_refl. }
    rewrite <- (firstn_skipn n items) in Hitems.
    apply in_app_iff in Hitems. destruct Hitems as [Hin | Hin].
    + exfalso. apply Hout. unfold V5MetaEngine.allocateBudget.
      rewrite <- Hbucket in Hin. rewrite !in_app_iff.
      pose proof (budget_of_some _ _ _ Hb) as [E | [E | E]]; rewrite E in Hin; tauto.
    + assert (Hs : StronglySorted
                     (fun a b => (V5MetaEngine.recallScore b <= V5MetaEngine.recallScore a)%R)
                     (firstn n items ++ skipn n items)).
      { rewrite firstn_skipn. apply filter_sorted. apply sort_desc_sorted. }
      exact (sorted_split _ _ _ Hs kept left_out Hk Hin).
Qed.

Lemma recall_keeps_the_best_of_each_type_witness :
  let a := V5MetaEngine.mkScored (Sample.record "m1" "persona" "I like python") 0.9%R in
  let b := V5MetaEngine.mkScored (Sample.record "m2" "persona" "I like rocq") 0.7%R in
  let c := V5MetaEngine.mkScored (Sample.record "m3" "persona" "I like tea") 0.3%R in
  let cfg :=
    V5MetaEngine.mkConfig 0.85%R 0.5%R 0.5%R 0.6%R "deepseek" "default"
      (V5MetaEngine.mkBudget 1 4 6) 0 true [] in
  count_type "persona" (V5MetaEngine.recall_select cfg [c; b; a]) =
    Nat.min 1
      (count_type "persona"
         (filter (fun m => Js.Rleb 0.5%R (V5MetaEngine.recallScore m)) [c; b; a])).
Proof.
  exact (proj1 (recall_keeps_the_best_of_each_type
                  (V5MetaEngine.mkConfig 0.85%R 0.5%R 0.5%R 0.6%R "deepseek" "default"
                     (V5MetaEngine.mkBudget 1 4 6) 0 true [])
                  [V5MetaEngine.mkScored (Sample.record "m3" "persona" "I like tea") 0.3%R;
                   V5MetaEngine.mkScored (Sample.record "m2" "persona" "I like rocq") 0.7%R;
                   V5MetaEngine.mkScored (Sample.record "m1" "persona" "I like python") 0.9%R]
                  "persona" 1%nat eq_refl)).
Defined.

(** ** The engine: what cropMemories keeps *)

Lemma used_of_increment_same (u : V5MetaEngine.Used) (ty : string) (n : nat) :
  V5MetaEngine.used_of u ty = Some n ->
  V5MetaEngine.used_of (V5MetaEngine.increment u ty) ty = Some (S n).
Proof.
  unfold V5MetaEngine.used_of, V5MetaEngine.increment.
  destruct (String.eqb ty "persona") eqn:E1; [cbn; congruence |].
  destruct (String.eqb ty "core") eqn:E2; [cbn; congruence |].
  destruct (String.eqb ty "episodic") eqn:E3; [cbn; congruence |].
  discriminate.
Qed.

Lemma used_of_increment_other (u : V5MetaEngine.Used) (ty ty' : string) :
  ty' <> ty ->
  V5MetaEngine.used_of (V5MetaEngine.increment u ty) ty' = V5MetaEngine.used_of u ty'.
Proof.
  intros Hne. unfold V5MetaEngine.used_of, V5MetaEngine.increment.
  destruct (String.eqb ty "persona") eqn:E1.
  { apply String.eqb_eq in E1. subst ty.
    destruct (String.eqb ty' "persona") eqn:F; [| reflexivity].
    apply String.eqb_eq in F. contradiction. }
  destruct (String.eqb ty "core") eqn:E2.
  { apply String.eqb_eq in E2. subst ty.
    destruct (String.eqb ty' "persona"); [reflexivity |].
    destruct (String.eqb ty' "core") eqn:F; [| reflexivity].
    apply String.eqb_eq in F. contradiction. }
  destruct (String.eqb ty "episodic") eqn:E3; [| reflexivity].
  apply String.eqb_eq in E3. subst ty.
  destruct (String.eqb ty' "persona"); [reflexivity |].
  destruct (String.eqb ty' "core"); [reflexivity |].
  destruct (String.eqb ty' "episodic") eqn:F; [| reflexivity].
  apply String.eqb_eq in F. contradiction.
Qed.

Lemma cropMemories_from_of_type (b : V5MetaEngine.Budget) (ty : string)
    (l : list V5MetaEngine.Scored) :
  forall (u : V5MetaEngine.Used) (n : nat),
    V5MetaEngine.used_of u ty = Some n ->
    filter (fun m => String.eqb (crop_type m) ty) (V5MetaEngine.cropMemories_from b u l) =
    firstn (V5MetaEngine.budget_or_six b ty - n)
      (filter (fun m => String.eqb (crop_type m) ty) l).
Proof.
  induction l as [| a r IH]; intros u n Hu; cbn [V5MetaEngine.cropMemories_from filter].
  - now rewrite firstn_nil.
  - cbv zeta. fold (crop_type a).
    destruct (String.eqb (crop_type a) ty) eqn:E.
    + apply String.eqb_eq in E. rewrite E, Hu.
      destruct (Nat.ltb n (V5MetaEngine.budget_or_six b ty)) eqn:L.
      * apply Nat.ltb_lt in L. cbn [filter]. rewrite E, String.eqb_refl.
        rewrite (IH _ (S n) (used_of_increment_same u ty n Hu)).
        replace (V5MetaEngine.budget_or_six b ty - n)%nat
          with (S (V5MetaEngine.budget_or_six b ty - S n)) by lia.
        reflexivity.
      * apply Nat.ltb_ge in L. rewrite (IH _ n Hu).
        replace (V5MetaEngine.budget_or_six b ty - n)%nat with 0%nat by lia.
        reflexivity.
    + apply String.eqb_neq in E.
      destruct (V5MetaEngine.used_of u (crop_type a)) as [k |] eqn:K; [| now apply IH].
      destruct (Nat.ltb k (V5MetaEngine.budget_or_six b (crop_type a))); [| now apply IH].
      cbn [filter]. apply String.eqb_neq in E. rewrite E.
      apply IH. rewrite used_of_increment_other; [exact Hu |].
      apply String.eqb_neq in E. congruence.
Qed.

(** X9 ([V5MetaEngine.cropMemories], [allocateBudget]): of each of the
    three budgeted types, a record without a type counting as episodic,
    [cropMemories] keeps the first records of its input in their order,
    as many as the budget of the type, and six when that budget is 0;
    [allocateBudget], given a budget of 0, keeps none. *)
Theorem cropMemories_keeps_the_first_of_each_type :
  forall (cfg : V5MetaEngine.Config) (sortedMemories : list V5MetaEngine.Scored) (ty : string)
         (n : nat),
    V5MetaEngine.budget_of (V5MetaEngine.budget cfg) ty = Some n ->
    filter (fun m => String.eqb (crop_type m) ty)
      (V5MetaEngine.cropMemories cfg sortedMemories) =
    firstn (if Nat.eqb n 0 then 6 else n)
      (filter (fun m => String.eqb (crop_type m) ty) sortedMemories) /\
    (n = 0%nat ->
     count_type ty (V5MetaEngine.allocateBudget sortedMemories (V5MetaEngine.budget cfg))
       = 0%nat).
Proof.
  intros cfg l ty n Hb. split.
  - unfold V5MetaEngine.cropMemories.
    assert (Hu : V5MetaEngine.used_of (V5MetaEngine.mkUsed 0 0 0) ty = Some 0%nat).
    { unfold V5MetaEngine.budget_of in Hb. unfold V5MetaEngine.used_of.
      destruct (String.eqb ty "persona"); [reflexivity |].
      destruct (String.eqb ty "core"); [reflexivity |].
      destruct (String.eqb ty "episodic"); [reflexivity | discriminate]. }
    rewrite (cropMemories_from_of_type _ ty l _ 0%nat Hu).
    unfold V5MetaEngine.budget_or_six. rewrite Hb.
    destruct n as [| k]; cbn [Nat.eqb]; rewrite Nat.sub_0_r; reflexivity.
  - intros ->. pose proof (allocateBudget_count l _ ty 0%nat Hb). lia.
Qed.

Lemma cropMemories_keeps_the_first_of_each_type_witness :
  let a := V5MetaEngine.mkScored (Sample.record "m1" "persona" "I like python") 0.9%R in
  let b := V5MetaEngine.mkScored (Sample.record "m2" "persona" "I like rocq") 0.7%R in
  let cfg :=
    V5MetaEngine.mkConfig 0.85%R 0.5%R 0.5%R 0.6%R "deepseek" "default"
      (V5MetaEngine.mkBudget 0 4 6) 0 true [] in
  filter (fun m => String.eqb (crop_type m) "persona") (V5MetaEngine.cropMemories cfg [a; b])
    = [a; b] /\
  count_type "persona" (V5MetaEngine.allocateBudget [a; b] (V5MetaEngine.budget cfg)) = 0%nat.
Proof.
  destruct (cropMemories_keeps_the_first_of_each_type
              (V5MetaEngine.mkConfig 0.85%R 0.5%R 0.5%R 0.6%R "deepseek" "default"
                 (V5MetaEngine.mkBudget 0 4 6) 0 true [])
              [V5MetaEngine.mkScored (Sample.record "m1" "persona" "I like python") 0.9%R;
               V5MetaEngine.mkScored (Sample.record "m2" "persona" "I like rocq") 0.7%R]
              "persona" 0%nat eq_refl) as [H1 H2].
  split; [exact H1 | exact (H2 eq_refl)].
Defined.

(** ** The engine: the expiry sweep, run again *)

Lemma cleanup_count (now : Z) (all : list V5Memory) :
  forall (st : FileSystemStore.Store) (n : nat),
    snd (fold_left (V5MetaEngine.cleanup_step now) all (st, n)) =
    (n + List.length (filter (fun m => negb (String.eqb (mem_status m) "deleted") &&
                                       match expiresAt (lifecycle (meta m)) with
                                       | Some e => Z.ltb e now
                                       | None => false
                                       end) all))%nat.
Proof.
  induction all as [| x t IH]; intros st n; cbn [fold_left filter].
  - cbn. lia.
  - unfold V5MetaEngine.cleanup_step at 2.
    change (status (lifecycle (meta x))) with (mem_status x).
    destruct (String.eqb (mem_status x) "deleted"); cbn [negb andb]; [apply IH |].
    destruct (expiresAt (lifecycle (meta x))) as [e |]; [| apply IH].
    destruct (Z.ltb e now); [| apply IH].
    rewrite IH. cbn [List.length]. lia.
Qed.

Lemma sweep_frame (cfg : V5MetaEngine.Config) (now : Z) (r : V5Memory) :
  body (sweep cfg now r) = body r /\
  lifecycle (meta (sweep cfg now r)) = lifecycle (meta r) /\
  platform (meta (sweep cfg now r)) = platform (meta r) /\
  namespace (meta (sweep cfg now r)) = namespace (meta r) /\
  relations (meta (sweep cfg now r)) = relations (meta r).
Proof. unfold sweep. destruct (_ && _); repeat split; reflexivity. Qed.

Lemma sweep_idempotent (cfg : V5MetaEngine.Config) (now : Z) (r : V5Memory) :
  sweep cfg now (sweep cfg now r) = sweep cfg now r.
Proof.
  unfold sweep at 2.
  destruct (_ && _) eqn:E; unfold sweep; [| now rewrite E].
  change (FileSystemStore.matchesFilters (V5MetaEngine.assign_meta_status r "expired")
            (V5MetaEngine.engine_scope cfg))
    with (FileSystemStore.matchesFilters r (V5MetaEngine.engine_scope cfg)).
  change (mem_status (V5MetaEngine.assign_meta_status r "expired")) with (mem_status r).
  change (expiresAt (lifecycle (meta (V5MetaEngine.assign_meta_status r "expired"))))
    with (expiresAt (lifecycle (meta r))).
  rewrite E. reflexivity.
Qed.

Lemma query_sweep (cfg : V5MetaEngine.Config) (now : Z) (f : FileSystemStore.Filters)
    (st : FileSystemStore.Store) :
  FileSystemStore.query (map (sweep cfg now) st) f = map (sweep cfg now) (FileSystemStore.query st f).
Proof.
  unfold FileSystemStore.query.
  induction st as [| x t IH]; cbn [map filter]; [reflexivity |].
  assert (E : FileSystemStore.matchesFilters (sweep cfg now x) f =
              FileSystemStore.matchesFilters x f).
  { unfold FileSystemStore.matchesFilters.
    destruct (sweep_frame cfg now x) as (B & L & P & N & _).
    now rewrite B, L, P, N. }
  rewrite E. destruct (FileSystemStore.matchesFilters x f); cbn [map]; now rewrite IH.
Qed.

(** X10 ([V5MetaEngine.cleanup]): the number [cleanup] returns is the
    number of records of the engine's platform and namespace that are
    not deleted and whose [expiresAt] has passed.  The sweep keeps every
    id, body, lifecycle and link, so a second run finds the same
    records, returns the same number and leaves the store as the first
    run left it. *)
Theorem cleanup_counts_the_same_records_again :
  forall (cfg : V5MetaEngine.Config) (now : Z) (st : FileSystemStore.Store),
    Chain.unique_ids st ->
    let due (m : V5Memory) :=
      negb (String.eqb (mem_status m) "deleted") &&
      match expiresAt (lifecycle (meta m)) with
      | Some e => Z.ltb e now
      | None => false
      end in
    let st' := fst (V5MetaEngine.cleanup cfg now st) in
    snd (V5MetaEngine.cleanup cfg now st) =
      List.length (filter due (FileSystemStore.query st (V5MetaEngine.engine_scope cfg))) /\
    map mem_id st' = map mem_id st /\
    map body st' = map body st /\
    map (fun m => lifecycle (meta m)) st' = map (fun m => lifecycle (meta m)) st /\
    map mem_supersedes st' = map mem_supersedes st /\
    snd (V5MetaEngine.cleanup cfg now st') = snd (V5MetaEngine.cleanup cfg now st) /\
    fst (V5MetaEngine.cleanup cfg now st') = st'.
Proof.
  intros cfg now st Hu due st'. subst st'.
  assert (Hcount : forall s, snd (V5MetaEngine.cleanup cfg now s) =
            List.length (filter due (FileSystemStore.query s (V5MetaEngine.engine_scope cfg)))).
  { intros s. unfold V5MetaEngine.cleanup. cbv zeta. rewrite cleanup_count. reflexivity. }
  rewrite (cleanup_is_sweep cfg now st Hu).
  assert (Hids : map mem_id (map (sweep cfg now) st) = map mem_id st).
  { rewrite map_map. apply map_ext. intros r. apply sweep_id. }
  assert (Hu' : Chain.unique_ids (map (sweep cfg now) st)).
  { unfold Chain.unique_ids. now rewrite Hids. }
  split; [apply Hcount | split; [exact Hids | split; [| split; [| split; [| split]]]]].
  - rewrite map_map. apply map_ext. intros r. apply sweep_frame.
  - rewrite map_map. apply map_ext. intros r. apply sweep_frame.
  - rewrite map_map. apply map_ext. intros r. unfold mem_supersedes.
    destruct (sweep_frame cfg now r) as (_ & _ & _ & _ & R). now rewrite R.
  - rewrite !Hcount. rewrite query_sweep.
    induction (FileSystemStore.query st (V5MetaEngine.engine_scope cfg)) as [| x t IH];
      cbn [map filter]; [reflexivity |].
    assert (E : due (sweep cfg now x) = due x).
    { unfold due, mem_status. destruct (sweep_frame cfg now x) as (_ & L & _). now rewrite L. }
    rewrite E. destruct (due x); cbn [List.length]; now rewrite IH.
  - rewrite (cleanup_is_sweep cfg now _ Hu'). rewrite map_map.
    apply map_ext. intros r. apply sweep_idempotent.
Qed.

Lemma cleanup_counts_the_same_records_again_witness :
  let st := [Sample.record "m1" "persona" "I like python for backend work a lot"] in
  let now := (Sample.t0 + 31 * Sample.day)%Z in
  snd (V5MetaEngine.cleanup V5MetaEngine.default_config now st) = 1%nat /\
  snd (V5MetaEngine.cleanup V5MetaEngine.default_config now
         (fst (V5MetaEngine.cleanup V5MetaEngine.default_config now st))) = 1%nat.
Proof.
  assert (U : Chain.unique_ids
                [Sample.record "m1" "persona" "I like python for backend work a lot"]).
  { unfold Chain.unique_ids. cbn [map]. constructor; [intros [] | constructor]. }
  destruct (cleanup_counts_the_same_records_again V5MetaEngine.default_config
              (Sample.t0 + 31 * Sample.day)%Z _ U) as (A & _ & _ & _ & _ & B & _).
  cbv zeta. rewrite B, A. split; reflexivity.
Defined.

(** ** The engine: masking of digits *)

Lemma digit_run_short (n : nat) (s : string) :
  forall run, (run + String.length s < n)%nat -> V5MetaEngine.has_digit_run_from n run s = false.
Proof.
  induction s as [| c r IH]; intros run H; cbn [V5MetaEngine.has_digit_run_from String.length] in *.
  - rewrite orb_false_r. apply Nat.leb_gt. lia.
  - assert (E : Nat.leb n run = false) by (apply Nat.leb_gt; lia). rewrite E. cbn [orb].
    destruct (Js.is_digit c); apply IH; lia.
Qed.

Lemma digit_run_app (n : nat) (c : ascii) (a b : string) :
  Js.is_digit c = false ->
  forall run,
    V5MetaEngine.has_digit_run_from n run (a ++ String c b) =
    V5MetaEngine.has_digit_run_from n run a || V5MetaEngine.has_digit_run_from n 0 b.
Proof.
  intros Hc. induction a as [| x a' IH]; intros run;
    cbn [V5MetaEngine.has_digit_run_from append].
  - rewrite Hc, orb_false_r. reflexivity.
  - destruct (Js.is_digit x); rewrite IH; now rewrite orb_assoc.
Qed.

Lemma digit_run_stars (run : nat) (s : string) :
  V5MetaEngine.has_digit_run_from 4 run ("****" ++ s) =
  Nat.leb 4 run || V5MetaEngine.has_digit_run_from 4 0 s.
Proof.
  change ("****" ++ s) with ("***" ++ String "*"%char s).
  rewrite digit_run_app by reflexivity.
  cbn [V5MetaEngine.has_digit_run_from].
  change (Js.is_digit "*"%char) with false. cbv iota. cbn [Nat.leb orb].
  now rewrite orb_false_r.
Qed.

Lemma digit_run_weaker (n n' : nat) (s : string) :
  (n <= n')%nat ->
  forall run, V5MetaEngine.has_digit_run_from n run s = false ->
              V5MetaEngine.has_digit_run_from n' run s = false.
Proof.
  intros Hn. induction s as [| c r IH]; intros run;
    cbn [V5MetaEngine.has_digit_run_from]; rewrite !orb_false_iff; intros [H1 H2].
  - split; [| reflexivity]. apply Nat.leb_gt in H1. apply Nat.leb_gt. lia.
  - split; [apply Nat.leb_gt in H1; apply Nat.leb_gt; lia |].
    destruct (Js.is_digit c); now apply IH.
Qed.

Lemma flush_digits_masked (run : string) :
  V5MetaEngine.has_digit_run_from 4 0 (V5MetaEngine.flush_digits run) = false.
Proof.
  unfold V5MetaEngine.flush_digits.
  destruct (Nat.leb 4 (String.length run)) eqn:E; [reflexivity |].
  apply Nat.leb_gt in E. apply digit_run_short. lia.
Qed.

Lemma mask_digits_masked (s : string) :
  forall run, V5MetaEngine.has_digit_run_from 4 0 (V5MetaEngine.mask_digits_from run s) = false.
Proof.
  induction s as [| c r IH]; intros run; cbn [V5MetaEngine.mask_digits_from].
  - apply flush_digits_masked.
  - destruct (Js.is_digit c) eqn:E; [apply IH |].
    rewrite (digit_run_app 4 c _ _ E). now rewrite flush_digits_masked, IH.
Qed.

Lemma space_is_no_digit (c : ascii) : Js.is_space c = true -> Js.is_digit c = false.
Proof.
  unfold Js.is_space, Js.is_digit. cbv zeta.
  rewrite orb_true_iff, andb_true_iff, Nat.eqb_eq, !Nat.leb_le. intros H.
  apply andb_false_iff. rewrite !Nat.leb_gt. lia.
Qed.

Lemma mask_keywords_masked (s : string) :
  (forall run, V5MetaEngine.has_digit_run_from 4 run s = false ->
               V5MetaEngine.has_digit_run_from 4 run (V5MetaEngine.mask_keywords_from false s)
               = false) /\
  (forall run, V5MetaEngine.has_digit_run_from 4 run s = false ->
               V5MetaEngine.has_digit_run_from 4 0 (V5MetaEngine.mask_keywords_from true s)
               = false).
Proof.
  induction s as [| c r [IH1 IH2]]; split; intros run H.
  - exact H.
  - reflexivity.
  - cbn [V5MetaEngine.mask_keywords_from].
    cbn [V5MetaEngine.has_digit_run_from] in H. apply orb_false_iff in H. destruct H as [H1 H2].
    destruct (V5MetaEngine.starts_keyword (String c r)).
    + rewrite digit_run_stars, H1. cbn [orb].
      destruct (Js.is_digit c); eapply IH2; exact H2.
    + cbn [V5MetaEngine.has_digit_run_from]. rewrite H1. cbn [orb].
      destruct (Js.is_digit c); now apply IH1.
  - cbn [V5MetaEngine.mask_keywords_from].
    cbn [V5MetaEngine.has_digit_run_from] in H. apply orb_false_iff in H. destruct H as [H1 H2].
    destruct (Js.is_space c) eqn:E.
    + rewrite (space_is_no_digit c E) in H2.
      cbn [V5MetaEngine.has_digit_run_from]. rewrite (space_is_no_digit c E).
      cbn [Nat.leb orb]. now apply IH1.
    + destruct (Js.is_digit c); eapply IH2; exact H2.
Qed.

Lemma maskSensitive_masked (text : string) :
  V5MetaEngine.has_digit_run_from 4 0 (V5MetaEngine.maskSensitive text) = false.
Proof.
  unfold V5MetaEngine.maskSensitive.
  apply (proj1 (mask_keywords_masked _)). apply mask_digits_masked.
Qed.

(** X11 ([V5MetaEngine.maskSensitive], [processSensitive]): a masked
    text contains no run of four or more digits.  Under the default
    configuration, a record that is not yet marked as masked leaves
    [processSensitive] with no run of six or more digits in its text;
    if its text had one, it is marked highly sensitive and masked. *)
Theorem processSensitive_leaves_no_long_digit_run :
  forall memory : V5Memory,
    masked (security (meta memory)) = false ->
    let processed := V5MetaEngine.processSensitive V5MetaEngine.default_config memory in
    (forall text, V5MetaEngine.has_digit_run_from 4 0 (V5MetaEngine.maskSensitive text) = false) /\
    V5MetaEngine.has_digit_run_from 6 0 (mem_text processed) = false /\
    (V5MetaEngine.has_digit_run_from 6 0 (mem_text memory) = true ->
     mem_text processed = V5MetaEngine.maskSensitive (mem_text memory) /\
     sensitivity (security (meta processed)) = "highly_sensitive" /\
     masked (security (meta processed)) = true).
Proof.
  intros memory Hm processed. subst processed.
  split; [exact maskSensitive_masked |].
  unfold V5MetaEngine.processSensitive.
  change (V5MetaEngine.autoMaskSensitive V5MetaEngine.default_config) with true.
  change (V5MetaEngine.sensitivityPatterns V5MetaEngine.default_config)
    with V5MetaEngine.default_sensitivityPatterns.
  cbn [negb]. cbv zeta. rewrite Hm.
  destruct (existsb (fun pattern => pattern (mem_text memory))
              V5MetaEngine.default_sensitivityPatterns) eqn:E.
  - cbn [String.eqb Ascii.eqb Bool.eqb andb negb with_meta with_body meta body security
         set_security set_text mem_text text sensitivity masked].
    split; [| intros _; repeat split].
    apply (digit_run_weaker 4 6); [lia | apply maskSensitive_masked].
  - cbn [String.eqb Ascii.eqb Bool.eqb andb negb with_meta meta body security
         set_security mem_text sensitivity masked].
    assert (H6 : V5MetaEngine.has_digit_run_from 6 0 (mem_text memory) = false).
    { unfold V5MetaEngine.default_sensitivityPatterns in E. cbn [existsb] in E.
      repeat (apply orb_false_iff in E; destruct E as [? E]). assumption. }
    split; [exact H6 | intros H; congruence].
Qed.

Lemma processSensitive_leaves_no_long_digit_run_witness :
  let memory := Sample.record "m1" "episodic" "card 12345678 expires soon" in
  mem_text (V5MetaEngine.processSensitive V5MetaEngine.default_config memory)
    = "card **** expires soon" /\
  V5MetaEngine.has_digit_run_from 6 0
    (mem_text (V5MetaEngine.processSensitive V5MetaEngine.default_config memory)) = false.
Proof.
  destruct (processSensitive_leaves_no_long_digit_run
              (Sample.record "m1" "episodic" "card 12345678 expires soon") eq_refl)
    as (_ & H & _).
  split; [reflexivity | exact H].
Defined.

(** ** Scorer: the range of the activation under the default parameters *)

Section DefaultActivation.

Local Open Scope R_scope.

Lemma exp_minus_0_85_lower : 0.33 <= exp (- 0.85).
Proof.
  replace (- 0.85) with (- 0.425 + - 0.425) by lra.
  rewrite exp_plus.
  pose proof (exp_ineq1_le (- 0.425)) as H.
  assert (H0 : 0.575 <= exp (- 0.425)) by lra.
  apply Rle_trans with (0.575 * 0.575); [lra |].
  apply Rmult_le_compat; lra.
Qed.

Lemma exp_0_85_upper : exp 0.85 <= 3.04.
Proof.
  pose proof exp_minus_0_85_lower as H.
  replace (exp 0.85) with (/ exp (- 0.85)).
  - apply Rle_trans with (/ 0.33); [apply Rinv_le_contravar; lra | lra].
  - rewrite <- exp_Ropp. f_equal. lra.
Qed.

Lemma default_activation_range (input : R) :
  0.24 <= Scorer.v5Formula input 0.85 0.5 <= 0.76.
Proof.
  split.
  - apply Rle_trans with (Scorer.v5Formula 0 0.85 0.5).
    + unfold Scorer.v5Formula.
      replace 0.24 with (IZR 2400 / 10000) by lra.
      rewrite <- (toFixed4_exact 2400). apply toFixed4_monotone.
      unfold Scorer.barrier_equation. cbv zeta. rewrite clamp01_inside by lra.
      replace (-2 * 0.85 * (0 - 0.5)) with 0.85 by lra.
      apply logistic_lower; [lra |]. pose proof exp_0_85_upper. lra.
    + rewrite (v5Formula_clamped 0.85 0.5 input).
      apply v5Formula_monotone; [lra | apply clamp01_range].
  - apply Rle_trans with (Scorer.v5Formula 1 0.85 0.5).
    + rewrite (v5Formula_clamped 0.85 0.5 input).
      apply v5Formula_monotone; [lra | apply clamp01_range].
    + unfold Scorer.v5Formula.
      replace 0.76 with (IZR 7600 / 10000) by lra.
      rewrite <- (toFixed4_exact 7600). apply toFixed4_monotone.
      unfold Scorer.barrier_equation. cbv zeta. rewrite clamp01_inside by lra.
      replace (-2 * 0.85 * (1 - 0.5)) with (- 0.85) by lra.
      apply logistic_upper. pose proof exp_minus_0_85_lower. lra.
Qed.

(** X12 ([v5Formula], [MEMORY_TYPE_THRESHOLDS]): with the default
    parameters, gamma 0.85 and barrier 0.5, the activation of every
    input lies between 0.24 and 0.76.  It is therefore below the
    thresholds of the types persona (0.8) and pinned (1.0), whatever the
    score; and it is the input at or above 0.5 that reaches 0.5. *)
Theorem default_activation_never_reaches_persona_threshold :
  forall input : R,
    0.24 <= Scorer.v5Formula input 0.85 0.5 <= 0.76 /\
    (forall (ty : string) (threshold : R),
        ty = "persona" \/ ty = "pinned" ->
        Scorer.MEMORY_TYPE_THRESHOLDS ty = Some threshold ->
        Scorer.v5Formula input 0.85 0.5 < threshold) /\
    (0.5 <= input -> 0.5 <= Scorer.v5Formula input 0.85 0.5) /\
    (input <= 0.5 -> Scorer.v5Formula input 0.85 0.5 <= 0.5).
Proof.
  intros input. pose proof (default_activation_range input) as H.
  split; [exact H | split; [| split]].
  - intros ty threshold [-> | ->] E; cbn in E; injection E as <-; lra.
  - intros Hi.
    assert (Hb : Scorer.v5Formula 0.5 0.85 0.5 = 0.5) by (apply v5Formula_at_barrier; lra).
    assert (Hm : Scorer.v5Formula 0.5 0.85 0.5 <= Scorer.v5Formula input 0.85 0.5)
      by (apply v5Formula_monotone; lra).
    lra.
  - intros Hi.
    assert (Hb : Scorer.v5Formula 0.5 0.85 0.5 = 0.5) by (apply v5Formula_at_barrier; lra).
    assert (Hm : Scorer.v5Formula input 0.85 0.5 <= Scorer.v5Formula 0.5 0.85 0.5)
      by (apply v5Formula_monotone; lra).
    lra.
Qed.

End DefaultActivation.

(** ** Scorer: feedback on the parameters *)

Section Feedback.

Local Open Scope R_scope.

(** Case analysis on the comparisons inside [Rmin] and [Rmax], the
    innermost first. *)
Ltac split_Rle_dec :=
  repeat match goal with
         | |- context [Rle_dec ?x ?y] =>
             lazymatch x with
             | context [Rle_dec _ _] => fail
             | _ => destruct (Rle_dec x y)
             end
         end.

Lemma adjusted_times_irrelevant (n : nat) (g b : R) :
  0 <= g ->
  Tuning.adjusted_times n (Tuning.mkParams (Some g) (Some b)) (Tuning.mkFeedback true false) =
  match n with
  | O => Tuning.mkAdjusted g b
  | S _ => Tuning.mkAdjusted (Rmin (g * 1.1 ^ n) 1.5) (Rmin (b + 0.05 * INR n) 0.9)
  end.
Proof.
  intros Hg. induction n as [| k IH]; [reflexivity |].
  cbn [Tuning.adjusted_times]. rewrite IH.
  unfold Tuning.adjustV5Params, Tuning.as_params. cbn [Tuning.irrelevant Tuning.p_gamma
    Tuning.p_barrier Tuning.gamma Tuning.barrier Js.num_default].
  destruct k as [| j].
  - cbn [Tuning.gamma Tuning.barrier]. rewrite pow_1. change (INR 1) with 1.
    rewrite Rmult_1_r. reflexivity.
  - cbn [Tuning.gamma Tuning.barrier].
    assert (Hp : 0 <= g * 1.1 ^ S j).
    { apply Rmult_le_pos; [exact Hg |]. apply pow_le. lra. }
    rewrite (S_INR (S j)).
    replace (g * 1.1 ^ S (S j)) with (g * 1.1 ^ S j * 1.1)
      by (rewrite <- (tech_pow_Rmult 1.1 (S j)); lra).
    f_equal; unfold Rmin; split_Rle_dec; lra.
Qed.

(** X13 ([adjustV5Params]): feedback keeps the parameters inside their
    ranges, gamma in [0.5, 1.5] and the barrier in [0.3, 0.9]; the flag
    [irrelevant] never lowers either and has precedence over [useful],
    which never raises either; and [n] rounds of [irrelevant] leave
    gamma at the smaller of 1.1^n times itself and 1.5, and the barrier
    at the smaller of itself plus 0.05 n and 0.9. *)
Theorem adjustV5Params_keeps_the_ranges :
  forall (g b : R) (feedback : Tuning.Feedback),
    0.5 <= g <= 1.5 ->
    0.3 <= b <= 0.9 ->
    let params := Tuning.mkParams (Some g) (Some b) in
    let adjusted := Tuning.adjustV5Params params feedback in
    0.5 <= Tuning.gamma adjusted <= 1.5 /\
    0.3 <= Tuning.barrier adjusted <= 0.9 /\
    (Tuning.irrelevant feedback = true ->
     g <= Tuning.gamma adjusted /\ b <= Tuning.barrier adjusted) /\
    (Tuning.irrelevant feedback = false -> Tuning.useful feedback = true ->
     Tuning.gamma adjusted <= g /\ Tuning.barrier adjusted <= b) /\
    (Tuning.irrelevant feedback = false -> Tuning.useful feedback = false ->
     adjusted = Tuning.mkAdjusted g b) /\
    (forall n : nat,
        Tuning.adjusted_times (S n) params (Tuning.mkFeedback true false) =
        Tuning.mkAdjusted (Rmin (g * 1.1 ^ S n) 1.5) (Rmin (b + 0.05 * INR (S n)) 0.9)).
Proof.
  intros g b [irr use] Hg Hb params adjusted. subst params adjusted.
  unfold Tuning.adjustV5Params.
  cbn [Tuning.irrelevant Tuning.useful Tuning.p_gamma Tuning.p_barrier Js.num_default].
  assert (Hn : forall n : nat,
             Tuning.adjusted_times (S n) (Tuning.mkParams (Some g) (Some b))
               (Tuning.mkFeedback true false) =
             Tuning.mkAdjusted (Rmin (g * 1.1 ^ S n) 1.5) (Rmin (b + 0.05 * INR (S n)) 0.9)).
  { intros n. rewrite adjusted_times_irrelevant by lra. reflexivity. }
  destruct irr; [| destruct use]; cbn [Tuning.gamma Tuning.barrier];
    (split; [| split; [| split; [| split; [| split; [| exact Hn]]]]]);
    try (intros; discriminate); try (intros; reflexivity);
    unfold Rmin, Rmax; split_Rle_dec;
    try lra; intros; lra.
Qed.

Lemma adjustV5Params_keeps_the_ranges_witness :
  let adjusted :=
    Tuning.adjustV5Params (Tuning.mkParams (Some 0.85) (Some 0.5)) (Tuning.mkFeedback true true) in
  0.5 <= Tuning.gamma adjusted <= 1.5 /\ 0.3 <= Tuning.barrier adjusted <= 0.9.
Proof.
  destruct (adjustV5Params_keeps_the_ranges 0.85 0.5 (Tuning.mkFeedback true true))
    as (A & B & _); [lra | lra |].
  split; [exact A | exact B].
Defined.

End Feedback.

(** ** Scorer: time decay and keyword overlap *)

Section DecayAndOverlap.

Local Open Scope R_scope.

Lemma Rpower_half_antitone (x y : R) : x <= y -> Rpower 0.5 y <= Rpower 0.5 x.
Proof.
  intros H. unfold Rpower. pose proof ln_half_negative as Hl.
  destruct H as [H | ->]; [left | right; reflexivity].
  apply exp_increasing. nra.
Qed.

Lemma Rpower_half_negative (x : R) : x < 0 -> 1 < Rpower 0.5 x.
Proof.
  intros H. unfold Rpower. pose proof ln_half_negative as Hl.
  rewrite <- exp_0. apply exp_increasing. nra.
Qed.

(** X14 ([calculateTimeDecay]): with the half-life of seven days that
    every caller uses, the decay of a record last used [n] times seven
    days ago is one half to the power [n].  For any half-life the decay
    never grows as time passes; it is 1 for a record that was never
    used, and above 1 for a record whose last use lies in the future. *)
Theorem calculateTimeDecay_halves_every_half_life :
  forall (last : Z) (n : nat),
    Scorer.calculateTimeDecay (Some last) 7
      (last + Z.of_nat n * (7 * 24 * 60 * 60 * 1000))%Z = (/ 2) ^ n /\
    (forall (halfLife : R) (now1 now2 : Z),
        0 < halfLife -> (now1 <= now2)%Z ->
        Scorer.calculateTimeDecay (Some last) halfLife now2 <=
        Scorer.calculateTimeDecay (Some last) halfLife now1) /\
    (forall (halfLife : R) (now : Z),
        0 < halfLife -> (now < last)%Z ->
        1 < Scorer.calculateTimeDecay (Some last) halfLife now) /\
    (forall (halfLife : R) (now : Z), Scorer.calculateTimeDecay None halfLife now = 1).
Proof.
  intros last n. split; [| split; [| split]].
  - unfold Scorer.calculateTimeDecay, Scorer.ms_per_day.
    replace ((IZR (last + Z.of_nat n * (7 * 24 * 60 * 60 * 1000)) - IZR last) /
             (1000 * 60 * 60 * 24) / 7) with (INR n).
    + rewrite Rpower_pow by lra. f_equal. lra.
    + rewrite plus_IZR, mult_IZR, <- INR_IZR_INZ. rewrite !mult_IZR. field.
  - intros halfLife now1 now2 Hh Hn.
    unfold Scorer.calculateTimeDecay, Scorer.ms_per_day.
    apply Rpower_half_antitone. apply IZR_le in Hn.
    apply Rmult_le_compat_r; [left; now apply Rinv_0_lt_compat |].
    apply Rmult_le_compat_r; [left; apply Rinv_0_lt_compat; lra | lra].
  - intros halfLife now Hh Hn.
    unfold Scorer.calculateTimeDecay, Scorer.ms_per_day.
    apply Rpower_half_negative. apply IZR_lt in Hn.
    assert (H1 : (IZR now - IZR last) / (1000 * 60 * 60 * 24) < 0).
    { apply Rmult_lt_reg_r with (1000 * 60 * 60 * 24); [lra |].
      unfold Rdiv. rewrite Rmult_assoc, Rinv_l by lra. lra. }
    apply Rmult_lt_reg_r with halfLife; [exact Hh |].
    unfold Rdiv at 1. rewrite Rmult_assoc, Rinv_l by lra. lra.
  - reflexivity.
Qed.

Lemma keyword_overlap_symmetric (A B : list string) :
  List.length (Js.Set_of (filter (Js.has B) A)) = List.length (Js.Set_of (filter (Js.has A) B)).
Proof.
  apply same_members_same_length; try apply Set_of_NoDup.
  intros x. rewrite !Set_of_In, !filter_In, !has_In. tauto.
Qed.

(** X15 ([calculateKeywordSimilarity], [normalizeText]): the keyword
    similarity is symmetric in its two texts; a text that has a word is
    at similarity 1 to itself; and a text without a word is at
    similarity 0 to every text, itself included.  A word is what
    [normalizeText] returns: a run of two or more ASCII letters, digits,
    underscores and characters of U+4E00 to U+9FFF, so that a text of
    single characters, or in another script, has none. *)
Theorem calculateKeywordSimilarity_symmetric :
  forall text1 text2 : string,
    Scorer.calculateKeywordSimilarity text1 text2 =
    Scorer.calculateKeywordSimilarity text2 text1 /\
    (Scorer.normalizeText text1 <> [] ->
     Scorer.calculateKeywordSimilarity text1 text1 = 1) /\
    (Scorer.normalizeText text1 = [] ->
     Scorer.calculateKeywordSimilarity text1 text2 = 0 /\
     Scorer.calculateKeywordSimilarity text1 text1 = 0).
Proof.
  intros text1 text2. split; [| split].
  - unfold Scorer.calculateKeywordSimilarity. cbv zeta.
    rewrite (orb_comm (negb (Js.truthy text1))).
    destruct (negb (Js.truthy text2) || negb (Js.truthy text1)); [reflexivity |].
    rewrite (orb_comm (Nat.eqb (List.length (Js.Set_of (Scorer.normalizeText text1))) 0)).
    destruct (_ || _); [reflexivity |].
    rewrite (keyword_overlap_symmetric (Js.Set_of (Scorer.normalizeText text2))).
    rewrite (all_words_symmetric (Js.Set_of (Scorer.normalizeText text1))).
    reflexivity.
  - intros Hne. unfold Scorer.calculateKeywordSimilarity. cbv zeta.
    assert (Ht : Js.truthy text1 = true).
    { destruct text1; [| reflexivity]. exfalso. apply Hne. reflexivity. }
    rewrite Ht. cbn [negb orb].
    set (W := Js.Set_of (Scorer.normalizeText text1)).
    assert (HW : (0 < List.length W)%nat).
    { destruct W eqn:E; [| cbn; lia]. exfalso. now apply Set_of_nonempty in E. }
    destruct (Nat.eqb (List.length W) 0) eqn:E0; [apply Nat.eqb_eq in E0; lia |].
    cbn [orb].
    assert (H1 : filter (Js.has W) W = W).
    { apply forallb_filter_id. apply forallb_forall. intros x Hx. now apply has_In. }
    assert (H2 : List.length (Js.Set_of W) = List.length W) by apply Set_of_idempotent_length.
    assert (H3 : List.length (Js.Set_of (W ++ W)) = List.length W).
    { apply same_members_same_length; [apply Set_of_NoDup | apply Set_of_NoDup |].
      intros x. rewrite Set_of_In, in_app_iff. tauto. }
    rewrite H1, H2, H3. apply Rinv_r. apply not_0_INR. lia.
  - intros He. unfold Scorer.calculateKeywordSimilarity. cbv zeta. rewrite He.
    cbn [Js.Set_of nodup List.length Nat.eqb orb].
    destruct (negb (Js.truthy text1) || negb (Js.truthy text2)),
             (negb (Js.truthy text1) || negb (Js.truthy text1)); split; reflexivity.
Qed.

End DecayAndOverlap.

(** ** MemoryCompressor: what compression spares and what it loses *)

Section Compression.

Local Open Scope R_scope.

Lemma usage_share_nonnegative (memory : V5Memory) :
  (forall u, usageCount memory = Some u -> 0 <= u) ->
  0 <= Rmin (Js.num_or (usageCount memory) 0 / 10) 0.4.
Proof.
  intros H. apply Rmin_glb; [| lra].
  unfold Js.num_or. destruct (usageCount memory) as [u |]; [| lra].
  specialize (H u eq_refl). destruct (Req_dec_T u 0); lra.
Qed.

Lemma important_record_stays (this : MemoryCompressor.t) (memory : V5Memory) (now : Z) :
  0.7 < MemoryCompressor.evaluateImportance memory now ->
  MemoryCompressor.determineCompressionLevel memory now = MemoryCompressor.NONE /\
  MemoryCompressor.compress this memory None now = memory /\
  MemoryCompressor.compress this memory (Some MemoryCompressor.NONE) now = memory.
Proof.
  intros H.
  assert (L : MemoryCompressor.determineCompressionLevel memory now = MemoryCompressor.NONE).
  { unfold MemoryCompressor.determineCompressionLevel. cbv zeta.
    destruct (Rlt_dec 0.7 _); [reflexivity | contradiction]. }
  split; [exact L |].
  split; apply compress_unchanged; unfold MemoryCompressor.returns_argument,
    MemoryCompressor.effective_level, MemoryCompressor.NONE in *; rewrite L;
    apply orb_true_r.
Qed.

Lemma pinned_or_persona_importance (memory : V5Memory) (now : Z) :
  (forall u, usageCount memory = Some u -> 0 <= u) ->
  mem_type memory = "pinned" \/ mem_type memory = "persona" ->
  sensitivity (security (meta memory)) <> "highly_sensitive" ->
  0.8 <= MemoryCompressor.evaluateImportance memory now /\
  (mem_type memory = "pinned" -> MemoryCompressor.evaluateImportance memory now = 1).
Proof.
  intros Hu Hty Hs. unfold MemoryCompressor.evaluateImportance. cbv zeta.
  pose proof (usage_share_nonnegative memory Hu) as H0.
  set (share := Rmin (Js.num_or (usageCount memory) 0 / 10) 0.4) in *.
  set (decay := Rpower 0.5 _).
  assert (Hd : 0 < decay) by (unfold decay, Rpower; apply exp_pos).
  apply String.eqb_neq in Hs. rewrite Hs.
  destruct Hty as [Hty | Hty]; rewrite Hty; cbn [MemoryCompressor.typeWeights String.eqb
    Ascii.eqb Bool.eqb]; rewrite num_or_nonzero by lra.
  - split; [apply Rmin_glb; lra |]. intros _. apply Rmin_right. lra.
  - split; [apply Rmin_glb; lra |]. intros H. discriminate H.
Qed.

(** X16 ([evaluateImportance], [determineCompressionLevel], [compress],
    [compressBatch]): a record whose level is left to its importance is
    never compressed when it is a pinned or a persona record that is
    not highly sensitive, however long it has not been used: its
    importance is 1 when it is pinned and at least 0.8 when it is a
    persona record, clear of the 0.7 at which compression begins (for a
    highly sensitive pinned record the importance comes down to that
    mark itself, where the rounding of the sum decides).
    [compressBatch] returns as many records as it was given, with the
    same ids, and those records unchanged. *)
Theorem importance_spares_pinned_and_persona :
  forall (this : MemoryCompressor.t) (memory : V5Memory) (now : Z),
    (forall u, usageCount memory = Some u -> 0 <= u) ->
    mem_type memory = "pinned" \/ mem_type memory = "persona" ->
    sensitivity (security (meta memory)) <> "highly_sensitive" ->
    0.8 <= MemoryCompressor.evaluateImportance memory now /\
    (mem_type memory = "pinned" -> MemoryCompressor.evaluateImportance memory now = 1) /\
    MemoryCompressor.determineCompressionLevel memory now = MemoryCompressor.NONE /\
    MemoryCompressor.compress this memory None now = memory /\
    MemoryCompressor.compress this memory (Some MemoryCompressor.NONE) now = memory /\
    (forall before after,
        let batch := (before ++ memory :: after)%list in
        List.length (CompressorBatch.compressBatch this batch now) = List.length batch /\
        map mem_id (CompressorBatch.compressBatch this batch now) = map mem_id batch /\
        nth_error (CompressorBatch.compressBatch this batch now) (List.length before)
          = Some memory).
Proof.
  intros this memory now Hu Hty Hs.
  destruct (pinned_or_persona_importance memory now Hu Hty Hs) as [Hi Hp].
  assert (Hi' : 0.7 < MemoryCompressor.evaluateImportance memory now) by lra.
  destruct (important_record_stays this memory now Hi') as (L & C1 & C2).
  split; [exact Hi | split; [exact Hp | split; [exact L | split; [exact C1 | split; [exact C2 |]]]]].
  intros before after batch. subst batch. unfold CompressorBatch.compressBatch.
  split; [apply length_map | split].
  - rewrite map_map. apply map_ext. intros m. apply compress_meta_id.
  - rewrite map_app. cbn [map]. rewrite C1.
    rewrite nth_error_app2 by (rewrite length_map; lia).
    rewrite length_map, Nat.sub_diag. reflexivity.
Qed.

Lemma importance_spares_pinned_and_persona_witness :
  let memory := Sample.record "m1" "pinned" "never deploy on friday" in
  let now := (Sample.t0 + 400 * Sample.day)%Z in
  MemoryCompressor.determineCompressionLevel memory now = MemoryCompressor.NONE /\
  MemoryCompressor.compress Sample.compressor memory None now = memory.
Proof.
  destruct (importance_spares_pinned_and_persona Sample.compressor
              (Sample.record "m1" "pinned" "never deploy on friday")
              (Sample.t0 + 400 * Sample.day)%Z) as (_ & _ & L & C & _).
  - intros u Hu. discriminate Hu.
  - left. reflexivity.
  - discriminate.
  - split; [exact L | exact C].
Defined.

End Compression.

(** ** MemoryCompressor: compressing twice *)

Lemma compress_at_level (this : MemoryCompressor.t) (memory : V5Memory) (k : nat) (now : Z) :
  Js.truthy (mem_text memory) = true ->
  original_text (body (MemoryCompressor.compress this memory (Some (S k)) now)) =
    Some (mem_text memory) /\
  compression_level (body (MemoryCompressor.compress this memory (Some (S k)) now)) =
    Some (S k) /\
  dim_compressed (dimensions (meta (MemoryCompressor.compress this memory (Some (S k)) now))) =
    true.
Proof.
  intros Ht. unfold MemoryCompressor.compress. cbv zeta. rewrite Ht.
  cbn [negb MemoryCompressor.effective_level Nat.eqb MemoryCompressor.NONE].
  repeat split.
Qed.





(** X18 ([compress], [decompress]): compression changes the text, the
    keywords and the compression marks of a record and nothing else: id,
    platform, namespace, tags, links, lifecycle, security, type, raw
    content and usage count are kept, at every level.  [decompress]
    keeps them too, keeps the marks in [meta.dimensions] and
    [body.compression_level] as [compress] set them, and applied twice
    gives what it gives applied once. *)
Theorem compress_keeps_identity :
  forall (this : MemoryCompressor.t) (memory : V5Memory) (level : option nat) (now : Z),
    let c := MemoryCompressor.compress this memory level now in
    let d := MemoryCompressor.decompress c in
    (mem_id c = mem_id memory /\ platform (meta c) = platform (meta memory) /\
     namespace (meta c) = namespace (meta memory) /\ tags (meta c) = tags (meta memory) /\
     relations (meta c) = relations (meta memory) /\
     lifecycle (meta c) = lifecycle (meta memory) /\
     security (meta c) = security (meta memory) /\
     storage_tier (meta c) = storage_tier (meta memory) /\
     mem_type c = mem_type memory /\ raw_content (body c) = raw_content (body memory) /\
     usageCount c = usageCount memory) /\
    (meta d = meta c /\ mem_type d = mem_type c /\
     original_text (body d) = original_text (body c) /\
     compression_level (body d) = compression_level (body c) /\
     keywords (body d) = keywords (body c)) /\
    MemoryCompressor.decompress d = d.
Proof.
  intros this memory level now c d.
  split; [| split].
  - subst c. unfold MemoryCompressor.compress. cbv zeta.
    destruct (negb (Js.truthy (mem_text memory))); [repeat split |].
    destruct (Nat.eqb _ _); repeat split.
  - subst d. unfold MemoryCompressor.decompress.
    destruct (original_text (body c)) as [[| ch r] |] eqn:E; repeat split;
      try reflexivity; exact E.
  - subst d. unfold MemoryCompressor.decompress at 2.
    destruct (original_text (body c)) as [[| ch r] |] eqn:E.
    + unfold MemoryCompressor.decompress. now rewrite E.
    + unfold MemoryCompressor.decompress.
      cbn [body original_text]. rewrite E. reflexivity.
    + unfold MemoryCompressor.decompress. now rewrite E.
Qed.

(** ** HierarchicalStorage: the cache *)

Lemma cache_get_set_other (h : list (string * V5Memory)) (i j : string) (m : V5Memory) :
  j <> i ->
  HierarchicalStorage.cache_get (HierarchicalStorage.cache_set h i m) j =
  HierarchicalStorage.cache_get h j.
Proof.
  intros Hj. induction h as [| [k v] r IH]; cbn.
  - destruct (String.eqb i j) eqn:E; [apply String.eqb_eq in E; congruence | reflexivity].
  - destruct (String.eqb k i) eqn:E; cbn.
    + apply String.eqb_eq in E. subst k.
      destruct (String.eqb i j) eqn:F; [apply String.eqb_eq in F; congruence | reflexivity].
    + destruct (String.eqb k j); [reflexivity | exact IH].
Qed.

Lemma cache_has_set (h : list (string * V5Memory)) (i : string) (m : V5Memory) :
  HierarchicalStorage.cache_has (HierarchicalStorage.cache_set h i m) i = true.
Proof. unfold HierarchicalStorage.cache_has. now rewrite cache_get_set. Qed.

Lemma cache_get_In (h : list (string * V5Memory)) (i : string) (m : V5Memory) :
  HierarchicalStorage.cache_get h i = Some m -> In (i, m) h.
Proof.
  induction h as [| [k v] r IH]; cbn; [discriminate |].
  destruct (String.eqb k i) eqn:E.
  - apply String.eqb_eq in E. intros H. injection H as <-. subst k. now left.
  - intros H. right. now apply IH.
Qed.

Lemma cache_get_absent (h : list (string * V5Memory)) (i : string) :
  ~ In i (map fst h) -> HierarchicalStorage.cache_get h i = None.
Proof.
  intros H. destruct (HierarchicalStorage.cache_get h i) as [m |] eqn:E; [| reflexivity].
  exfalso. apply H. apply cache_get_In in E. apply in_map_iff. now exists (i, m).
Qed.

Lemma cache_delete_In (h : list (string * V5Memory)) (i : string) (e : string * V5Memory) :
  In e (HierarchicalStorage.cache_delete h i) -> In e h.
Proof.
  induction h as [| [k v] r IH]; cbn; [tauto |].
  destruct (String.eqb k i); cbn; [now right |].
  intros [H | H]; [now left | right; auto].
Qed.

Lemma cache_delete_by_id (h : list (string * V5Memory)) (i : string) :
  TierMaintenance.cache_by_id h ->
  TierMaintenance.cache_by_id (HierarchicalStorage.cache_delete h i) /\
  HierarchicalStorage.cache_get (HierarchicalStorage.cache_delete h i) i = None /\
  (forall v, In v (HierarchicalStorage.cache_values (HierarchicalStorage.cache_delete h i)) ->
             mem_id v <> i).
Proof.
  unfold TierMaintenance.cache_by_id.
  induction h as [| [k v] r IH]; cbn [HierarchicalStorage.cache_delete map fst];
    intros [Hnd Hid].
  - split; [split; [constructor | intros k v []] | split; [reflexivity | intros v []]].
  - inversion Hnd as [| ? ? Hnin Hr]; subst.
    assert (Hid' : forall k0 v0, In (k0, v0) r -> mem_id v0 = k0)
      by (intros k0 v0 H0; apply Hid; now right).
    destruct (IH (conj Hr Hid')) as ((Hnd' & Hid'') & Hget & Hval).
    destruct (String.eqb k i) eqn:E.
    + apply String.eqb_eq in E. subst k.
      split; [split; assumption | split; [now apply cache_get_absent |]].
      intros v0 Hv. unfold HierarchicalStorage.cache_values in Hv.
      apply in_map_iff in Hv. destruct Hv as ([k1 v1] & <- & Hin). cbn [snd].
      rewrite (Hid' k1 v1 Hin). intros ->. apply Hnin.
      apply in_map_iff. now exists (i, v1).
    + split; [split |]; [| | split].
      * cbn [map fst]. constructor; [| exact Hnd'].
        intros Hin. apply Hnin. apply in_map_iff in Hin. destruct Hin as (e & He & Hin).
        apply in_map_iff. exists e. split; [exact He | now apply cache_delete_In in Hin].
      * intros k0 v0 [H0 | H0]; [apply Hid; now left | now apply Hid''].
      * cbn [HierarchicalStorage.cache_get]. now rewrite E.
      * intros v0 Hv. unfold HierarchicalStorage.cache_values in Hv. cbn [map snd] in Hv.
        destruct Hv as [<- | Hv]; [| now apply Hval].
        rewrite (Hid k v (or_introl eq_refl)). now apply String.eqb_neq.
Qed.

Lemma cache_set_by_id (h : list (string * V5Memory)) (m : V5Memory) :
  TierMaintenance.cache_by_id h ->
  TierMaintenance.cache_by_id (HierarchicalStorage.cache_set h (mem_id m) m).
Proof.
  unfold TierMaintenance.cache_by_id.
  induction h as [| [k v] r IH]; cbn [HierarchicalStorage.cache_set map fst];
    intros [Hnd Hid].
  - split; [constructor; [intros [] | constructor] |].
    intros k v [H | []]. now injection H as <- <-.
  - inversion Hnd as [| ? ? Hnin Hr]; subst.
    assert (Hid' : forall k0 v0, In (k0, v0) r -> mem_id v0 = k0)
      by (intros k0 v0 H0; apply Hid; now right).
    destruct (String.eqb k (mem_id m)) eqn:E.
    + apply String.eqb_eq in E. split; [exact Hnd |].
      intros k0 v0 [H0 | H0]; [injection H0 as <- <-; now symmetry | now apply Hid'].
    + destruct (IH (conj Hr Hid')) as (Hnd' & Hid'').
      split.
      * cbn [map fst]. constructor; [| exact Hnd'].
        intros Hin. apply in_map_iff in Hin. destruct Hin as ([k1 v1] & Hk & Hin).
        cbn [fst] in Hk. subst k1.
        destruct (string_dec k (mem_id m)) as [-> | Hne];
          [rewrite String.eqb_refl in E; discriminate |].
        assert (Hg : HierarchicalStorage.cache_get
                       (HierarchicalStorage.cache_set r (mem_id m) m) k =
                     HierarchicalStorage.cache_get r k)
          by now apply cache_get_set_other.
        destruct (HierarchicalStorage.cache_get r k) as [v2 |] eqn:G.
        -- apply Hnin. apply cache_get_In in G. apply in_map_iff. now exists (k, v2).
        -- assert (Hk : In k (map fst (HierarchicalStorage.cache_set r (mem_id m) m)))
             by (apply in_map_iff; now exists (k, v1)).
           clear - Hg Hk. revert Hg Hk.
           generalize (HierarchicalStorage.cache_set r (mem_id m) m). intros l Hg Hk.
           induction l as [| [a b] l IHl]; cbn in *; [contradiction |].
           destruct (String.eqb a k) eqn:F; [discriminate |].
           destruct Hk as [-> | Hk]; [rewrite String.eqb_refl in F; discriminate | auto].
      * intros k0 v0 [H0 | H0]; [apply Hid; now left | now apply Hid''].
Qed.

(** ** HierarchicalStorage: storing, and reading what is cached *)

Lemma compress_lifecycle (this : MemoryCompressor.t) (memory : V5Memory)
    (level : option nat) (now : Z) :
  lifecycle (meta (MemoryCompressor.compress this memory level now)) = lifecycle (meta memory).
Proof.
  unfold MemoryCompressor.compress. cbv zeta.
  destruct (negb (Js.truthy (mem_text memory))); [reflexivity |].
  destruct (Nat.eqb _ _); reflexivity.
Qed.

Lemma determineTier_cases (this : HierarchicalStorage.t) (memory : V5Memory) (now : Z) :
  HierarchicalStorage.determineTier this memory now = "hot" \/
  HierarchicalStorage.determineTier this memory now = "warm" \/
  HierarchicalStorage.determineTier this memory now = "cold".
Proof.
  unfold HierarchicalStorage.determineTier. cbv zeta.
  destruct (Z.ltb _ _); [now left |]. destruct (Z.ltb _ _); [right; now left | right; now right].
Qed.

(** What [storeToTier] hands back, for a record that has an id. *)
Lemma storeToTier_stored (this : HierarchicalStorage.t) (m : V5Memory) (tier : string) (now : Z) :
  Js.truthy (mem_id m) = true ->
  let r := HierarchicalStorage.storeToTier this m tier now in
  let stored := snd (fst r) in
  mem_id stored = mem_id m /\
  storage_tier (meta stored) = Some tier /\
  lifecycle (meta stored) = lifecycle (meta m) /\
  HierarchicalStorage.tierConfig (fst (fst r)) = HierarchicalStorage.tierConfig this /\
  HierarchicalStorage.autoCompress (fst (fst r)) = HierarchicalStorage.autoCompress this /\
  HierarchicalStorage.compressor (fst (fst r)) = HierarchicalStorage.compressor this /\
  (HierarchicalStorage.autoCompress this = true ->
   Js.truthy (mem_text m) = true ->
   compression_level (body stored) = Some (HierarchicalStorage.getCompressionLevel tier) /\
   original_text (body stored) = Some (mem_text m)).
Proof.
  intros Hid r stored. subst stored r. unfold HierarchicalStorage.storeToTier.
  set (pr := if HierarchicalStorage.autoCompress this
             then (MemoryCompressor.compress (HierarchicalStorage.compressor this) m
                     (Some (HierarchicalStorage.getCompressionLevel tier)) now,
                   MemoryCompressor.returns_argument m
                     (Some (HierarchicalStorage.getCompressionLevel tier)) now)
             else (m, true)).
  assert (Hp : mem_id (fst pr) = mem_id m /\
               lifecycle (meta (fst pr)) = lifecycle (meta m) /\
               (HierarchicalStorage.autoCompress this = true ->
                Js.truthy (mem_text m) = true ->
                compression_level (body (fst pr)) =
                  Some (HierarchicalStorage.getCompressionLevel tier) /\
                original_text (body (fst pr)) = Some (mem_text m))).
  { subst pr. destruct (HierarchicalStorage.autoCompress this); cbn [fst].
    - split; [apply compress_meta_id | split; [apply compress_lifecycle |]].
      intros _ Ht.
      assert (Hl : exists k, HierarchicalStorage.getCompressionLevel tier = S k).
      { unfold HierarchicalStorage.getCompressionLevel. cbv zeta.
        destruct (String.eqb tier "hot"); [now exists 1%nat |].
        destruct (String.eqb tier "warm"); [now exists 1%nat |].
        destruct (String.eqb tier "cold"); [now exists 3%nat | now exists 1%nat]. }
      destruct Hl as [k Hk]. rewrite Hk.
      destruct (compress_at_level (HierarchicalStorage.compressor this) m k now Ht)
        as (A & B & _).
      split; assumption.
    - split; [reflexivity | split; [reflexivity | intros H; discriminate H]]. }
  destruct pr as [processed same]. cbn [fst] in Hp. destruct Hp as (Hpid & Hpl & Hpc).
  assert (Hadd : forall s,
             FileSystemStore.add s now (with_meta processed (set_tier tier now)) =
             (FileSystemStore.write_file (with_meta processed (set_tier tier now)) s,
              mem_id m)).
  { intros s. rewrite add_with_id; [now rewrite <- Hpid | cbn; fold (mem_id processed)].
    now rewrite Hpid. }
  destruct (String.eqb tier "hot"); [| destruct (String.eqb tier "warm")];
    rewrite ?Hadd; cbn [fst snd];
    (split; [first [exact Hpid | reflexivity] |
      split; [reflexivity |
       split; [exact Hpl |
        split; [reflexivity | split; [reflexivity | split; [reflexivity | exact Hpc]]]]]]).
Qed.

Lemma storeToTier_hot (this : HierarchicalStorage.t) (m : V5Memory) (now : Z) :
  exists p same,
    HierarchicalStorage.storeToTier this m "hot" now =
      (HierarchicalStorage.with_hotCache this
         (HierarchicalStorage.cache_set (HierarchicalStorage.hotCache this) (mem_id m) p),
       p, same) /\
    mem_id p = mem_id m /\
    storage_tier (meta p) = Some "hot" /\
    lifecycle (meta p) = lifecycle (meta m).
Proof.
  unfold HierarchicalStorage.storeToTier.
  destruct (HierarchicalStorage.autoCompress this).
  - change (String.eqb "hot" "hot") with true. cbv iota beta.
    eexists. eexists. split; [| split; [| split]].
    + cbn [mem_id with_meta meta id set_tier]. fold (mem_id (MemoryCompressor.compress
        (HierarchicalStorage.compressor this) m
        (Some (HierarchicalStorage.getCompressionLevel "hot")) now)).
      rewrite compress_meta_id. reflexivity.
    + cbn [mem_id with_meta meta id set_tier]. apply compress_meta_id.
    + reflexivity.
    + cbn [with_meta meta lifecycle set_tier]. apply compress_lifecycle.
  - change (String.eqb "hot" "hot") with true. cbv iota beta.
    eexists. eexists. split; [reflexivity | repeat split].
Qed.

Lemma get_cached_promotes (this : HierarchicalStorage.t) (i : string) (now : Z)
    (m : V5Memory) (t : string) :
  HierarchicalStorage.cache_get (HierarchicalStorage.hotCache this) i = Some m ->
  mem_id m = i ->
  storage_tier (meta m) = Some t -> Js.truthy t = true ->
  (0 < HierarchicalStorage.HOT_maxAge (HierarchicalStorage.tierConfig this))%Z ->
  snd (HierarchicalStorage.get this i now) = true /\
  exists m',
    HierarchicalStorage.cache_get
      (HierarchicalStorage.hotCache (fst (HierarchicalStorage.get this i now))) i = Some m' /\
    storage_tier (meta m') = Some "hot" /\
    lastUsedAt (lifecycle (meta m')) = Some now /\
    mem_id m' = i.
Proof.
  intros Hget Hid Ht Htt Hhot.
  unfold HierarchicalStorage.get, HierarchicalStorage.cache_has. rewrite Hget.
  cbn [fst snd]. split; [reflexivity |].
  unfold HierarchicalStorage.touch. rewrite Hget.
  set (mem := with_meta m (fun x => set_lifecycle (set_lastUsedAt now (lifecycle x)) x)).
  set (this1 := HierarchicalStorage.with_hotCache this
                  (HierarchicalStorage.cache_set (HierarchicalStorage.hotCache this) i mem)).
  assert (Hmid : mem_id mem = i) by exact Hid.
  assert (Hnew : HierarchicalStorage.determineTier this1 mem now = "hot").
  { unfold HierarchicalStorage.determineTier. cbv zeta.
    cbn [mem with_meta meta lifecycle set_lifecycle set_lastUsedAt lastUsedAt
         this1 HierarchicalStorage.with_hotCache HierarchicalStorage.tierConfig].
    rewrite Z.sub_diag. apply Z.ltb_lt in Hhot. now rewrite Hhot. }
  rewrite Hnew.
  change (storage_tier (meta mem)) with (storage_tier (meta m)). rewrite Ht.
  destruct (String.eqb "hot" t) eqn:E; cbn [negb].
  - apply String.eqb_eq in E. subst t. exists mem.
    cbn [this1 HierarchicalStorage.with_hotCache HierarchicalStorage.hotCache].
    rewrite cache_get_set. repeat split; assumption.
  - unfold HierarchicalStorage.migrateToTier.
    cbn [this1 HierarchicalStorage.with_hotCache HierarchicalStorage.hotCache].
    rewrite cache_get_set.
    change (storage_tier (meta mem)) with (storage_tier (meta m)). rewrite Ht.
    unfold Js.or_else. rewrite Htt.
    rewrite String.eqb_sym in E. rewrite E.
    match goal with
    | |- context [HierarchicalStorage.storeToTier ?x mem "hot" now] => set (this2 := x)
    end.
    assert (Hc : HierarchicalStorage.hotCache this2 =
                 HierarchicalStorage.cache_set (HierarchicalStorage.hotCache this) i mem).
    { subst this2. destruct (String.eqb t "warm"); reflexivity. }
    destruct (storeToTier_hot this2 mem now) as (p & same & Hst & Hp1 & Hp2 & Hp3).
    rewrite Hst. rewrite Hmid.
    exists p.
    assert (Hlast : lastUsedAt (lifecycle (meta p)) = Some now) by (rewrite Hp3; reflexivity).
    assert (Hpid : mem_id p = i) by congruence.
    destruct same; cbn [HierarchicalStorage.with_hotCache HierarchicalStorage.hotCache].
    + unfold HierarchicalStorage.cache_mutate. rewrite cache_has_set, cache_get_set.
      repeat split; assumption.
    + rewrite cache_get_set. repeat split; assumption.
Qed.

Lemma add_cached (this : HierarchicalStorage.t) (memory : V5Memory) (now : Z) :
  Js.truthy (mem_id memory) = true ->
  let tier := HierarchicalStorage.determineTier this memory now in
  let added := fst (HierarchicalStorage.add this memory now) in
  let stored := snd (HierarchicalStorage.add this memory now) in
  HierarchicalStorage.cache_get (HierarchicalStorage.hotCache added) (mem_id memory)
    = Some stored /\
  mem_id stored = mem_id memory /\
  storage_tier (meta stored) = Some tier /\
  HierarchicalStorage.tierConfig added = HierarchicalStorage.tierConfig this /\
  (HierarchicalStorage.autoCompress this = true ->
   Js.truthy (mem_text memory) = true ->
   compression_level (body stored) = Some (HierarchicalStorage.getCompressionLevel tier) /\
   original_text (body stored) = Some (mem_text memory)).
Proof.
  intros Hid tier added stored. subst added stored. unfold HierarchicalStorage.add.
  fold tier. cbv zeta.
  pose proof (storeToTier_stored this memory tier now Hid) as H. cbv zeta in H.
  destruct (HierarchicalStorage.storeToTier this memory tier now) as [[this1 stored] same].
  cbn [fst snd] in *. destruct H as (A & B & _ & D & _ & _ & G).
  cbn [HierarchicalStorage.hotCache HierarchicalStorage.with_hotCache
       HierarchicalStorage.tierConfig].
  rewrite A, cache_get_set. repeat split; try assumption; now apply G.
Qed.

(** X19 ([HierarchicalStorage.add], [storeToTier],
    [getCompressionLevel]): with compression on, a record that is added
    is stored compressed in every tier, the hot tier included: the level
    is MEDIUM for the hot and the warm tier and SUMMARY for the cold
    tier, never NONE.  The stored record carries its tier and the text
    it came with as [original_text], and it is cached under its id. *)
Theorem add_compresses_in_every_tier :
  forall (this : HierarchicalStorage.t) (memory : V5Memory) (now : Z),
    HierarchicalStorage.autoCompress this = true ->
    Js.truthy (mem_text memory) = true ->
    Js.truthy (mem_id memory) = true ->
    let tier := HierarchicalStorage.determineTier this memory now in
    let stored := snd (HierarchicalStorage.add this memory now) in
    (tier = "hot" \/ tier = "warm" \/ tier = "cold") /\
    storage_tier (meta stored) = Some tier /\
    compression_level (body stored) = Some (HierarchicalStorage.getCompressionLevel tier) /\
    (tier = "hot" -> compression_level (body stored) = Some MemoryCompressor.MEDIUM) /\
    (tier = "warm" -> compression_level (body stored) = Some MemoryCompressor.MEDIUM) /\
    (tier = "cold" -> compression_level (body stored) = Some MemoryCompressor.SUMMARY) /\
    original_text (body stored) = Some (mem_text memory) /\
    mem_text (MemoryCompressor.decompress stored) = mem_text memory /\
    HierarchicalStorage.cache_get
      (HierarchicalStorage.hotCache (fst (HierarchicalStorage.add this memory now)))
      (mem_id memory) = Some stored.
Proof.
  intros this memory now Hauto Ht Hid tier stored.
  destruct (add_cached this memory now Hid) as (A & B & C & D & E).
  destruct (E Hauto Ht) as (E1 & E2). fold tier in C, E1. fold stored in A, B, C, E1, E2.
  split; [apply determineTier_cases | split; [exact C | split; [exact E1 |]]].
  split; [intros H; rewrite E1, H; reflexivity |].
  split; [intros H; rewrite E1, H; reflexivity |].
  split; [intros H; rewrite E1, H; reflexivity |].
  split; [exact E2 | split; [| exact A]].
  now apply decompress_restores.
Qed.

Lemma add_compresses_in_every_tier_witness :
  let memory := Sample.record "m1" "core" "the project uses rocq for proofs" in
  let stored :=
    snd (HierarchicalStorage.add (HierarchicalStorage.new Sample.compressor) memory Sample.t0) in
  storage_tier (meta stored) = Some "hot" /\
  compression_level (body stored) = Some MemoryCompressor.MEDIUM /\
  original_text (body stored) = Some "the project uses rocq for proofs".
Proof.
  destruct (add_compresses_in_every_tier (HierarchicalStorage.new Sample.compressor)
              (Sample.record "m1" "core" "the project uses rocq for proofs") Sample.t0
              eq_refl eq_refl eq_refl) as (_ & A & _ & B & _ & _ & C & _).
  split; [exact A | split; [apply B; reflexivity | exact C]].
Defined.

(** X20 ([HierarchicalStorage.add], [get], [touch], [migrateToTier]): a
    record that was added is found by [get], whatever tier its age put
    it in, and [get] leaves it in the cache as a record of the hot tier
    whose last use is the time of the call. *)
Theorem get_after_add_is_hot :
  forall (this : HierarchicalStorage.t) (memory : V5Memory) (now later : Z),
    Js.truthy (mem_id memory) = true ->
    (0 < HierarchicalStorage.HOT_maxAge (HierarchicalStorage.tierConfig this))%Z ->
    let added := fst (HierarchicalStorage.add this memory now) in
    snd (HierarchicalStorage.get added (mem_id memory) later) = true /\
    exists m',
      HierarchicalStorage.cache_get
        (HierarchicalStorage.hotCache
           (fst (HierarchicalStorage.get added (mem_id memory) later)))
        (mem_id memory) = Some m' /\
      storage_tier (meta m') = Some "hot" /\
      lastUsedAt (lifecycle (meta m')) = Some later /\
      mem_id m' = mem_id memory.
Proof.
  intros this memory now later Hid Hhot added.
  destruct (add_cached this memory now Hid) as (A & B & C & D & _).
  fold added in A, D.
  apply (get_cached_promotes added (mem_id memory) later _ _ A B C).
  - destruct (determineTier_cases this memory now) as [-> | [-> | ->]]; reflexivity.
  - now rewrite D.
Qed.

Lemma get_after_add_is_hot_witness :
  let memory :=
    Sample.record_at (Sample.t0 - 40 * Sample.day)%Z "m9" "core"
      "the project uses rocq for proofs" in
  let added :=
    fst (HierarchicalStorage.add (HierarchicalStorage.new Sample.compressor) memory Sample.t0) in
  snd (HierarchicalStorage.get added "m9" Sample.t0) = true /\
  map (fun m => storage_tier (meta m)) (HierarchicalStorage.coldStore added) = [Some "cold"].
Proof.
  destruct (get_after_add_is_hot (HierarchicalStorage.new Sample.compressor)
              (Sample.record_at (Sample.t0 - 40 * Sample.day)%Z "m9" "core"
                 "the project uses rocq for proofs") Sample.t0 Sample.t0 eq_refl eq_refl)
    as (A & _).
  split; [exact A | lazy; reflexivity].
Defined.

(** ** HierarchicalStorage: demotion, start-up and removal *)

(** What [storeToTier] does to the storage when the tier is a store. *)
Lemma storeToTier_lower (this : HierarchicalStorage.t) (m : V5Memory) (tier : string) (now : Z) :
  Js.truthy (mem_id m) = true ->
  tier = "warm" \/ tier = "cold" ->
  let r := HierarchicalStorage.storeToTier this m tier now in
  HierarchicalStorage.hotCache (fst (fst r)) = HierarchicalStorage.hotCache this /\
  (tier = "warm" ->
   FileSystemStore.get (HierarchicalStorage.warmStore (fst (fst r))) (mem_id m)
     = Some (snd (fst r)) /\
   HierarchicalStorage.coldStore (fst (fst r)) = HierarchicalStorage.coldStore this) /\
  (tier = "cold" ->
   FileSystemStore.get (HierarchicalStorage.coldStore (fst (fst r))) (mem_id m)
     = Some (snd (fst r)) /\
   HierarchicalStorage.warmStore (fst (fst r)) = HierarchicalStorage.warmStore this).
Proof.
  intros Hid Htier r. subst r. unfold HierarchicalStorage.storeToTier.
  set (pr := if HierarchicalStorage.autoCompress this
             then (MemoryCompressor.compress (HierarchicalStorage.compressor this) m
                     (Some (HierarchicalStorage.getCompressionLevel tier)) now,
                   MemoryCompressor.returns_argument m
                     (Some (HierarchicalStorage.getCompressionLevel tier)) now)
             else (m, true)).
  assert (Hp : mem_id (fst pr) = mem_id m).
  { subst pr. destruct (HierarchicalStorage.autoCompress this); cbn [fst];
      [apply compress_meta_id | reflexivity]. }
  destruct pr as [processed same]. cbn [fst] in Hp.
  set (x := with_meta processed (set_tier tier now)).
  assert (Hx : mem_id x = mem_id m) by exact Hp.
  assert (Hadd : forall s, FileSystemStore.add s now x = (FileSystemStore.write_file x s, mem_id m)).
  { intros s. rewrite add_with_id; [now rewrite Hx | now rewrite Hx]. }
  assert (Hsame : with_meta x (set_id (mem_id m)) = x) by (rewrite <- Hx; apply set_own_id).
  destruct Htier as [-> | ->];
    cbn [String.eqb Ascii.eqb Bool.eqb]; rewrite Hadd; cbn [fst snd];
    rewrite Hsame;
    (split; [reflexivity | split; intros H; try discriminate H]);
    (split; [rewrite <- Hx; apply get_write_file_same | reflexivity]).
Qed.

(** X21 ([HierarchicalStorage.migrateToTier], [query], [get]): a cached
    record of the hot tier that is moved to the warm or to the cold
    tier, as the compression cycle does, is written to the store of
    that tier and leaves the cache.  From then on the default [query]
    does not return it and [get] answers with no record and changes
    nothing. *)
Theorem demoted_record_is_out_of_reach :
  forall (this : HierarchicalStorage.t) (i : string) (m : V5Memory) (target : string)
         (now later : Z),
    TierMaintenance.cache_by_id (HierarchicalStorage.hotCache this) ->
    HierarchicalStorage.cache_get (HierarchicalStorage.hotCache this) i = Some m ->
    Js.truthy i = true ->
    storage_tier (meta m) = Some "hot" \/ storage_tier (meta m) = None ->
    target = "warm" \/ target = "cold" ->
    let demoted := HierarchicalStorage.migrateToTier this i target now in
    HierarchicalStorage.cache_get (HierarchicalStorage.hotCache demoted) i = None /\
    (exists m',
        FileSystemStore.get
          (if String.eqb target "warm" then HierarchicalStorage.warmStore demoted
           else HierarchicalStorage.coldStore demoted) i = Some m' /\
        storage_tier (meta m') = Some target /\ mem_id m' = i) /\
    (forall r, In r (HierarchicalStorage.query demoted HierarchicalStorage.all_records) ->
               mem_id r <> i) /\
    HierarchicalStorage.get demoted i later = (demoted, false).
Proof.
  intros this i m target now later Hc Hget Hi Htier Htarget demoted.
  assert (Hmid : mem_id m = i).
  { destruct Hc as [_ Hc]. apply Hc. now apply cache_get_In. }
  destruct (cache_delete_by_id _ i Hc) as (_ & Hdel & Hvals).
  assert (Hcur : match storage_tier (meta m) with
                 | Some s => Js.or_else s "hot"
                 | None => "hot"
                 end = "hot") by (destruct Htier as [-> | ->]; reflexivity).
  assert (Hne : String.eqb "hot" target = false) by (destruct Htarget as [-> | ->]; reflexivity).
  set (this1 := HierarchicalStorage.with_hotCache this
                  (HierarchicalStorage.cache_delete (HierarchicalStorage.hotCache this) i)).
  assert (Hmt : Js.truthy (mem_id m) = true) by now rewrite Hmid.
  pose proof (storeToTier_lower this1 m target now Hmt Htarget) as Hlow.
  pose proof (storeToTier_stored this1 m target now Hmt) as Hsto.
  cbv zeta in Hlow, Hsto.
  assert (Hd : HierarchicalStorage.hotCache demoted =
               HierarchicalStorage.cache_delete (HierarchicalStorage.hotCache this) i /\
               HierarchicalStorage.warmStore demoted =
               HierarchicalStorage.warmStore
                 (fst (fst (HierarchicalStorage.storeToTier this1 m target now))) /\
               HierarchicalStorage.coldStore demoted =
               HierarchicalStorage.coldStore
                 (fst (fst (HierarchicalStorage.storeToTier this1 m target now)))).
  { subst demoted. unfold HierarchicalStorage.migrateToTier.
    rewrite Hget, Hcur, Hne. change (String.eqb "hot" "hot") with true. cbv iota.
    fold this1.
    destruct (HierarchicalStorage.storeToTier this1 m target now) as [[this2 p] same].
    cbn [fst snd] in *. destruct Hlow as (Hh & _).
    destruct same; cbn [HierarchicalStorage.with_hotCache HierarchicalStorage.hotCache
                        HierarchicalStorage.warmStore HierarchicalStorage.coldStore].
    - unfold HierarchicalStorage.cache_mutate, HierarchicalStorage.cache_has.
      rewrite Hh. cbn [this1 HierarchicalStorage.with_hotCache HierarchicalStorage.hotCache].
      rewrite Hdel. repeat split.
    - rewrite Hh. repeat split. }
  destruct Hd as (Hd1 & Hd2 & Hd3).
  assert (Huncached : HierarchicalStorage.cache_has (HierarchicalStorage.hotCache demoted) i
                      = false).
  { unfold HierarchicalStorage.cache_has. now rewrite Hd1, Hdel. }
  destruct Hsto as (S1 & S2 & _).
  destruct Hlow as (_ & Hw & Hcold).
  split; [now rewrite Hd1 | split; [| split]].
  - exists (snd (fst (HierarchicalStorage.storeToTier this1 m target now))).
    split; [| split; [exact S2 | now rewrite S1]].
    destruct Htarget as [-> | ->]; cbn [String.eqb Ascii.eqb Bool.eqb].
    + rewrite Hd2, <- Hmid. now apply Hw.
    + rewrite Hd3, <- Hmid. now apply Hcold.
  - intros r Hr. unfold HierarchicalStorage.query, HierarchicalStorage.all_records in Hr.
    cbn [HierarchicalStorage.includeAllTiers] in Hr. apply filter_In in Hr.
    destruct Hr as [Hr _]. rewrite Hd1 in Hr. now apply Hvals.
  - unfold HierarchicalStorage.get. rewrite Huncached.
    rewrite !(migrateToTier_uncached demoted i _ later Huncached). rewrite Huncached.
    destruct (FileSystemStore.get (HierarchicalStorage.warmStore demoted) i);
      [reflexivity |].
    destruct (FileSystemStore.get (HierarchicalStorage.coldStore demoted) i); reflexivity.
Qed.

Lemma demoted_record_is_out_of_reach_witness :
  let added :=
    fst (HierarchicalStorage.add (HierarchicalStorage.new Sample.compressor)
           (Sample.record "m1" "core" "the project uses rocq for proofs") Sample.t0) in
  let later := (Sample.t0 + 10 * Sample.day)%Z in
  let demoted := HierarchicalStorage.migrateToTier added "m1" "warm" later in
  HierarchicalStorage.cache_get (HierarchicalStorage.hotCache demoted) "m1" = None /\
  HierarchicalStorage.get demoted "m1" later = (demoted, false) /\
  map mem_id (HierarchicalStorage.warmStore demoted) = ["m1"].
Proof.
  set (added := fst (HierarchicalStorage.add (HierarchicalStorage.new Sample.compressor)
                       (Sample.record "m1" "core" "the project uses rocq for proofs")
                       Sample.t0)).
  assert (Hkeys : map (fun e => (fst e, mem_id (snd e), storage_tier (meta (snd e))))
                    (HierarchicalStorage.hotCache added) = [("m1", "m1", Some "hot")])
    by (lazy; reflexivity).
  destruct (HierarchicalStorage.hotCache added) as [| [k v] [| e r]] eqn:Hh;
    try discriminate Hkeys.
  cbn [map fst snd] in Hkeys. injection Hkeys as Hk Hv Ht. subst k.
  assert (Hc : TierMaintenance.cache_by_id (HierarchicalStorage.hotCache added)).
  { rewrite Hh. split.
    - cbn [map fst]. constructor; [intros [] | constructor].
    - intros k v' [E | []]. injection E as <- <-. exact Hv. }
  assert (Hm : HierarchicalStorage.cache_get (HierarchicalStorage.hotCache added) "m1" = Some v)
    by (rewrite Hh; reflexivity).
  destruct (demoted_record_is_out_of_reach added "m1" v "warm"
              (Sample.t0 + 10 * Sample.day)%Z (Sample.t0 + 10 * Sample.day)%Z
              Hc Hm eq_refl (or_introl Ht) (or_introl eq_refl)) as (A & _ & _ & B).
  split; [exact A | split; [exact B |]].
  lazy; reflexivity.
Defined.

Lemma query_no_filter (st : FileSystemStore.Store) :
  FileSystemStore.query st FileSystemStore.no_filter = st.
Proof.
  unfold FileSystemStore.query. apply forallb_filter_id. apply forallb_forall.
  intros x _. reflexivity.
Qed.

(** Loading a listing into the cache, as both loops of [rebuildCache]
    do. *)
Lemma load_cached (memories : list V5Memory) :
  forall (h : list (string * V5Memory)) (i : string),
    (In i (map mem_id memories) ->
     exists m, HierarchicalStorage.cache_get
                 (fold_left (fun h mem => HierarchicalStorage.cache_set h (mem_id mem) mem)
                    memories h) i = Some m /\
               In m memories /\ mem_id m = i) /\
    (~ In i (map mem_id memories) ->
     HierarchicalStorage.cache_get
       (fold_left (fun h mem => HierarchicalStorage.cache_set h (mem_id mem) mem) memories h) i
     = HierarchicalStorage.cache_get h i).
Proof.
  induction memories as [| x rest IH]; intros h i; cbn [fold_left map In].
  - split; [intros [] | reflexivity].
  - destruct (IH (HierarchicalStorage.cache_set h (mem_id x) x) i) as [IH1 IH2].
    split.
    + intros Hin.
      destruct (in_dec string_dec i (map mem_id rest)) as [Hr | Hr].
      * destruct (IH1 Hr) as (m & Hm & Hmin & Hmid). exists m. repeat split; auto.
      * destruct Hin as [Hx | Hx]; [| contradiction].
        exists x. rewrite (IH2 Hr). subst i. rewrite cache_get_set. repeat split. now left.
    + intros Hnin. rewrite IH2 by tauto.
      apply cache_get_set_other. intros ->. apply Hnin. now left.
Qed.

(** X22 ([HierarchicalStorage.rebuildCache], [init], [get]): start-up
    puts every record of the warm and of the cold store in the cache
    and leaves both stores as they are; a [get] that follows finds any
    of these records and leaves it cached as a record of the hot tier,
    last used at the time of the call. *)
Theorem rebuildCache_makes_stored_records_reachable :
  forall (this : HierarchicalStorage.t) (i : string) (now : Z),
    (forall m, In m (HierarchicalStorage.warmStore this ++ HierarchicalStorage.coldStore this) ->
               exists t, storage_tier (meta m) = Some t /\ Js.truthy t = true) ->
    (0 < HierarchicalStorage.HOT_maxAge (HierarchicalStorage.tierConfig this))%Z ->
    In i (map mem_id (HierarchicalStorage.warmStore this ++ HierarchicalStorage.coldStore this)) ->
    let started := TierMaintenance.rebuildCache this in
    HierarchicalStorage.warmStore started = HierarchicalStorage.warmStore this /\
    HierarchicalStorage.coldStore started = HierarchicalStorage.coldStore this /\
    HierarchicalStorage.cache_has (HierarchicalStorage.hotCache started) i = true /\
    snd (HierarchicalStorage.get started i now) = true /\
    exists m',
      HierarchicalStorage.cache_get
        (HierarchicalStorage.hotCache (fst (HierarchicalStorage.get started i now))) i
        = Some m' /\
      storage_tier (meta m') = Some "hot" /\
      lastUsedAt (lifecycle (meta m')) = Some now /\
      mem_id m' = i.
Proof.
  intros this i now Htiers Hhot Hin started.
  assert (Hc : exists m,
             HierarchicalStorage.cache_get (HierarchicalStorage.hotCache started) i = Some m /\
             In m (HierarchicalStorage.warmStore this ++ HierarchicalStorage.coldStore this) /\
             mem_id m = i).
  { subst started. unfold TierMaintenance.rebuildCache. cbv zeta.
    cbn [HierarchicalStorage.with_hotCache HierarchicalStorage.hotCache].
    rewrite !query_no_filter.
    destruct (load_cached (HierarchicalStorage.coldStore this)
                (fold_left (fun h mem => HierarchicalStorage.cache_set h (mem_id mem) mem)
                   (HierarchicalStorage.warmStore this) (HierarchicalStorage.hotCache this)) i)
      as [C1 C2].
    destruct (load_cached (HierarchicalStorage.warmStore this)
                (HierarchicalStorage.hotCache this) i) as [W1 _].
    destruct (in_dec string_dec i (map mem_id (HierarchicalStorage.coldStore this)))
      as [Hcold | Hcold].
    - destruct (C1 Hcold) as (m & Hm & Hmin & Hmid).
      exists m. split; [exact Hm | split; [apply in_app_iff; now right | exact Hmid]].
    - rewrite (C2 Hcold).
      rewrite map_app, in_app_iff in Hin. destruct Hin as [Hwarm | Hc']; [| contradiction].
      destruct (W1 Hwarm) as (m & Hm & Hmin & Hmid).
      exists m. split; [exact Hm | split; [apply in_app_iff; now left | exact Hmid]]. }
  destruct Hc as (m & Hm & Hmin & Hmid).
  destruct (Htiers m Hmin) as (t & Ht & Htt).
  split; [reflexivity | split; [reflexivity | split]].
  - unfold HierarchicalStorage.cache_has. now rewrite Hm.
  - exact (get_cached_promotes started i now m t Hm Hmid Ht Htt Hhot).
Qed.

Lemma rebuildCache_makes_stored_records_reachable_witness :
  let added :=
    fst (HierarchicalStorage.add (HierarchicalStorage.new Sample.compressor)
           (Sample.record "m1" "core" "the project uses rocq for proofs") Sample.t0) in
  let later := (Sample.t0 + 10 * Sample.day)%Z in
  let demoted := HierarchicalStorage.runCompressionCycle added later in
  snd (HierarchicalStorage.get demoted "m1" later) = false /\
  snd (HierarchicalStorage.get (TierMaintenance.rebuildCache demoted) "m1" later) = true.
Proof.
  set (demoted :=
         HierarchicalStorage.runCompressionCycle
           (fst (HierarchicalStorage.add (HierarchicalStorage.new Sample.compressor)
                   (Sample.record "m1" "core" "the project uses rocq for proofs") Sample.t0))
           (Sample.t0 + 10 * Sample.day)%Z).
  assert (Hw : map (fun m => (mem_id m, storage_tier (meta m)))
                 (HierarchicalStorage.warmStore demoted) = [("m1", Some "warm")])
    by (lazy; reflexivity).
  assert (Hcold : HierarchicalStorage.coldStore demoted = []) by (lazy; reflexivity).
  destruct (HierarchicalStorage.warmStore demoted) as [| x [| y r]] eqn:Hws;
    try discriminate Hw.
  cbn [map] in Hw. injection Hw as Hid Ht.
  destruct (rebuildCache_makes_stored_records_reachable demoted "m1"
              (Sample.t0 + 10 * Sample.day)%Z) as (_ & _ & _ & A & _).
  - rewrite Hws, Hcold. intros m [<- | []].
    exists "warm". split; [exact Ht | reflexivity].
  - reflexivity.
  - rewrite Hws, Hcold. left. exact Hid.
  - split; [lazy; reflexivity | exact A].
Defined.

(** X23 ([HierarchicalStorage.delete]): after [delete] the id is in no
    tier: it is neither cached nor in a store, [get] answers with no
    record and changes nothing, and [query] over all tiers does not
    return it.  Every other id is cached and stored as before. *)
Theorem delete_removes_from_every_tier :
  forall (this : HierarchicalStorage.t) (i : string) (now : Z),
    TierMaintenance.cache_by_id (HierarchicalStorage.hotCache this) ->
    Chain.unique_ids (HierarchicalStorage.warmStore this) ->
    Chain.unique_ids (HierarchicalStorage.coldStore this) ->
    let deleted := TierMaintenance.delete this i in
    HierarchicalStorage.cache_get (HierarchicalStorage.hotCache deleted) i = None /\
    FileSystemStore.get (HierarchicalStorage.warmStore deleted) i = None /\
    FileSystemStore.get (HierarchicalStorage.coldStore deleted) i = None /\
    HierarchicalStorage.get deleted i now = (deleted, false) /\
    (forall filters r,
        In r (HierarchicalStorage.query deleted filters) -> mem_id r <> i) /\
    (forall j, j <> i ->
       FileSystemStore.get (HierarchicalStorage.warmStore deleted) j =
         FileSystemStore.get (HierarchicalStorage.warmStore this) j /\
       FileSystemStore.get (HierarchicalStorage.coldStore deleted) j =
         FileSystemStore.get (HierarchicalStorage.coldStore this) j).
Proof.
  intros this i now Hc Hw Hcold deleted.
  destruct (cache_delete_by_id _ i Hc) as (_ & Hdel & Hvals).
  assert (H1 : HierarchicalStorage.cache_get (HierarchicalStorage.hotCache deleted) i = None)
    by exact Hdel.
  assert (H2 : FileSystemStore.get (HierarchicalStorage.warmStore deleted) i = None)
    by (apply get_delete_same; exact Hw).
  assert (H3 : FileSystemStore.get (HierarchicalStorage.coldStore deleted) i = None)
    by (apply get_delete_same; exact Hcold).
  split; [exact H1 | split; [exact H2 | split; [exact H3 | split; [| split]]]].
  - unfold HierarchicalStorage.get, HierarchicalStorage.cache_has.
    now rewrite H1, H2, H3.
  - intros filters r Hr. unfold HierarchicalStorage.query in Hr.
    assert (Hcached : forall x,
               In x (filter (fun m => HierarchicalStorage.matchesFilters m filters)
                       (HierarchicalStorage.cache_values
                          (HierarchicalStorage.hotCache deleted))) -> mem_id x <> i).
    { intros x Hx. apply filter_In in Hx. destruct Hx as [Hx _]. now apply Hvals. }
    destruct (HierarchicalStorage.includeAllTiers filters); [| now apply Hcached].
    apply in_app_iff in Hr. destruct Hr as [Hr | Hr]; [now apply Hcached |].
    apply filter_In in Hr. destruct Hr as [Hr _].
    apply in_app_iff in Hr. intros Hid.
    destruct Hr as [Hr | Hr]; apply query_In in Hr; destruct Hr as [Hr _];
      [unfold FileSystemStore.get in H2; apply (find_none _ _ H2) in Hr
      | unfold FileSystemStore.get in H3; apply (find_none _ _ H3) in Hr];
      apply String.eqb_neq in Hr; contradiction.
  - intros j Hj. split; now apply get_delete_other.
Qed.

Lemma delete_removes_from_every_tier_witness :
  let added :=
    fst (HierarchicalStorage.add (HierarchicalStorage.new Sample.compressor)
           (Sample.record_at (Sample.t0 - 40 * Sample.day)%Z "m9" "core"
              "the project uses rocq for proofs") Sample.t0) in
  map mem_id (HierarchicalStorage.coldStore added) = ["m9"] /\
  HierarchicalStorage.get (TierMaintenance.delete added "m9") "m9" Sample.t0
    = (TierMaintenance.delete added "m9", false).
Proof.
  set (added := fst (HierarchicalStorage.add (HierarchicalStorage.new Sample.compressor)
                       (Sample.record_at (Sample.t0 - 40 * Sample.day)%Z "m9" "core"
                          "the project uses rocq for proofs") Sample.t0)).
  assert (Hcold : map mem_id (HierarchicalStorage.coldStore added) = ["m9"])
    by (lazy; reflexivity).
  assert (Hwarm : HierarchicalStorage.warmStore added = []) by (lazy; reflexivity).
  assert (Hkeys : map (fun e => (fst e, mem_id (snd e))) (HierarchicalStorage.hotCache added)
                  = [("m9", "m9")]) by (lazy; reflexivity).
  destruct (delete_removes_from_every_tier added "m9" Sample.t0) as (_ & _ & _ & A & _).
  - destruct (HierarchicalStorage.hotCache added) as [| [k v] [| e r]];
      try discriminate Hkeys.
    cbn [map fst snd] in Hkeys. injection Hkeys as Hk Hv. subst k. split.
    + cbn [map fst]. constructor; [intros [] | constructor].
    + intros k v' [E | []]. injection E as <- <-. exact Hv.
  - rewrite Hwarm. constructor.
  - unfold Chain.unique_ids. rewrite Hcold. constructor; [intros [] | constructor].
  - split; [exact Hcold | exact A].
Defined.

(** ** Extractor: de-duplication *)

Lemma deduplicate_from_spec (candidates : list Extractor.Candidate) :
  forall seen : list string,
    NoDup (map ExtractorFilter.normalized (ExtractorFilter.deduplicate_from seen candidates)) /\
    (forall c, In c (ExtractorFilter.deduplicate_from seen candidates) ->
               In c candidates /\ ~ In (ExtractorFilter.normalized c) seen) /\
    (forall c, In c candidates ->
               In (ExtractorFilter.normalized c) seen \/
               In (ExtractorFilter.normalized c)
                 (map ExtractorFilter.normalized
                    (ExtractorFilter.deduplicate_from seen candidates))) /\
    (NoDup (map ExtractorFilter.normalized candidates) ->
     (forall c, In c candidates -> ~ In (ExtractorFilter.normalized c) seen) ->
     ExtractorFilter.deduplicate_from seen candidates = candidates).
Proof.
  induction candidates as [| x rest IH]; intros seen;
    cbn [ExtractorFilter.deduplicate_from map].
  - split; [constructor | split; [intros c [] | split; [intros c [] | reflexivity]]].
  - destruct (Js.has seen (ExtractorFilter.normalized x)) eqn:E.
    + apply has_In in E. destruct (IH seen) as (A & B & C & _).
      split; [exact A | split; [| split]].
      * intros c Hc. destruct (B c Hc). split; [now right | assumption].
      * intros c [<- | Hc]; [now left | now apply C].
      * intros _ H. exfalso. apply (H x); [now left | exact E].
    + assert (Hx : ~ In (ExtractorFilter.normalized x) seen).
      { intros H. apply has_In in H. congruence. }
      destruct (IH (ExtractorFilter.normalized x :: seen)) as (A & B & C & D).
      split; [| split; [| split]].
      * cbn [map]. constructor; [| exact A].
        intros Hin. apply in_map_iff in Hin. destruct Hin as (c & Hc & Hin).
        destruct (B c Hin) as [_ Hn]. apply Hn. left. now symmetry.
      * intros c [<- | Hc]; [split; [now left | exact Hx] |].
        destruct (B c Hc) as [H1 H2]. split; [now right |].
        intros H. apply H2. now right.
      * intros c [<- | Hc]; [right; now left |].
        destruct (C c Hc) as [[H | H] | H]; [right; left; exact H | now left | right; now right].
      * intros Hnd H. inversion Hnd as [| ? ? Hnin Hrest]; subst.
        f_equal. apply D; [exact Hrest |].
        intros c Hc [Heq | Hs]; [| apply (H c); [now right | exact Hs]].
        apply Hnin. rewrite Heq. now apply in_map.
Qed.

(** X24 ([deduplicate]): the candidates that [deduplicate] returns are
    among those it was given, no two of them have the same text once
    case and white space are set aside, and every candidate given has
    its text, so compared, among them.  Candidates that already differ
    pairwise are returned as given; so de-duplicating twice changes
    nothing more. *)
Theorem deduplicate_keeps_one_of_each_text :
  forall candidates : list Extractor.Candidate,
    let kept := ExtractorFilter.deduplicate candidates in
    NoDup (map ExtractorFilter.normalized kept) /\
    (forall c, In c kept -> In c candidates) /\
    (forall c, In c candidates ->
               exists c', In c' kept /\
                          ExtractorFilter.normalized c' = ExtractorFilter.normalized c) /\
    (NoDup (map ExtractorFilter.normalized candidates) -> kept = candidates) /\
    ExtractorFilter.deduplicate kept = kept /\
    (forall c rest, candidates = c :: rest -> exists rest', kept = c :: rest').
Proof.
  intros candidates kept. subst kept. unfold ExtractorFilter.deduplicate.
  destruct (deduplicate_from_spec candidates []) as (A & B & C & D).
  split; [exact A | split; [| split; [| split; [| split]]]].
  - intros c Hc. now apply B.
  - intros c Hc. destruct (C c Hc) as [[] | H].
    apply in_map_iff in H. destruct H as (c' & H1 & H2). now exists c'.
  - intros H. apply D; [exact H | intros c _ []].
  - destruct (deduplicate_from_spec (ExtractorFilter.deduplicate_from [] candidates) [])
      as (_ & _ & _ & D').
    apply D'; [exact A | intros c _ []].
  - intros c rest ->. cbn. eexists. reflexivity.
Qed.

(** ** Extractor: the score of a candidate *)

Section ExtractionScore.

Local Open Scope R_scope.

Lemma extraction_weight (ty : string) :
  0.5 <= Js.num_or (ExtractorFilter.typeWeights ty) 0.5 <= 0.9 /\
  (ty = "persona" -> Js.num_or (ExtractorFilter.typeWeights ty) 0.5 = 0.9) /\
  (ty = "core" -> Js.num_or (ExtractorFilter.typeWeights ty) 0.5 = 0.85) /\
  (ty <> "persona" -> ty <> "core" -> Js.num_or (ExtractorFilter.typeWeights ty) 0.5 <= 0.7).
Proof.
  unfold ExtractorFilter.typeWeights.
  destruct (String.eqb ty "persona") eqn:E1.
  { apply String.eqb_eq in E1. subst ty. rewrite num_or_nonzero by lra.
    repeat split; try lra; intros; try discriminate; congruence. }
  destruct (String.eqb ty "core") eqn:E2.
  { apply String.eqb_eq in E2. subst ty. rewrite num_or_nonzero by lra.
    repeat split; try lra; intros; try discriminate; congruence. }
  apply String.eqb_neq in E1, E2.
  destruct (String.eqb ty "episodic"); [rewrite num_or_nonzero by lra | cbn [Js.num_or]];
    repeat split; try lra; intros; try contradiction; lra.
Qed.

(** X25 ([scoreExtraction], [extractMemory]): the score of a candidate
    is a number between 0.16 and 0.765, so the cap at 1 never applies,
    unless the type of the candidate names a member that the table of
    weights inherits from [Object.prototype]: then the score is [NaN].
    A persona or core candidate of 10 to 100 characters reaches the 0.4
    that [extractMemory] asks for; a candidate of more than 100
    characters without a first-person pronoun never does, nor does one
    of fewer than 10 characters without such a pronoun unless it is a
    persona or core candidate.  What [extractMemory] returns are
    candidates it was given, with their score, which is a number at 0.4
    or above. *)
Theorem scoreExtraction_decides_what_is_kept :
  forall (c : Extractor.Candidate) (fullText : string),
    let len := ExtractorFilter.length16 (Extractor.c_text c) in
    (JsObject.inherited (Extractor.c_type c) = true ->
     ExtractorFilter.scoreExtraction c fullText = V5MetaEngine.NaN /\
     ExtractorFilter.scored fullText c = None) /\
    (JsObject.inherited (Extractor.c_type c) = false ->
     exists s,
       ExtractorFilter.scoreExtraction c fullText = V5MetaEngine.Num s /\
       0.16 <= s <= 0.765 /\
       (Extractor.c_type c = "persona" \/ Extractor.c_type c = "core" ->
        (10 <= len <= 100)%nat -> 0.4 <= s) /\
       ((100 < len)%nat -> ExtractorFilter.has_pronoun (Extractor.c_text c) = false ->
        s < 0.4) /\
       ((len < 10)%nat -> ExtractorFilter.has_pronoun (Extractor.c_text c) = false ->
        Extractor.c_type c <> "persona" -> Extractor.c_type c <> "core" -> s < 0.4)) /\
    (forall candidates k,
        In k (ExtractorFilter.filter_and_deduplicate candidates fullText) ->
        0.4 <= Extractor.score k /\
        exists c0,
          In c0 candidates /\
          ExtractorFilter.scoreExtraction c0 fullText = V5MetaEngine.Num (Extractor.score k) /\
          Extractor.c_type k = Extractor.c_type c0 /\
          Extractor.c_text k = Extractor.c_text c0 /\
          Extractor.keyInfo k = Extractor.keyInfo c0 /\
          Extractor.c_dimensions k = Extractor.c_dimensions c0 /\
          Extractor.rawContent k = Extractor.rawContent c0).
Proof.
  intros c fullText len.
  split; [| split].
  - intros Hin. unfold ExtractorFilter.scored, ExtractorFilter.scoreExtraction. cbv zeta.
    rewrite Hin. split; reflexivity.
  - intros Hin. unfold ExtractorFilter.scoreExtraction. cbv zeta. rewrite Hin. fold len.
    destruct (extraction_weight (Extractor.c_type c)) as (Hw & Hp & Hc & He).
    set (w := Js.num_or (ExtractorFilter.typeWeights (Extractor.c_type c)) 0.5) in *.
    eexists. split; [reflexivity |].
    split; [| split; [| split]].
    + destruct (Nat.leb 10 len && Nat.leb len 100); [| destruct (Nat.ltb 100 len)];
        destruct (ExtractorFilter.has_pronoun (Extractor.c_text c));
        destruct (Z.ltb 1 _);
        (split; [apply Rmin_glb; lra | eapply Rle_trans; [apply Rmin_l | lra]]).
    + intros Hty [H1 H2].
      assert (Hband : Nat.leb 10 len && Nat.leb len 100 = true).
      { apply andb_true_iff. split; apply Nat.leb_le; assumption. }
      rewrite Hband.
      assert (Hw' : 0.85 <= w)
        by (destruct Hty as [H | H]; [rewrite (Hp H) | rewrite (Hc H)]; lra).
      destruct (ExtractorFilter.has_pronoun (Extractor.c_text c)); destruct (Z.ltb 1 _);
        apply Rmin_glb; lra.
    + intros Hlen Hpro. rewrite Hpro.
      assert (Hband : Nat.leb 10 len && Nat.leb len 100 = false).
      { apply andb_false_iff. right. apply Nat.leb_gt. exact Hlen. }
      rewrite Hband. apply Nat.ltb_lt in Hlen. rewrite Hlen.
      destruct (Z.ltb 1 _); (eapply Rle_lt_trans; [apply Rmin_l | lra]).
    + intros Hlen Hpro Hn1 Hn2. rewrite Hpro.
      assert (Hband : Nat.leb 10 len && Nat.leb len 100 = false).
      { apply andb_false_iff. left. apply Nat.leb_gt. exact Hlen. }
      rewrite Hband.
      assert (Hlong : Nat.ltb 100 len = false) by (apply Nat.ltb_ge; lia).
      rewrite Hlong. specialize (He Hn1 Hn2).
      destruct (Z.ltb 1 _); (eapply Rle_lt_trans; [apply Rmin_l | lra]).
  - intros candidates k Hk. unfold ExtractorFilter.filter_and_deduplicate in Hk.
    match type of Hk with
    | In _ (ExtractorFilter.deduplicate ?l) =>
        destruct (deduplicate_from_spec l []) as (_ & B & _)
    end.
    apply B in Hk. destruct Hk as [Hk _]. apply in_flat_map in Hk.
    destruct Hk as (c0 & Hc0 & Hk). unfold ExtractorFilter.scored in Hk.
    destruct (ExtractorFilter.scoreExtraction c0 fullText) as [s |] eqn:Es; [| destruct Hk].
    destruct (Js.Rleb 0.4 s) eqn:Hs; [| destruct Hk].
    destruct Hk as [<- | []]. cbn [Extractor.score Extractor.c_type Extractor.c_text
      Extractor.keyInfo Extractor.c_dimensions Extractor.rawContent].
    apply Rleb_true in Hs. split; [exact Hs |].
    exists c0. repeat split; assumption.
Qed.

End ExtractionScore.

(** ** Extractor: tags *)

Lemma lower_char_is_not_U (c : ascii) : Ascii.eqb "U"%char (Js.lower_char c) = false.
Proof. destruct c as [[] [] [] [] [] [] [] []]; reflexivity. Qed.

Lemma lowered_text_has_no_U (p : string) (s : string) :
  Js.includes (String "U"%char p) (Js.toLowerCase s) = false.
Proof.
  induction s as [| c r IH]; cbn [Js.toLowerCase Js.includes Js.starts_with]; [reflexivity |].
  now rewrite lower_char_is_not_U, IH.
Qed.

(** X26 ([inferTags]): a text always gets at least one tag, and the tag
    general exactly when it gets no other.  The tag design is given for
    the words 设计 and 视觉 only: the alternatives UI and UX of its
    pattern are tested on the lower-cased text and never match.  The
    tag english is given exactly to a text with a lower-case ASCII
    letter, so not to a text in capitals. *)
Theorem inferTags_never_matches_UI :
  forall text : string,
    Extractor.inferTags text <> [] /\
    (In "general" (Extractor.inferTags text) <-> Extractor.inferTags text = ["general"]) /\
    Js.includes "UI" (Js.toLowerCase text) = false /\
    Js.includes "UX" (Js.toLowerCase text) = false /\
    (In "design" (Extractor.inferTags text) <->
     Js.includes "设计" (Js.toLowerCase text) = true \/
     Js.includes "视觉" (Js.toLowerCase text) = true) /\
    (In "english" (Extractor.inferTags text) <-> Extractor.has_lower_letter text = true).
Proof.
  intros text.
  pose proof (lowered_text_has_no_U "I" text) as HUI.
  pose proof (lowered_text_has_no_U "X" text) as HUX.
  unfold Extractor.inferTags, Extractor.domainTags. cbv zeta.
  cbn [flat_map existsb fst snd]. rewrite HUI, HUX. cbn [orb].
  rewrite !orb_false_r, !app_nil_r.
  set (english := Extractor.has_lower_letter text).
  set (chinese := Extractor.has_cjk text).
  set (tech := Js.includes "技术" _ || _).
  set (design := Js.includes "设计" _ || _).
  set (writing := Js.includes "写作" _ || _).
  set (business := Js.includes "商务" _ || _).
  set (personal := Js.includes "个人" _ || _).
  set (tags := ((if english then ["english"] else []) ++ _)%list).
  assert (Hin : forall x,
             In x tags <->
             (english = true /\ x = "english") \/ (chinese = true /\ x = "chinese") \/
             (tech = true /\ x = "tech") \/ (design = true /\ x = "design") \/
             (writing = true /\ x = "writing") \/ (business = true /\ x = "business") \/
             (personal = true /\ x = "personal")).
  { intros x. subst tags. rewrite !in_app_iff.
    assert (Hone : forall (b : bool) (t : string),
               In x (if b then [t] else []) <-> b = true /\ x = t).
    { intros b t. destruct b; cbn [In]; split;
        [intros [H | []]; now split | intros [_ H]; now left
        | intros [] | intros [H _]; discriminate H]. }
    rewrite !Hone. tauto. }
  assert (Hgeneral : ~ In "general" tags).
  { intros H. apply Hin in H.
    repeat (destruct H as [[_ H] | H]; [discriminate H |]). destruct H as [_ H].
    discriminate H. }
  assert (Hdesign : In "design" tags <-> design = true).
  { rewrite Hin. split; [| intros H; right; right; right; left; now split].
    intros H. repeat (destruct H as [[H0 H] | H]; [try discriminate H; try exact H0 |]).
    destruct H as [_ H]. discriminate H. }
  assert (Henglish : In "english" tags <-> english = true).
  { rewrite Hin. split; [| intros H; left; now split].
    intros H. repeat (destruct H as [[H0 H] | H]; [try discriminate H; try exact H0 |]).
    destruct H as [_ H]. discriminate H. }
  assert (Hd : design = true <->
               Js.includes "设计" (Js.toLowerCase text) = true \/
               Js.includes "视觉" (Js.toLowerCase text) = true)
    by (unfold design; apply orb_true_iff).
  split; [| split; [| split; [reflexivity | split; [reflexivity | split]]]].
  - destruct tags; discriminate.
  - destruct tags as [| t l] eqn:E; [split; [reflexivity | intros _; now left] |].
    split; [intros H; contradiction | intros H].
    exfalso. apply Hgeneral. rewrite H. now left.
  - rewrite <- Hd, <- Hdesign.
    destruct tags as [| t l] eqn:E; [| reflexivity].
    split; [intros [H | []]; discriminate H | intros []].
  - rewrite <- Henglish.
    destruct tags as [| t l] eqn:E; [| reflexivity].
    split; [intros [H | []]; discriminate H | intros []].
Qed.

(** ** Injector: what reaches the prompt *)

Lemma append_empty_r (s : string) : s ++ "" = s.
Proof. induction s as [| c s IH]; cbn [append]; congruence. Qed.

Lemma append_associative (a b c : string) : (a ++ b) ++ c = a ++ b ++ c.
Proof. induction a as [| x a IH]; cbn [append]; congruence. Qed.

Lemma starts_with_app (p s b : string) :
  Js.starts_with p s = true -> Js.starts_with p (s ++ b) = true.
Proof.
  revert s. induction p as [| a p IH]; intros s; [reflexivity |].
  destruct s as [| c s]; cbn [Js.starts_with append]; [discriminate |].
  rewrite !andb_true_iff. intros [H1 H2]. split; [exact H1 | now apply IH].
Qed.

Lemma starts_with_self (p b : string) : Js.starts_with p (p ++ b) = true.
Proof.
  induction p as [| a p IH]; [reflexivity |].
  cbn [Js.starts_with append]. rewrite IH, andb_true_r. apply Ascii.eqb_refl.
Qed.

Lemma includes_starts (p s : string) : Js.starts_with p s = true -> Js.includes p s = true.
Proof. intros H. destruct s; cbn [Js.includes]; rewrite H; reflexivity. Qed.

Lemma includes_app_l (p s b : string) :
  Js.includes p s = true -> Js.includes p (s ++ b) = true.
Proof.
  induction s as [| c s IH].
  - cbn [Js.includes]. rewrite orb_false_r. intros H. apply includes_starts.
    now apply (starts_with_app p "" b).
  - cbn [Js.includes append]. fold (String c s ++ b). rewrite !orb_true_iff.
    intros [H | H]; [left; now apply (starts_with_app p (String c s) b) | right; now apply IH].
Qed.

Lemma includes_app_r (p a s : string) :
  Js.includes p s = true -> Js.includes p (a ++ s) = true.
Proof.
  intros H. induction a as [| c a IH]; [exact H |].
  cbn [append Js.includes]. rewrite IH. apply orb_true_r.
Qed.

Lemma includes_join (sep x : string) (l : list string) :
  In x l -> Js.includes x (Js.join sep l) = true.
Proof.
  induction l as [| y r IH]; [intros [] |].
  intros [-> | H].
  - destruct r as [| z r']; cbn [Js.join].
    + apply includes_starts. rewrite <- (append_empty_r x) at 2.
      apply starts_with_self.
    + apply includes_starts. apply starts_with_self.
  - destruct r as [| z r']; [destruct H |].
    cbn [Js.join]. apply includes_app_r. apply includes_app_r. now apply IH.
Qed.

Lemma section_includes (label : string) (bucket : list V5Memory) (m : V5Memory) :
  In m bucket -> Js.includes ("• " ++ mem_text m) (Injector.section label bucket) = true.
Proof.
  intros H. unfold Injector.section. destruct bucket as [| x r]; [destruct H |].
  apply includes_app_r. apply includes_app_r. apply includes_app_r.
  apply includes_join. apply (in_map (fun m => "• " ++ mem_text m)). exact H.
Qed.

Lemma buildContext_includes (memories : list V5Memory) (m : V5Memory) :
  In m memories -> InjectorAdapters.has_section m = true ->
  Js.includes ("• " ++ mem_text m) (Injector.buildContext memories) = true.
Proof.
  intros Hin Hs. unfold Injector.buildContext.
  unfold InjectorAdapters.has_section in Hs. cbv zeta in Hs.
  assert (Hof : forall ty, String.eqb (Js.or_else (mem_type m) "episodic") ty = true ->
                           In m (Injector.of_type ty memories)).
  { intros ty E. unfold Injector.of_type. apply filter_In. now split. }
  apply includes_app_r. apply includes_app_r. apply includes_app_r. apply includes_app_r.
  rewrite !orb_true_iff in Hs. destruct Hs as [[[Hs | Hs] | Hs] | Hs].
  - apply includes_app_l. apply section_includes. now apply Hof.
  - apply includes_app_r. apply includes_app_l. apply section_includes. now apply Hof.
  - apply includes_app_r. apply includes_app_r. apply includes_app_l.
    apply section_includes. now apply Hof.
  - apply includes_app_r. apply includes_app_r. apply includes_app_r. apply includes_app_l.
    apply section_includes. now apply Hof.
Qed.

Lemma of_type_has_section (ty : string) (memories : list V5Memory) :
  ty = "pinned" \/ ty = "persona" \/ ty = "core" \/ ty = "episodic" ->
  Injector.of_type ty (filter InjectorAdapters.has_section memories) =
  Injector.of_type ty memories.
Proof.
  intros Hty. unfold Injector.of_type.
  induction memories as [| x r IH]; [reflexivity |].
  cbn [filter]. destruct (InjectorAdapters.has_section x) eqn:E.
  - cbn [filter]. now rewrite IH.
  - rewrite IH.
    assert (F : String.eqb (Js.or_else (mem_type x) "episodic") ty = false).
    { unfold InjectorAdapters.has_section in E. cbv zeta in E.
      rewrite !orb_false_iff in E. destruct E as [[[E1 E2] E3] E4].
      destruct Hty as [-> | [-> | [-> | ->]]]; assumption. }
    now rewrite F.
Qed.

(** X27 ([injectMemory], [buildContext], [getAdapter]): with no memory
    to inject the input is passed on as it is.  Otherwise, for the
    adapter of a platform name (an unknown name gets the deepseek
    adapter; a name inherited from [Object.prototype] gets no adapter)
    and memories of which no type is such an inherited name (under one,
    [buildContext] throws), the prompt ends with the input and contains
    the text of every memory whose type has a section, pinned ones
    included, as a bullet; memories of any other type leave no trace in
    it. *)
Theorem injectMemory_carries_input_and_memories :
  forall (input platform : string) (adapter : Injector.Adapter) (memories : list V5Memory)
         (now : Z),
    InjectorAdapters.getAdapter platform = Some adapter ->
    (forall m, In m memories ->
               JsObject.inherited (InjectorAdapters.context_type m) = false) ->
    let result := Injector.injectMemory input memories adapter now in
    JsObject.inherited platform = false /\
    Injector.original result = input /\
    Injector.adapter result = Injector.name adapter /\
    (Injector.name adapter = "deepseek" \/ Injector.name adapter = "chatgpt" \/
     Injector.name adapter = "claude") /\
    (memories = [] -> Injector.injected result = input) /\
    (memories <> [] ->
     (exists before, Injector.injected result = before ++ input) /\
     (forall m, In m memories -> InjectorAdapters.has_section m = true ->
                Js.includes ("• " ++ mem_text m) (Injector.injected result) = true) /\
     Injector.memories result = Some (List.length memories)) /\
    Injector.buildContext (filter InjectorAdapters.has_section memories) =
      Injector.buildContext memories.
Proof.
  intros input platform adapter memories now Hadapter Htypes result.
  assert (Hcases : JsObject.inherited platform = false /\
                   (adapter = Injector.deepseekAdapter \/
                    adapter = InjectorAdapters.chatgptAdapter \/
                    adapter = InjectorAdapters.claudeAdapter)).
  { unfold InjectorAdapters.getAdapter in Hadapter.
    destruct (String.eqb platform "deepseek") eqn:E1;
      [apply String.eqb_eq in E1; subst platform; injection Hadapter as <-;
       split; [reflexivity | now left] |].
    destruct (String.eqb platform "chatgpt") eqn:E2;
      [apply String.eqb_eq in E2; subst platform; injection Hadapter as <-;
       split; [reflexivity | right; now left] |].
    destruct (String.eqb platform "claude") eqn:E3;
      [apply String.eqb_eq in E3; subst platform; injection Hadapter as <-;
       split; [reflexivity | right; now right] |].
    destruct (String.eqb platform "claude-3-opus") eqn:E4;
      [apply String.eqb_eq in E4; subst platform; injection Hadapter as <-;
       split; [reflexivity | right; now right] |].
    destruct (String.eqb platform "claude-3-sonnet") eqn:E5;
      [apply String.eqb_eq in E5; subst platform; injection Hadapter as <-;
       split; [reflexivity | right; now right] |].
    destruct (String.eqb platform "gpt-4") eqn:E6;
      [apply String.eqb_eq in E6; subst platform; injection Hadapter as <-;
       split; [reflexivity | right; now left] |].
    destruct (String.eqb platform "gpt-3.5-turbo") eqn:E7;
      [apply String.eqb_eq in E7; subst platform; injection Hadapter as <-;
       split; [reflexivity | right; now left] |].
    destruct (JsObject.inherited platform); [discriminate Hadapter |].
    injection Hadapter as <-. split; [reflexivity | now left]. }
  destruct Hcases as [Hplatform Hcases].
  assert (Hshape : exists infix,
             forall ctx, Injector.inject adapter input ctx = ctx ++ infix ++ input).
  { destruct Hcases as [-> | [-> | ->]].
    - exists (Injector.nl ++ Injector.nl ++ "---" ++ Injector.nl ++ Injector.nl ++ "用户：").
      intros ctx. reflexivity.
    - exists (Injector.nl ++ Injector.nl ++ "---" ++ Injector.nl ++ Injector.nl).
      intros ctx. reflexivity.
    - exists (Injector.nl ++ Injector.nl ++ "---" ++ Injector.nl ++ Injector.nl).
      intros ctx. reflexivity. }
  assert (Hname : Injector.name adapter = "deepseek" \/ Injector.name adapter = "chatgpt" \/
                  Injector.name adapter = "claude").
  { destruct Hcases as [-> | [-> | ->]]; [now left | right; now left | right; now right]. }
  clear Hadapter Hcases.
  destruct Hshape as [infix Hinj].
  split; [exact Hplatform |].
  split; [| split; [| split; [exact Hname | split; [| split]]]].
  - subst result. unfold Injector.injectMemory. destruct memories; reflexivity.
  - subst result. unfold Injector.injectMemory. destruct memories; reflexivity.
  - intros ->. reflexivity.
  - intros Hne. subst result. unfold Injector.injectMemory.
    destruct memories as [| x r] eqn:E; [contradiction |]. rewrite <- E. cbv zeta.
    cbn [Injector.injected Injector.memories].
    rewrite Hinj.
    assert (Htruthy : Js.or_else (Injector.buildContext memories ++ infix ++ input)
                        (Injector.defaultInject input (Injector.buildContext memories))
                      = Injector.buildContext memories ++ infix ++ input).
    { unfold Js.or_else, Injector.buildContext. reflexivity. }
    rewrite Htruthy. split; [| split; [| reflexivity]].
    + exists (Injector.buildContext memories ++ infix). now rewrite append_associative.
    + intros m Hm Hs. apply includes_app_l. now apply buildContext_includes.
  - unfold Injector.buildContext. rewrite !of_type_has_section by tauto. reflexivity.
Qed.

Lemma injectMemory_carries_input_and_memories_witness :
  let memories := [Sample.record "m1" "pinned" "never deploy on friday"] in
  let result :=
    Injector.injectMemory "what is due" memories InjectorAdapters.chatgptAdapter Sample.t0 in
  Injector.original result = "what is due" /\
  Injector.adapter result = "chatgpt" /\
  Js.includes "• never deploy on friday" (Injector.injected result) = true.
Proof.
  cbv zeta.
  destruct (injectMemory_carries_input_and_memories "what is due" "gpt-4"
              InjectorAdapters.chatgptAdapter
              [Sample.record "m1" "pinned" "never deploy on friday"] Sample.t0)
    as (_ & A & B & _ & _ & C & _).
  - reflexivity.
  - intros m [<- | []]. reflexivity.
  - split; [exact A | split; [exact B |]].
    destruct C as (_ & C & _); [discriminate |].
    apply (C (Sample.record "m1" "pinned" "never deploy on friday")); [now left | reflexivity].
Defined.

(** ** HierarchicalStorage: purging the cold store *)

Lemma delete_middle (x : V5Memory) (l1 l2 : list V5Memory) :
  (forall y, In y l1 -> mem_id y <> mem_id x) ->
  FileSystemStore.delete (l1 ++ x :: l2)%list (mem_id x) = (l1 ++ l2)%list.
Proof.
  induction l1 as [| a l1 IH]; cbn [app FileSystemStore.delete]; intros H.
  - now rewrite String.eqb_refl.
  - destruct (String.eqb (mem_id a) (mem_id x)) eqn:E.
    + apply String.eqb_eq in E. exfalso. apply (H a); [now left | exact E].
    + rewrite IH; [reflexivity |]. intros y Hy. apply H. now right.
Qed.

Lemma purge_fold (now : Z) (pending : list V5Memory) :
  forall (kept : list V5Memory) (n : nat),
    NoDup (map mem_id (kept ++ pending)%list) ->
    fold_left
      (fun (acc : FileSystemStore.Store * nat) mem =>
         if TierMaintenance.long_unused now mem
         then (FileSystemStore.delete (fst acc) (mem_id mem), S (snd acc))
         else acc)
      pending ((kept ++ pending)%list, n)
    = ((kept ++ filter (fun m => negb (TierMaintenance.long_unused now m)) pending)%list,
       (n + List.length (filter (TierMaintenance.long_unused now) pending))%nat).
Proof.
  induction pending as [| x rest IH]; intros kept n Hnd; cbn [fold_left filter].
  - cbn [List.length]. now rewrite Nat.add_0_r.
  - destruct (TierMaintenance.long_unused now x) eqn:E; cbn [negb fst snd].
    + rewrite delete_middle.
      * refine (eq_trans (IH kept (S n) _) _).
        -- rewrite map_app in *. cbn [map] in Hnd. now apply NoDup_remove_1 in Hnd.
        -- cbn [List.length]. f_equal. lia.
      * intros y Hy Heq. rewrite map_app in Hnd. cbn [map] in Hnd.
        apply NoDup_remove_2 in Hnd. apply Hnd. apply in_or_app. left.
        rewrite <- Heq. now apply in_map.
    + replace (kept ++ x :: rest)%list with ((kept ++ [x]) ++ rest)%list
        by (now rewrite <- app_assoc).
      refine (eq_trans (IH (kept ++ [x])%list n _) _).
      * now rewrite <- app_assoc.
      * now rewrite <- app_assoc.
Qed.

(** X28 ([HierarchicalStorage.cleanup]): [cleanup] deletes from the
    cold store exactly the records not used for more than 180 days,
    keeps the others in their order, and returns the number deleted.
    It leaves the warm store and the cache alone: a deleted record that
    is cached stays cached, and a [get] still answers with it. *)
Theorem cleanup_purges_the_cold_store_only :
  forall (this : HierarchicalStorage.t) (now : Z),
    Chain.unique_ids (HierarchicalStorage.coldStore this) ->
    let purged := fst (TierMaintenance.cleanup this now) in
    HierarchicalStorage.coldStore purged =
      filter (fun m => negb (TierMaintenance.long_unused now m))
        (HierarchicalStorage.coldStore this) /\
    snd (TierMaintenance.cleanup this now) =
      List.length (filter (TierMaintenance.long_unused now)
                     (HierarchicalStorage.coldStore this)) /\
    HierarchicalStorage.warmStore purged = HierarchicalStorage.warmStore this /\
    HierarchicalStorage.hotCache purged = HierarchicalStorage.hotCache this /\
    (forall m, In m (HierarchicalStorage.coldStore purged) ->
               forall l, lastUsedAt (lifecycle (meta m)) = Some l ->
                         (now - l <= TierMaintenance.days_180)%Z) /\
    (forall i later,
        HierarchicalStorage.cache_has (HierarchicalStorage.hotCache this) i = true ->
        snd (HierarchicalStorage.get purged i later) = true).
Proof.
  intros this now Hu purged.
  assert (H : TierMaintenance.cleanup this now =
              (HierarchicalStorage.with_coldStore this
                 (filter (fun m => negb (TierMaintenance.long_unused now m))
                    (HierarchicalStorage.coldStore this)),
               List.length (filter (TierMaintenance.long_unused now)
                              (HierarchicalStorage.coldStore this)))).
  { pose proof (purge_fold now (HierarchicalStorage.coldStore this) [] 0%nat Hu) as Hf.
    cbn [app Nat.add] in Hf.
    unfold TierMaintenance.cleanup. cbv zeta. rewrite query_no_filter.
    destruct (fold_left _ _ _) as [cold cleaned].
    injection Hf as -> ->. reflexivity. }
  subst purged. rewrite H. cbn [fst snd].
  split; [reflexivity | split; [reflexivity | split; [reflexivity | split; [reflexivity |]]]].
  split.
  - cbn [HierarchicalStorage.with_coldStore HierarchicalStorage.coldStore].
    intros m Hm l Hl. apply filter_In in Hm. destruct Hm as [_ Hm].
    unfold TierMaintenance.long_unused in Hm. cbv zeta in Hm. rewrite Hl in Hm.
    apply negb_true_iff in Hm. apply Z.ltb_ge in Hm. exact Hm.
  - intros i later Hi. unfold HierarchicalStorage.get.
    cbn [HierarchicalStorage.with_coldStore HierarchicalStorage.hotCache].
    rewrite Hi. reflexivity.
Qed.

Lemma cleanup_purges_the_cold_store_only_witness :
  let added :=
    fst (HierarchicalStorage.add (HierarchicalStorage.new Sample.compressor)
           (Sample.record_at (Sample.t0 - 200 * Sample.day)%Z "m9" "core"
              "the project uses rocq for proofs") Sample.t0) in
  map mem_id (HierarchicalStorage.coldStore added) = ["m9"] /\
  HierarchicalStorage.coldStore (fst (TierMaintenance.cleanup added Sample.t0)) = [] /\
  snd (TierMaintenance.cleanup added Sample.t0) = 1%nat /\
  snd (HierarchicalStorage.get (fst (TierMaintenance.cleanup added Sample.t0)) "m9" Sample.t0)
    = true.
Proof.
  cbv zeta.
  set (added := fst (HierarchicalStorage.add (HierarchicalStorage.new Sample.compressor)
                       (Sample.record_at (Sample.t0 - 200 * Sample.day)%Z "m9" "core"
                          "the project uses rocq for proofs") Sample.t0)).
  assert (Hcold : map (fun m => (mem_id m, lastUsedAt (lifecycle (meta m))))
                    (HierarchicalStorage.coldStore added)
                  = [("m9", Some (Sample.t0 - 200 * Sample.day)%Z)])
    by (lazy; reflexivity).
  destruct (HierarchicalStorage.coldStore added) as [| x [| y r]] eqn:Hc;
    try discriminate Hcold.
  cbn [map] in Hcold. injection Hcold as Hid Hl.
  destruct (cleanup_purges_the_cold_store_only added Sample.t0) as (A & B & _ & _ & _ & C).
  - unfold Chain.unique_ids. rewrite Hc. cbn [map]. constructor; [intros [] | constructor].
  - assert (Hold : TierMaintenance.long_unused Sample.t0 x = true).
    { unfold TierMaintenance.long_unused. cbv zeta. rewrite Hl. reflexivity. }
    rewrite Hc in A, B. cbn [filter] in A, B. rewrite Hold in A, B. cbn [negb] in A.
    split; [cbn [map]; now rewrite Hid | split; [exact A | split; [exact B |]]].
    apply C. lazy. reflexivity.
Defined.

(** ** The engine: which records a batch writes *)

Section WriteThreshold.

Local Open Scope R_scope.

Lemma write_from_ids (cfg : V5MetaEngine.Config) (now : Z) (memories : list V5Memory) :
  (forall m, In m memories -> Js.truthy (mem_id m) = true) ->
  forall (st : FileSystemStore.Store) (written : list V5Memory),
    map mem_id (snd (V5MetaEngine.write_from cfg now st memories written)) =
    (map mem_id written ++
     map mem_id
       (filter (fun m => negb (Js.Rltb (Scorer.calculateWriteScore m)
                                 (V5MetaEngine.writeThreshold cfg))) memories))%list.
Proof.
  induction memories as [| m rest IH]; intros Hid st written;
    cbn [V5MetaEngine.write_from filter map].
  - now rewrite app_nil_r.
  - assert (Hrest : forall x, In x rest -> Js.truthy (mem_id x) = true)
      by (intros x Hx; apply Hid; now right).
    unfold V5MetaEngine.write_one.
    destruct (Js.Rltb (Scorer.calculateWriteScore m) (V5MetaEngine.writeThreshold cfg));
      cbn [negb].
    + now apply IH.
    + destruct (V5MetaEngine.persist now st (V5MetaEngine.processSensitive cfg m))
        as [st' w] eqn:E.
      rewrite (IH Hrest). rewrite map_app. cbn [map]. rewrite <- app_assoc. cbn [app].
      assert (Hw : mem_id w = mem_id m).
      { pose proof (persist_written now st (V5MetaEngine.processSensitive cfg m)) as H.
        rewrite E in H. cbn [snd] in H. rewrite processSensitive_id in H.
        apply H. apply Hid. now left. }
      now rewrite Hw.
Qed.

(** X29 ([V5MetaEngine.write], [calculateWriteScore]): a batch reports
    as written exactly the records whose write score is at least the
    threshold, under their ids and in their order; a batch of records
    below the threshold leaves the store as it was.  In the score a
    confidence or importance of 0 counts like a missing one, as 0.8 and
    0.7, and a record with no dimension scores 0.81. *)
Theorem write_reports_the_records_at_threshold :
  forall (cfg : V5MetaEngine.Config) (now : Z) (st : FileSystemStore.Store)
         (memories : list V5Memory),
    (forall m, In m memories -> Js.truthy (mem_id m) = true) ->
    map mem_id (snd (V5MetaEngine.write cfg now st memories)) =
      map mem_id
        (filter (fun m => Js.Rleb (V5MetaEngine.writeThreshold cfg)
                            (Scorer.calculateWriteScore m)) memories) /\
    ((forall m, In m memories ->
                Scorer.calculateWriteScore m < V5MetaEngine.writeThreshold cfg) ->
     V5MetaEngine.write cfg now st memories = (st, [])) /\
    (forall (m : V5Memory) (c i : option R),
        (c = None \/ c = Some 0) -> (i = None \/ i = Some 0) ->
        let d := dimensions (meta m) in
        Scorer.calculateWriteScore
          (with_meta m
             (set_dimensions
                (mkDimensions c i (time_decay d) (recall_priority d) (platformWeight d)
                   (freshness d) (dim_compressed d) (dim_compression_level d)))) =
        0.8 * 0.4 + 0.7 * 0.3 +
        Js.num_default (platformWeight d) 1.0 * 0.2 + Js.num_default (freshness d) 0.8 * 0.1).
Proof.
  intros cfg now st memories Hid. split; [| split].
  - unfold V5MetaEngine.write. rewrite (write_from_ids cfg now memories Hid). cbn [map app].
    f_equal. apply filter_ext. intros m.
    destruct (Js.Rltb _ _) eqn:E; cbn [negb]; symmetry.
    + apply Rltb_true in E. apply Rleb_false. exact E.
    + apply Rltb_false in E. apply Rleb_true. exact E.
  - intros Hlow. unfold V5MetaEngine.write. clear Hid.
    induction memories as [| m rest IH]; [reflexivity |].
    cbn [V5MetaEngine.write_from].
    rewrite write_one_rejects by (apply Hlow; now left).
    apply IH. intros x Hx. apply Hlow. now right.
  - intros m c i Hc Hi d. unfold Scorer.calculateWriteScore. cbv zeta.
    cbn [with_meta meta dimensions set_dimensions confidence importance platformWeight
         freshness].
    destruct Hc as [-> | ->], Hi as [-> | ->]; cbn [Js.num_default];
      rewrite ?num_or_zero, ?(num_or_nonzero 0.8), ?(num_or_nonzero 0.7) by lra;
      reflexivity.
Qed.

Lemma write_reports_the_records_at_threshold_witness :
  map mem_id
    (snd (V5MetaEngine.write V5MetaEngine.default_config Sample.t0 []
            [Sample.record "m1" "core" "the project uses rocq"]))
  = ["m1"].
Proof.
  destruct (write_reports_the_records_at_threshold V5MetaEngine.default_config Sample.t0 []
              [Sample.record "m1" "core" "the project uses rocq"]) as (A & _).
  - intros m [<- | []]. reflexivity.
  - rewrite A. cbn [filter]. unfold Sample.record. rewrite sample_writeScore.
    assert (H : Js.Rleb (V5MetaEngine.writeThreshold V5MetaEngine.default_config) 0.81 = true).
    { apply Rleb_true. unfold V5MetaEngine.default_config, V5MetaEngine.writeThreshold. lra. }
    rewrite H. reflexivity.
Defined.

End WriteThreshold.

(** ** Retriever: the cosine of two embeddings *)

Section Cosine.

Local Open Scope R_scope.

Lemma cosine_step (d na nb x y : R) :
  0 <= na -> 0 <= nb -> d * d <= na * nb ->
  (d + x * y) * (d + x * y) <= (na + x * x) * (nb + y * y).
Proof.
  intros Ha Hb Hd.
  assert (Hx : 0 <= x * x) by apply Rle_0_sqr.
  assert (Hy : 0 <= y * y) by apply Rle_0_sqr.
  assert (Hxy : 0 <= (x * y) * (x * y)) by apply Rle_0_sqr.
  assert (H1 : (2 * d * x * y) * (2 * d * x * y) <=
               (na * (y * y) + nb * (x * x)) * (na * (y * y) + nb * (x * x))).
  { assert (H2 : d * d * ((x * y) * (x * y)) <= na * nb * ((x * y) * (x * y)))
      by (apply Rmult_le_compat_r; assumption).
    assert (H3 : 0 <= (na * (y * y) - nb * (x * x)) * (na * (y * y) - nb * (x * x)))
      by apply Rle_0_sqr.
    replace ((2 * d * x * y) * (2 * d * x * y)) with (4 * (d * d * ((x * y) * (x * y))))
      by ring.
    replace ((na * (y * y) + nb * (x * x)) * (na * (y * y) + nb * (x * x)))
      with ((na * (y * y) - nb * (x * x)) * (na * (y * y) - nb * (x * x)) +
            4 * (na * nb * ((x * y) * (x * y)))) by ring.
    lra. }
  assert (H4 : 2 * d * x * y <= na * (y * y) + nb * (x * x)).
  { apply Rsqr_incr_0_var; [exact H1 |].
    apply Rplus_le_le_0_compat; apply Rmult_le_pos; assumption. }
  nra.
Qed.

Lemma sums_invariant (l : list (R * R)) :
  forall acc : R * R * R,
    0 <= snd (fst acc) -> 0 <= snd acc ->
    fst (fst acc) * fst (fst acc) <= snd (fst acc) * snd acc ->
    let r := fold_left Semantic.step l acc in
    0 <= snd (fst r) /\ 0 <= snd r /\ fst (fst r) * fst (fst r) <= snd (fst r) * snd r.
Proof.
  induction l as [| [x y] l IH]; intros [[d na] nb] Ha Hb Hd; cbn [fold_left fst snd] in *.
  - repeat split; assumption.
  - apply IH; cbn [Semantic.step fst snd].
    + nra.
    + nra.
    + now apply cosine_step.
Qed.

Lemma sums_self (a : list R) :
  forall n : R,
    fold_left Semantic.step (combine a a) (n, n, n) =
    (fst (fst (fold_left Semantic.step (combine a a) (n, n, n))),
     fst (fst (fold_left Semantic.step (combine a a) (n, n, n))),
     fst (fst (fold_left Semantic.step (combine a a) (n, n, n)))).
Proof.
  induction a as [| x a IH]; intros n; cbn [combine fold_left Semantic.step fst snd].
  - reflexivity.
  - apply IH.
Qed.

Lemma sums_swap (a : list R) :
  forall (b : list R) (d na nb : R),
    fold_left Semantic.step (combine b a) (d, nb, na) =
    (fst (fst (fold_left Semantic.step (combine a b) (d, na, nb))),
     snd (fold_left Semantic.step (combine a b) (d, na, nb)),
     snd (fst (fold_left Semantic.step (combine a b) (d, na, nb)))).
Proof.
  induction a as [| x a IH]; intros [| y b] d na nb; cbn [combine fold_left fst snd];
    try reflexivity.
  cbn [Semantic.step fst snd]. rewrite (Rmult_comm y x). apply IH.
Qed.

Lemma quotient_in_range (d na nb : R) :
  0 <= na -> 0 <= nb -> d * d <= na * nb ->
  Semantic.js_div d (sqrt na * sqrt nb) = Semantic.NotANumber \/
  exists r, Semantic.js_div d (sqrt na * sqrt nb) = Semantic.Finite r /\ -1 <= r <= 1.
Proof.
  intros Ha Hb Hd. unfold Semantic.js_div.
  set (s := sqrt na * sqrt nb).
  assert (Hs : 0 <= s) by (apply Rmult_le_pos; apply sqrt_pos).
  assert (Hss : s * s = na * nb).
  { unfold s. replace (sqrt na * sqrt nb * (sqrt na * sqrt nb))
      with ((sqrt na * sqrt na) * (sqrt nb * sqrt nb)) by ring.
    now rewrite !sqrt_sqrt. }
  destruct (Req_dec_T s 0) as [E | E].
  - left. assert (d * d <= 0) by (rewrite E in Hss; lra).
    assert (d = 0) by nra. destruct (Req_dec_T d 0); [reflexivity | contradiction].
  - right. exists (d / s). split; [reflexivity |].
    assert (Hpos : 0 < s) by lra.
    assert (H1 : d <= s) by (apply Rsqr_incr_0_var; [unfold Rsqr; lra | exact Hs]).
    assert (H2 : - d <= s).
    { apply Rsqr_incr_0_var; [unfold Rsqr; nra | exact Hs]. }
    split.
    + apply Rmult_le_reg_r with s; [exact Hpos |].
      unfold Rdiv. rewrite Rmult_assoc, Rinv_l by lra. lra.
    + apply Rmult_le_reg_r with s; [exact Hpos |].
      unfold Rdiv. rewrite Rmult_assoc, Rinv_l by lra. lra.
Qed.

(** X30 ([cosineSimilarity], [semanticRetrieve]): the similarity of two
    embeddings is 0 when one is missing or their lengths differ;
    otherwise it is a number between -1 and 1, or [NaN] when one of
    them has no non-zero component, never an infinity; it is symmetric;
    and an embedding with a non-zero component is at similarity 1 to
    itself, while an embedding of zeros or of no component is at [NaN],
    which the filter of [semanticRetrieve] rejects. *)
Theorem cosineSimilarity_is_a_cosine :
  forall a b : list R,
    Semantic.cosineSimilarity None (Some b) = Semantic.Finite 0 /\
    Semantic.cosineSimilarity (Some a) None = Semantic.Finite 0 /\
    (List.length a <> List.length b ->
     Semantic.cosineSimilarity (Some a) (Some b) = Semantic.Finite 0) /\
    (Semantic.cosineSimilarity (Some a) (Some b) = Semantic.NotANumber \/
     exists r, Semantic.cosineSimilarity (Some a) (Some b) = Semantic.Finite r /\
               -1 <= r <= 1) /\
    Semantic.cosineSimilarity (Some a) (Some b) = Semantic.cosineSimilarity (Some b) (Some a) /\
    (Semantic.cosineSimilarity (Some a) (Some a) = Semantic.Finite 1 \/
     Semantic.cosineSimilarity (Some a) (Some a) = Semantic.NotANumber) /\
    ((forall x, In x a -> x = 0) ->
     Semantic.cosineSimilarity (Some a) (Some a) = Semantic.NotANumber /\
     Semantic.is_similar (Semantic.cosineSimilarity (Some a) (Some a)) = false).
Proof.
  intros a b.
  assert (Hinv : forall u v,
             let r := Semantic.sums u v in
             0 <= snd (fst r) /\ 0 <= snd r /\
             fst (fst r) * fst (fst r) <= snd (fst r) * snd r).
  { intros u v. unfold Semantic.sums. apply sums_invariant; cbn [fst snd]; lra. }
  split; [reflexivity | split; [reflexivity | split; [| split; [| split; [| split]]]]].
  - intros Hne. unfold Semantic.cosineSimilarity.
    apply Nat.eqb_neq in Hne. now rewrite Hne.
  - unfold Semantic.cosineSimilarity.
    destruct (Nat.eqb (List.length a) (List.length b)); cbn [negb];
      [| right; exists 0; split; [reflexivity | lra]].
    specialize (Hinv a b). cbv zeta in Hinv.
    destruct (Semantic.sums a b) as [[d na] nb]. cbn [fst snd] in Hinv.
    destruct Hinv as (Ha & Hb & Hd). now apply quotient_in_range.
  - unfold Semantic.cosineSimilarity. rewrite (Nat.eqb_sym (List.length b)).
    destruct (Nat.eqb (List.length a) (List.length b)); cbn [negb]; [| reflexivity].
    unfold Semantic.sums. rewrite (sums_swap a b 0 0 0).
    destruct (fold_left Semantic.step (combine a b) (0, 0, 0)) as [[d na] nb].
    cbn [fst snd]. now rewrite (Rmult_comm (sqrt nb)).
  - unfold Semantic.cosineSimilarity. rewrite Nat.eqb_refl. cbn [negb].
    specialize (Hinv a a). cbv zeta in Hinv. unfold Semantic.sums in *.
    rewrite (sums_self a 0) in *.
    set (n := fst (fst (fold_left Semantic.step (combine a a) (0, 0, 0)))) in *.
    cbn [fst snd] in Hinv. destruct Hinv as (Hn & _ & _).
    rewrite sqrt_sqrt by exact Hn. unfold Semantic.js_div.
    destruct (Req_dec_T n 0) as [E | E]; [now right | left].
    f_equal. unfold Rdiv. now apply Rinv_r.
  - intros Hzero.
    assert (Hs : forall l acc, (forall x, In x l -> x = 0) ->
                               fold_left Semantic.step (combine l l) acc = acc).
    { induction l as [| x l IH]; intros [[d na] nb] Hl; [reflexivity |].
      cbn [combine fold_left Semantic.step fst snd].
      rewrite (Hl x (or_introl eq_refl)).
      replace (d + 0 * 0) with d by ring. replace (na + 0 * 0) with na by ring.
      replace (nb + 0 * 0) with nb by ring.
      apply IH. intros y Hy. apply Hl. now right. }
    assert (Hnan : Semantic.cosineSimilarity (Some a) (Some a) = Semantic.NotANumber).
    { unfold Semantic.cosineSimilarity, Semantic.sums. rewrite Nat.eqb_refl. cbn [negb].
      rewrite (Hs a _ Hzero). rewrite sqrt_0. unfold Semantic.js_div.
      destruct (Req_dec_T (0 * 0) 0) as [_ | E]; [| exfalso; apply E; ring].
      destruct (Req_dec_T 0 0) as [_ | E]; [reflexivity | exfalso; now apply E]. }
    split; [exact Hnan | now rewrite Hnan].
Qed.

End Cosine.
